(** * dj-app-structure: the [structure] management command

    A shallow embedding of
    [app_structure/management/commands/structure.py] and the properties
    of its specification.

    The command is sequential filesystem I/O.  Its state is the
    filesystem, the working directory of the process and the text written
    to standard output; an uncaught Python exception aborts the run and
    leaves the filesystem as it was at the raise.  The embedding is a
    state-and-exception monad over that state.

    Environment model (POSIX, as the command is run on): path names are
    strings separated by ["/"]; the filesystem is a finite map from
    absolute component lists to nodes; there are no symbolic links, no
    permissions and no resource limits, so the library calls fail only
    for the reasons the path itself gives (missing entry, entry of the
    wrong kind, entry already there).

    The file has the model first (path strings, the filesystem, path
    resolution, the monad, the library calls, the command, and the notions
    the statements use), then the facts about it, and last the properties
    of the specification, each with an instance on a concrete
    filesystem. *)

From Stdlib Require Import Strings.Ascii Strings.String.
From stdpp Require Import base gmap strings list fin_maps.

Open Scope string_scope.
Open Scope list_scope.

(** ** Path strings: [posixpath] *)

Module Posixpath.

Definition sep : ascii := "/"%char.

Definition startswith_sep (s : string) : bool :=
  match s with
  | String c _ => Ascii.eqb c sep
  | EmptyString => false
  end.

Fixpoint endswith_sep (s : string) : bool :=
  match s with
  | EmptyString => false
  | String c EmptyString => Ascii.eqb c sep
  | String _ r => endswith_sep r
  end.

Fixpoint has_sep (s : string) : bool :=
  match s with
  | EmptyString => false
  | String c r => Ascii.eqb c sep || has_sep r
  end.

Definition is_empty (s : string) : bool :=
  match s with EmptyString => true | _ => false end.

(** One round of the loop of [posixpath.join]:
    [if b.startswith(sep): path = b
     elif not path or path.endswith(sep): path += b
     else: path += sep + b]. *)
Definition join2 (path b : string) : string :=
  if startswith_sep b then b
  else if is_empty path || endswith_sep path then path +:+ b
  else path +:+ String sep b.

(** [os.path.join(a, *p)]. *)
Definition join (a : string) (p : list string) : string :=
  fold_left join2 p a.

(** [(p[:i], p[i:])] for [i = p.rfind(sep) + 1]. *)
Fixpoint rcut (p : string) : string * string :=
  match p with
  | EmptyString => (EmptyString, EmptyString)
  | String c r =>
      let '(h, t) := rcut r in
      if Ascii.eqb c sep || has_sep r then (String c h, t)
      else (EmptyString, String c t)
  end.

(** [s.rstrip(sep)]. *)
Fixpoint rstrip_sep (s : string) : string :=
  match s with
  | EmptyString => EmptyString
  | String c r =>
      match rstrip_sep r with
      | EmptyString => if Ascii.eqb c sep then EmptyString else String c EmptyString
      | r' => String c r'
      end
  end.

(** [posixpath.split]: the head loses its trailing separators unless it
    consists of separators only. *)
Definition split (p : string) : string * string :=
  let '(head, tail) := rcut p in
  (if is_empty (rstrip_sep head) then head else rstrip_sep head, tail).

(** The pieces of a path between separators, as the kernel reads it:
    ["a/b"] gives [["a"; "b"]], ["/a"] gives [[""; "a"]], ["a/"] gives
    [["a"; ""]]. *)
Fixpoint tokens (s : string) : list string :=
  match s with
  | EmptyString => [EmptyString]
  | String c r =>
      if Ascii.eqb c sep then EmptyString :: tokens r
      else match tokens r with
           | t :: ts => String c t :: ts
           | [] => [String c EmptyString]
           end
  end.

End Posixpath.

(** ** The filesystem *)

Inductive node : Type :=
  | File (content : string)
  | Dir.

#[global] Instance node_eq_dec : EqDecision node.
Proof. solve_decision. Defined.

(** Keys are absolute component lists; the root directory is [[]]. *)
Abbreviation fs := (gmap (list string) node).

Definition is_dir (m : fs) (k : list string) : bool :=
  match m !! k with Some Dir => true | _ => false end.

Definition present (m : fs) (k : list string) : bool :=
  match m !! k with Some _ => true | None => false end.

(** A well-formed filesystem is a tree: the root is a directory and every
    other entry lies in a directory. *)
Definition tree (m : fs) : Prop :=
  m !! [] = Some Dir ∧
  ∀ k n v, m !! (k ++ [n]) = Some v → m !! k = Some Dir.

Inductive exn : Type :=
  | FileNotFoundError
  | FileExistsError
  | NotADirectoryError
  | IsADirectoryError
  | RecursionError.

#[global] Instance exn_eq_dec : EqDecision exn.
Proof. solve_decision. Defined.

Inductive result (A : Type) : Type :=
  | Ok (a : A)
  | Raised (e : exn).
Arguments Ok {A} a.
Arguments Raised {A} e.

Inductive message : Type :=
  | ERROR (text : string)
  | WARNING (text : string)
  | SUCCESS (text : string).

#[global] Instance message_eq_dec : EqDecision message.
Proof. solve_decision. Defined.

(** What a run can see and change: the filesystem, the working directory
    ([os.getcwd()]) and the lines written to [self.stdout], oldest
    first. *)
Record world : Type := World {
  files : fs;
  cwd : string;
  out : list message
}.

Definition set_files (m : fs) (w : world) : world :=
  World m (cwd w) (out w).

(** ** Path resolution *)

Module Kernel.
Import Posixpath.

Definition dot (c : string) : bool := is_empty c || String.eqb c ".".

(** One component of a lookup, from directory [cur]. *)
Definition enter (cur : list string) (c : string) : list string :=
  if dot c then cur
  else if String.eqb c ".." then removelast cur
  else cur ++ [c].

(** Following the components of a path: each one is looked up in a
    directory. *)
Fixpoint walk (m : fs) (cur : list string) (toks : list string)
  : result (list string) :=
  match toks with
  | [] => Ok cur
  | c :: rest =>
      match m !! cur with
      | Some Dir => walk m (enter cur c) rest
      | Some (File _) => Raised NotADirectoryError
      | None => Raised FileNotFoundError
      end
  end.

(** Where a lookup starts: the root for an absolute path, the working
    directory otherwise.  [os.getcwd()] is an absolute path without empty
    or dot components, so its non-empty pieces name the directory. *)
Definition origin (wd p : string) : list string :=
  if startswith_sep p then []
  else filter (λ c, is_empty c = false) (tokens wd).

(** [stat]: the entry a path names. *)
Definition stat (m : fs) (wd p : string) : result (list string) :=
  if is_empty p then Raised FileNotFoundError
  else match walk m (origin wd p) (tokens p) with
       | Ok k => if present m k then Ok k else Raised FileNotFoundError
       | Raised e => Raised e
       end.

(** Dropping trailing empty components (trailing separators). *)
Fixpoint strip (l : list string) : list string :=
  match l with
  | [] => []
  | c :: r =>
      match strip r with
      | [] => if is_empty c then [] else [c]
      | r' => c :: r'
      end
  end.

End Kernel.

(** ** The monad of the command *)

Definition M (A : Type) : Type := world → world * result A.

#[global] Instance M_ret : MRet M := λ A a w, (w, Ok a).

#[global] Instance M_bind : MBind M := λ A B f c w,
  match c w with
  | (w', Ok a) => f a w'
  | (w', Raised e) => (w', Raised e)
  end.

Definition raise {A : Type} (e : exn) : M A := λ w, (w, Raised e).

(** [try: c except FileExistsError: pass]. *)
Definition except_FileExistsError (c : M unit) : M unit := λ w,
  match c w with
  | (w', Raised FileExistsError) => (w', Ok ())
  | r => r
  end.

(** [for x in l: body(x)]. *)
Fixpoint for_each {A : Type} (l : list A) (body : A → M unit) : M unit :=
  match l with
  | [] => mret ()
  | x :: l' => body x ;; for_each l' body
  end.

(** ** The library calls the command makes *)

Module Os.
Import Posixpath Kernel.

Definition getcwd : M string := λ w, (w, Ok (cwd w)).

(** [os.path.exists]: [stat] succeeded. *)
Definition path_exists (p : string) : M bool := λ w,
  (w, Ok (match stat (files w) (cwd w) p with Ok _ => true | Raised _ => false end)).

(** [os.remove]: unlink a file; a directory is refused. *)
Definition remove (p : string) : M unit := λ w,
  match stat (files w) (cwd w) p with
  | Raised e => (w, Raised e)
  | Ok k =>
      match files w !! k with
      | Some (File _) => (set_files (delete k (files w)) w, Ok ())
      | _ => (w, Raised IsADirectoryError)
      end
  end.

(** [os.mkdir]: the parent must be a directory and the name free. *)
Definition mkdir (p : string) : M unit := λ w,
  if is_empty p then (w, Raised FileNotFoundError)
  else let toks := strip (tokens p) in
       match toks with
       | [] => (w, Raised FileExistsError)
       | _ :: _ =>
           match walk (files w) (origin (cwd w) p) (removelast toks) with
           | Raised e => (w, Raised e)
           | Ok d =>
               match files w !! d with
               | None => (w, Raised FileNotFoundError)
               | Some (File _) => (w, Raised NotADirectoryError)
               | Some Dir =>
                   let n := List.last toks EmptyString in
                   if dot n || String.eqb n ".." then (w, Raised FileExistsError)
                   else if present (files w) (d ++ [n])
                        then (w, Raised FileExistsError)
                        else (set_files (<[d ++ [n] := Dir]> (files w)) w, Ok ())
               end
           end
       end.

(** [os.makedirs(name)] with [exist_ok=False], by recursion on the head
    of the path; [fuel] bounds the depth. *)
Fixpoint makedirs_fuel (fuel : nat) (name : string) : M unit :=
  match fuel with
  | O => raise RecursionError
  | S fuel' =>
      let '(head, tail) := split name in
      let '(head, tail) := if is_empty tail then split head else (head, tail) in
      let recurse : M bool :=
        if negb (is_empty head) && negb (is_empty tail) then
          e ← path_exists head;
          if negb e then
            except_FileExistsError (makedirs_fuel fuel' head) ;;
            mret (String.eqb tail ".")
          else mret false
        else mret false in
      done ← recurse;
      if done : bool then mret () else mkdir name
  end.

Definition makedirs (name : string) : M unit :=
  makedirs_fuel (S (String.length name)) name.

(** [with open(p, "w"): pass]: create the file empty, or truncate it. *)
Definition open_w (p : string) : M unit := λ w,
  if is_empty p then (w, Raised FileNotFoundError)
  else match walk (files w) (origin (cwd w) p) (removelast (tokens p)) with
       | Raised e => (w, Raised e)
       | Ok d =>
           match files w !! d with
           | None => (w, Raised FileNotFoundError)
           | Some (File _) => (w, Raised NotADirectoryError)
           | Some Dir =>
               let n := List.last (tokens p) EmptyString in
               if dot n || String.eqb n ".." then (w, Raised IsADirectoryError)
               else match files w !! (d ++ [n]) with
                    | Some Dir => (w, Raised IsADirectoryError)
                    | _ => (set_files (<[d ++ [n] := File EmptyString]> (files w)) w, Ok ())
                    end
           end
       end.

End Os.

(** [self.stdout.write(self.style.LEVEL(text))]. *)
Definition stdout_write (msg : message) : M unit := λ w,
  (World (files w) (cwd w) (out w ++ [msg]), Ok ()).

(** ** The command *)

Module Command.
Import Posixpath.

Definition default_files : list string :=
  ["models.py"; "admin.py"; "tests.py"; "views.py"].

(** The dictionary literal of [handle]; a Python dict iterates in
    insertion order, so it is kept as an association list. *)
Definition structure : list (string * list string) :=
  [ ("admin", []);
    ("api", ["exceptions"; "filters"; "orderings"; "paginations";
             "permissions"; "schema"; "routers"; "serializers";
             "throttlings"; "views"]);
    ("models", ["helper"]);
    ("repository", ["manager"; "queryset"]);
    ("signals", []);
    ("tests", ["models"; "api"; "admin"]);
    ("validators", []) ].

Definition create_folder_with_init (path : string) : M unit :=
  e ← Os.path_exists path;
  if negb e then
    Os.makedirs path ;;
    let init_path := join path ["__init__.py"] in
    Os.open_w init_path ;;
    stdout_write (SUCCESS ("Created " +:+ path))
  else mret ().

Definition create_folder_structure (base_dir : string)
    (structure : list (string * list string)) : M unit :=
  for_each structure (λ '(folder, subfolders),
    let folder_path := join base_dir [folder] in
    create_folder_with_init folder_path ;;
    for_each subfolders (λ subfolder,
      let subfolder_path := join folder_path [subfolder] in
      create_folder_with_init subfolder_path)).

Definition remove_default_files (base_dir : string) : M unit :=
  for_each default_files (λ filename,
    let file_path := join base_dir [filename] in
    e ← Os.path_exists file_path;
    if e : bool then
      Os.remove file_path ;;
      stdout_write (WARNING ("Removed " +:+ file_path))
    else mret ()).

Definition handle (app_name : string) : M unit :=
  wd ← Os.getcwd;
  let base_dir := join wd [app_name] in
  e ← Os.path_exists base_dir;
  if negb e then
    stdout_write (ERROR ("App '" +:+ app_name +:+ "' does not exist"))
  else
    remove_default_files base_dir ;;
    create_folder_structure base_dir structure ;;
    let enums_path := join base_dir ["models"; "helper"; "enums"] in
    create_folder_with_init enums_path ;;
    stdout_write (SUCCESS ("Structure created for app '" +:+ app_name +:+ "'")).

End Command.


(** ** Auxiliary notions for the statements *)

Module Aux.
Import Posixpath Kernel.

(** A proper component name: no separator, not empty, not a dot entry. *)
Definition plain (n : string) : bool :=
  negb (has_sep n) && negb (dot n) && negb (String.eqb n "..").

(** The components of the directory part of [join2 a n]. *)
Definition parent_tokens (a : string) : list string :=
  if endswith_sep a then removelast (tokens a) else tokens a.

(** The head [posixpath.split] gives for [join2 a n]. *)
Definition head_of (a : string) : string :=
  if is_empty (rstrip_sep a) then a else rstrip_sep a.


(** Walks only look at directories: they survive any change that keeps
    the directories. *)
Definition dirs_kept (m m' : fs) : Prop :=
  ∀ k, m !! k = Some Dir → m' !! k = Some Dir.

End Aux.

(** ** The run on nodes *)

(** The command only ever passes paths of the form [join2 a n] with [a] a
    path that names an entry and [n] a fixed component name.  On those the
    library calls act on the node [d ++ [n]], where [d] is the entry [a]
    names. *)

Module Nodes.
Import Kernel.

Definition marker : string := "__init__.py".

(** What [create_folder_with_init] does to the node [d ++ [n]]. *)
Definition create_at (d : list string) (n : string) (path : string) : M unit := λ w,
  match files w !! d with
  | Some Dir =>
      match files w !! (d ++ [n]) with
      | Some _ => (w, Ok ())
      | None =>
          (World (<[(d ++ [n]) ++ [marker] := File ""]> (<[d ++ [n] := Dir]> (files w)))
                 (cwd w) (out w ++ [SUCCESS ("Created " +:+ path)]), Ok ())
      end
  | Some (File _) => (w, Raised NotADirectoryError)
  | None => (w, Raised FileNotFoundError)
  end.

(** What one round of [remove_default_files] does to the node [d ++ [n]]. *)
Definition remove_at (d : list string) (n : string) (path : string) : M unit := λ w,
  match files w !! d with
  | Some Dir =>
      match files w !! (d ++ [n]) with
      | None => (w, Ok ())
      | Some (File _) =>
          (World (delete (d ++ [n]) (files w)) (cwd w)
                 (out w ++ [WARNING ("Removed " +:+ path)]), Ok ())
      | Some Dir => (w, Raised IsADirectoryError)
      end
  | _ => (w, Ok ())
  end.


(** The new entries of a creation. *)
Definition grown (m : fs) (d : list string) (n : string) : fs :=
  <[(d ++ [n]) ++ [marker] := File ""]> (<[d ++ [n] := Dir]> m).

(** The filesystem without the entries [b ++ [n]] for [n] in [ns]. *)
Definition without (b : list string) (m : fs) (ns : list string) : fs :=
  foldl (λ m n, delete (b ++ [n]) m) m ns.

(** The state a run keeps while it goes: the filesystem is a tree and the
    base directory path names the node [b]. *)
Definition Inv (b : list string) (base : string) (w : world) : Prop :=
  tree (files w) ∧ stat (files w) (cwd w) base = Ok b.

End Nodes.

Module Plan.
Import Posixpath Aux Nodes.

(** The folders a structure table makes the command attempt, in the
    order of the attempts: the components below the base directory that
    lead to the parent, and the name. *)
Definition flatten (st : list (string * list string)) : list (list string * string) :=
  flat_map (λ '(folder, subfolders),
    ([], folder) :: map (λ subfolder, ([folder], subfolder)) subfolders) st.

(** Every attempt of [handle]: the table, then [models/helper/enums]. *)
Definition targets : list (list string * string) :=
  flatten Command.structure ++ [(["models"; "helper"], "enums")].

(** The attempts are in an order that meets parents first: each parent is
    the base directory or a folder attempted before ([seen]); all names
    are proper component names. *)
Fixpoint closed (seen : list (list string)) (ts : list (list string * string)) : bool :=
  match ts with
  | [] => true
  | (d, n) :: r =>
      forallb plain d && plain n
      && (bool_decide (d = []) || bool_decide (d ∈ seen))
      && closed ((d ++ [n]) :: seen) r
  end.

Definition created_text (base_dir : string) (t : list string * string) : string :=
  "Created " +:+ join base_dir (t.1 ++ [t.2]).

Definition final_text (app_name : string) : string :=
  "Structure created for app '" +:+ app_name +:+ "'".

(** The removals of [remove_default_files] on the nodes below [b]. *)
Definition remove_all (b : list string) (base_dir : string) (ns : list string) : M unit :=
  for_each ns (λ n, remove_at b n (join base_dir [n])).

(** The creation attempts on the nodes below [b]. *)
Definition create_all (b : list string) (base_dir : string)
    (ts : list (list string * string)) : M unit :=
  for_each ts (λ t, create_at (b ++ t.1) t.2 (join base_dir (t.1 ++ [t.2]))).

(** The whole run of [handle] past the existence check, on the nodes
    below [b]. *)
Definition scaffold_at (b : list string) (base_dir app_name : string) : M unit :=
  remove_all b base_dir Command.default_files ;;
  create_all b base_dir targets ;;
  stdout_write (SUCCESS (final_text app_name)).

End Plan.

(** ** The order of the operations *)

Module Order.
Import Posixpath.

(** The operations of a run on an existing target, as the specification
    lists them; a folder is given by its components below the base
    directory. *)
Inductive operation : Type :=
  | Remove_default (filename : string)
  | Create_folder (folder : list string)
  | Report_success.

(** The order the specification states. *)
Definition stated_order : list operation :=
  [ Remove_default "models.py"; Remove_default "admin.py";
    Remove_default "tests.py"; Remove_default "views.py";
    Create_folder ["admin"];
    Create_folder ["api"];
    Create_folder ["api"; "exceptions"]; Create_folder ["api"; "filters"];
    Create_folder ["api"; "orderings"]; Create_folder ["api"; "paginations"];
    Create_folder ["api"; "permissions"]; Create_folder ["api"; "schema"];
    Create_folder ["api"; "routers"]; Create_folder ["api"; "serializers"];
    Create_folder ["api"; "throttlings"]; Create_folder ["api"; "views"];
    Create_folder ["models"]; Create_folder ["models"; "helper"];
    Create_folder ["repository"]; Create_folder ["repository"; "manager"];
    Create_folder ["repository"; "queryset"];
    Create_folder ["signals"];
    Create_folder ["tests"]; Create_folder ["tests"; "models"];
    Create_folder ["tests"; "api"]; Create_folder ["tests"; "admin"];
    Create_folder ["validators"];
    Create_folder ["models"; "helper"; "enums"];
    Report_success ].

(** What each operation is in the code: a removal is the body of the loop
    of [remove_default_files], a creation attempt is a call of
    [create_folder_with_init], the report is the last line of [handle]. *)
Definition perform (base_dir app_name : string) (op : operation) : M unit :=
  match op with
  | Remove_default filename =>
      e ← Os.path_exists (join base_dir [filename]);
      if e : bool then
        Os.remove (join base_dir [filename]) ;;
        stdout_write (WARNING ("Removed " +:+ join base_dir [filename]))
      else mret ()
  | Create_folder folder =>
      Command.create_folder_with_init (join base_dir folder)
  | Report_success =>
      stdout_write (SUCCESS ("Structure created for app '" +:+ app_name +:+ "'"))
  end.

End Order.

(** ** The scaffold of an empty directory *)

Module Scaffold.
Import Posixpath Nodes Plan.

(** The folders of the filesystem contract of the specification, in its
    order, each by its components below the base directory. *)
Definition contract_folders : list (list string) :=
  [ ["admin"];
    ["api"]; ["api"; "exceptions"]; ["api"; "filters"]; ["api"; "orderings"];
    ["api"; "paginations"]; ["api"; "permissions"]; ["api"; "schema"];
    ["api"; "routers"]; ["api"; "serializers"]; ["api"; "throttlings"];
    ["api"; "views"];
    ["models"]; ["models"; "helper"]; ["models"; "helper"; "enums"];
    ["repository"]; ["repository"; "manager"]; ["repository"; "queryset"];
    ["signals"];
    ["tests"]; ["tests"; "models"]; ["tests"; "api"]; ["tests"; "admin"];
    ["validators"] ].

(** The tree of the contract: every folder, and in it the empty marker
    file. *)
Definition contract_entries : list (list string * node) :=
  flat_map (λ p, [(p, Dir); (p ++ ["__init__.py"], File "")]) contract_folders.

Definition contract : fs := list_to_map contract_entries.

(** A tree placed below the node [b]. *)
Definition graft (b : list string) (t : fs) : fs := kmap (app b) t.

(** A tree given by the list of its entries, newest first. *)
Definition entries := list (list string * node).

Fixpoint assoc (l : entries) (q : list string) : option node :=
  match l with
  | [] => None
  | (k, v) :: r => if decide (k = q) then Some v else assoc r q
  end.

(** The creation attempts on the entries below the base directory, when
    every attempt finds its parent and a free name. *)
Fixpoint fresh_run (l : entries) (ts : list (list string * string)) : option entries :=
  match ts with
  | [] => Some l
  | (d, n) :: r =>
      if (bool_decide (d = []) || bool_decide (assoc l d = Some Dir))
         && bool_decide (assoc l (d ++ [n]) = None)
      then fresh_run (((d ++ [n]) ++ [marker], File "") :: (d ++ [n], Dir) :: l) r
      else None
  end.

End Scaffold.

(** ** Creating a folder with its missing parents *)

Module Chain.
Import Nodes.

(** The directories [os.makedirs] creates below [d] for the components
    [q]: [d/q1], then [d/q1/q2], and so on. *)
Fixpoint chain (d : list string) (q : list string) (m : fs) : fs :=
  match q with
  | [] => m
  | n :: r => chain (d ++ [n]) r (<[d ++ [n] := Dir]> m)
  end.

End Chain.

(** ** The outcome of a run *)

Module Outcome.

(** The folders below the base directory in which the command creates
    folders: those the table gives subfolders to, and [models/helper] for
    [enums]. *)
Definition parent_folders : list (list string) :=
  [ ["api"]; ["models"]; ["repository"]; ["tests"]; ["models"; "helper"] ].

(** The same state, seen from another working directory. *)
Definition at_cwd (wd : string) (w : world) : world :=
  World (files w) wd (out w).

(** A computation that never looks at the working directory. *)
Definition cwd_blind (c : M unit) : Prop :=
  ∀ w wd, c (at_cwd wd w) = (at_cwd wd (c w).1, (c w).2).

End Outcome.

(** ** Concrete filesystems *)

Module Examples.
Import Posixpath Kernel.

(** A boolean check of [tree], for concrete filesystems. *)
Definition treeb (m : fs) : bool :=
  bool_decide (m !! [] = Some Dir)
  && forallb (λ e : list string * node,
       match e.1 with [] => true | _ => is_dir m (removelast e.1) end)
     (map_to_list m).

(** A project [/proj] with a new, empty app directory [myapp]. *)
Definition fresh_files : fs :=
  list_to_map [ ([], Dir); (["proj"], Dir); (["proj"; "myapp"], Dir) ].

Definition fresh : world := World fresh_files "/proj" [].

(** An app as [startapp] leaves it, to which an [api] folder without
    marker file and a file [api/views.py] were added by hand. *)
Definition startapp_files : fs :=
  list_to_map
    [ ([], Dir); (["proj"], Dir); (["proj"; "myapp"], Dir);
      (["proj"; "myapp"; "__init__.py"], File "");
      (["proj"; "myapp"; "apps.py"], File "class MyappConfig");
      (["proj"; "myapp"; "models.py"], File "from django.db import models");
      (["proj"; "myapp"; "admin.py"], File "from django.contrib import admin");
      (["proj"; "myapp"; "tests.py"], File "from django.test import TestCase");
      (["proj"; "myapp"; "views.py"], File "from django.shortcuts import render");
      (["proj"; "myapp"; "migrations"], Dir);
      (["proj"; "myapp"; "migrations"; "__init__.py"], File "");
      (["proj"; "myapp"; "api"], Dir);
      (["proj"; "myapp"; "api"; "views.py"], File "def index(request): pass") ].

Definition startapp : world := World startapp_files "/proj" [].

(** A project in which [myapp] is a regular file. *)
Definition clash_files : fs :=
  list_to_map [ ([], Dir); (["proj"], Dir); (["proj"; "myapp"], File "notes") ].

Definition clash : world := World clash_files "/proj" [].


(** The app directory of [startapp], seen from inside it. *)
Definition inside : world := World startapp_files "/proj/myapp" [].

(** An app in which [tests.py] has become a package: a directory. *)
Definition package_files : fs :=
  list_to_map
    [ ([], Dir); (["proj"], Dir); (["proj"; "myapp"], Dir);
      (["proj"; "myapp"; "models.py"], File "from django.db import models");
      (["proj"; "myapp"; "tests.py"], Dir);
      (["proj"; "myapp"; "tests.py"; "__init__.py"], File "");
      (["proj"; "myapp"; "views.py"], File "from django.shortcuts import render") ].

Definition package : world := World package_files "/proj" [].

(** An app in which [models] is a regular file. *)
Definition flat_files : fs :=
  list_to_map
    [ ([], Dir); (["proj"], Dir); (["proj"; "myapp"], Dir);
      (["proj"; "myapp"; "models"], File "class Book") ].

Definition flat : world := World flat_files "/proj" [].

(** The app of [package], seen from inside it. *)
Definition inside_package : world := World package_files "/proj/myapp" [].

(** The app of [startapp], seen from its [migrations] folder. *)
Definition deep : world := World startapp_files "/proj/myapp/migrations" [].

End Examples.

(* ================================================================== *)
(** * Facts about path strings *)

Section path_strings.
Import Posixpath Kernel Aux.
#[local] Arguments String.append : simpl nomatch.

Lemma sapp_assoc (a b c : string) : (a +:+ b) +:+ c = a +:+ (b +:+ c).
Proof. induction a as [|x a IH]; simpl; [done | by rewrite IH]. Qed.

Lemma sapp_empty_r (a : string) : a +:+ "" = a.
Proof. induction a as [|x a IH]; simpl; [done | by rewrite IH]. Qed.

Lemma is_empty_app (a b : string) :
  is_empty (a +:+ b) = is_empty a && is_empty b.
Proof. by destruct a. Qed.

Lemma is_empty_true (a : string) : is_empty a = true → a = "".
Proof. by destruct a. Qed.

Lemma has_sep_start (n : string) : has_sep n = false → startswith_sep n = false.
Proof. destruct n as [|c n]; simpl; [done|]. by intros [? _]%orb_false_iff. Qed.

Lemma has_sep_app (a b : string) : has_sep (a +:+ b) = has_sep a || has_sep b.
Proof. induction a as [|c a IH]; simpl; [done|]. by rewrite IH, orb_assoc. Qed.

Lemma startswith_app (a b : string) :
  is_empty a = false → startswith_sep (a +:+ b) = startswith_sep a.
Proof. by destruct a. Qed.

Lemma tokens_cons (s : string) : ∃ t ts, tokens s = t :: ts.
Proof.
  induction s as [|c s (t & ts & IH)]; simpl; [by eauto|].
  destruct (Ascii.eqb c sep); [by eauto|]. rewrite IH. by eauto.
Qed.

Lemma tokens_String (c : ascii) (r : string) :
  tokens (String c r) =
  if Ascii.eqb c sep then "" :: tokens r
  else match tokens r with t :: ts => String c t :: ts | [] => [String c ""] end.
Proof. done. Qed.

Lemma tokens_no_sep (n : string) : has_sep n = false → tokens n = [n].
Proof.
  induction n as [|c n IH]; simpl; [done|].
  intros [Hc Hn]%orb_false_iff. rewrite Hc, (IH Hn). done.
Qed.

Lemma tokens_app_sep (a b : string) :
  tokens (a +:+ String sep b) = tokens a ++ tokens b.
Proof.
  induction a as [|c a IH]; simpl; [done|].
  rewrite IH. destruct (Ascii.eqb c sep); [done|].
  by destruct (tokens_cons a) as (t & ts & ->).
Qed.

Lemma endswith_sep_inv (a : string) :
  endswith_sep a = true → ∃ s, a = s +:+ String sep "".
Proof.
  induction a as [|c a IH]; [done|]. destruct a as [|c' a].
  - simpl. intros ->%Ascii.eqb_eq. by exists "".
  - intros H. destruct (IH H) as (s & ->). by exists (String c s).
Qed.

Lemma endswith_sep_not_empty (a : string) : endswith_sep a = true → is_empty a = false.
Proof. by destruct a. Qed.

Lemma join2_plain (a n : string) :
  has_sep n = false →
  join2 a n = if is_empty a || endswith_sep a then a +:+ n else a +:+ String sep n.
Proof. intros H. unfold join2. by rewrite (has_sep_start n H). Qed.

Lemma tokens_join2 (a n : string) :
  is_empty a = false → has_sep n = false →
  tokens (join2 a n) = parent_tokens a ++ [n].
Proof.
  intros Ha Hn. rewrite (join2_plain a n Hn), Ha. unfold parent_tokens. simpl.
  destruct (endswith_sep a) eqn:He.
  - destruct (endswith_sep_inv a He) as (s & ->).
    rewrite sapp_assoc. simpl. rewrite !tokens_app_sep. simpl.
    rewrite removelast_last. by rewrite (tokens_no_sep n Hn).
  - by rewrite tokens_app_sep, (tokens_no_sep n Hn).
Qed.

Lemma is_empty_join2 (a n : string) : is_empty n = false → is_empty (join2 a n) = false.
Proof.
  intros Hn. unfold join2. destruct (startswith_sep n); [done|].
  destruct (is_empty a || endswith_sep a); rewrite is_empty_app; simpl;
    rewrite ?Hn; by rewrite andb_false_r.
Qed.

Lemma origin_join2 (wd a n : string) :
  is_empty a = false → has_sep n = false → origin wd (join2 a n) = origin wd a.
Proof.
  intros Ha Hn. unfold origin. rewrite (join2_plain a n Hn).
  destruct (is_empty a || endswith_sep a); by rewrite (startswith_app _ _ Ha).
Qed.

Lemma plain_no_sep (n : string) : plain n = true → has_sep n = false.
Proof. unfold plain. intros [[H _]%andb_prop _]%andb_prop. by apply negb_true_iff. Qed.

Lemma plain_not_empty (n : string) : plain n = true → is_empty n = false.
Proof.
  unfold plain, dot. intros [[_ H]%andb_prop _]%andb_prop.
  apply negb_true_iff in H. by apply orb_false_iff in H as [? _].
Qed.

Lemma enter_plain (k : list string) (n : string) : plain n = true → enter k n = k ++ [n].
Proof.
  unfold plain, enter. intros [[_ H1]%andb_prop H2]%andb_prop.
  apply negb_true_iff in H1, H2. by rewrite H1, H2.
Qed.

(** *** [posixpath.split] of a joined path *)

Lemma rcut_no_sep (n : string) : has_sep n = false → rcut n = ("", n).
Proof.
  induction n as [|c n IH]; simpl; [done|].
  intros H. rewrite H. apply orb_false_iff in H as [_ H]. by rewrite (IH H).
Qed.

Lemma rcut_app_sep (x n : string) :
  has_sep n = false → rcut (x +:+ String sep n) = (x +:+ String sep "", n).
Proof.
  intros Hn. induction x as [|c x IH]; simpl.
  - by rewrite (rcut_no_sep n Hn).
  - rewrite IH, has_sep_app. simpl. by rewrite !orb_true_r.
Qed.

Lemma rstrip_app_sep (x : string) : rstrip_sep (x +:+ String sep "") = rstrip_sep x.
Proof.
  induction x as [|c x IH]; simpl; [done | by rewrite IH].
Qed.

Lemma rstrip_id (a : string) : endswith_sep a = false → rstrip_sep a = a.
Proof.
  induction a as [|c a IH]; [done|]. destruct a as [|c' a].
  - simpl. by intros ->.
  - intros H. change (rstrip_sep (String c (String c' a))) with
      (match rstrip_sep (String c' a) with
       | "" => if Ascii.eqb c sep then "" else String c ""
       | r' => String c r' end).
    by rewrite (IH H).
Qed.

Lemma split_join2 (a n : string) :
  is_empty a = false → has_sep n = false → split (join2 a n) = (head_of a, n).
Proof.
  intros Ha Hn. rewrite (join2_plain a n Hn), Ha. unfold split, head_of. simpl.
  destruct (endswith_sep a) eqn:He.
  - destruct (endswith_sep_inv a He) as (s & ->).
    rewrite sapp_assoc. simpl. by rewrite (rcut_app_sep s n Hn).
  - rewrite (rcut_app_sep a n Hn), rstrip_app_sep, (rstrip_id a He). by rewrite Ha.
Qed.

Lemma head_of_not_empty (a : string) : is_empty a = false → is_empty (head_of a) = false.
Proof. intros Ha. unfold head_of. by destruct (is_empty (rstrip_sep a)) eqn:E. Qed.

Lemma tokens_rstrip (a : string) :
  ∃ k, tokens a = tokens (rstrip_sep a) ++ replicate k "".
Proof.
  induction a as [|c a (k & IH)]; [by exists 0|]. simpl.
  destruct (rstrip_sep a) as [|c' r'] eqn:E.
  - simpl in IH. destruct (Ascii.eqb c sep) eqn:Ec.
    + exists (S k). by rewrite IH.
    + exists k. rewrite IH. simpl. by rewrite Ec.
  - exists k. rewrite IH.
    destruct (tokens_cons (String c' r')) as (t & ts & Ht). rewrite Ht.
    rewrite (tokens_String c (String c' r')), Ht.
    by destruct (Ascii.eqb c sep).
Qed.

Lemma startswith_rstrip (a : string) :
  is_empty (rstrip_sep a) = false → startswith_sep (rstrip_sep a) = startswith_sep a.
Proof.
  destruct a as [|c a]; [done|]. simpl.
  destruct (rstrip_sep a); [|done].
  destruct (Ascii.eqb c sep) eqn:E; simpl; [done | by rewrite E].
Qed.

End path_strings.

(* ================================================================== *)
(** * Facts about path resolution *)

Section resolution.
Import Posixpath Kernel Aux.

Lemma walk_app (m : fs) (l1 l2 : list string) (st : list string) :
  walk m st (l1 ++ l2) =
  match walk m st l1 with Ok k => walk m k l2 | Raised e => Raised e end.
Proof.
  revert st. induction l1 as [|c l1 IH]; intros st; simpl; [done|].
  destruct (m !! st) as [[]|]; by rewrite ?IH.
Qed.

Lemma walk_snoc (m : fs) (l : list string) (c : string) (st : list string) :
  walk m st (l ++ [c]) =
  match walk m st l with
  | Ok k => match m !! k with
            | Some Dir => Ok (enter k c)
            | Some (File _) => Raised NotADirectoryError
            | None => Raised FileNotFoundError
            end
  | Raised e => Raised e
  end.
Proof. rewrite walk_app. destruct (walk m st l); [|done]. simpl. by destruct (m !! a) as [[]|]. Qed.

Lemma walk_replicate_empty (m : fs) (l : list string) (k : nat) (st d : list string) :
  walk m st (l ++ replicate k "") = Ok d → walk m st l = Ok d.
Proof.
  induction k as [|k IH].
  - simpl. by rewrite app_nil_r.
  - rewrite replicate_S_end, app_assoc, walk_snoc.
    destruct (walk m st (l ++ replicate k "")) as [k'|] eqn:E; [|done].
    destruct (m !! k') as [[]|]; [done| |done].
    unfold enter. simpl. intros [= <-]. by apply IH.
Qed.

Lemma walk_parent_tokens (m : fs) (a : string) (st d : list string) :
  walk m st (tokens a) = Ok d → walk m st (parent_tokens a) = Ok d.
Proof.
  unfold parent_tokens. destruct (endswith_sep a) eqn:He; [|done].
  destruct (endswith_sep_inv a He) as (s & ->).
  rewrite tokens_app_sep. simpl. rewrite removelast_last, walk_snoc.
  destruct (walk m st (tokens s)) as [k'|]; [|done].
  by destruct (m !! k') as [[]|].
Qed.


Lemma walk_stable (m m' : fs) (l : list string) (st d : list string) :
  dirs_kept m m' → walk m st l = Ok d → walk m' st l = Ok d.
Proof.
  intros Hk. revert st. induction l as [|c l IH]; intros st; simpl; [done|].
  destruct (m !! st) as [[]|] eqn:E; try done.
  rewrite (Hk _ E). apply IH.
Qed.

Lemma stat_inv (m : fs) (wd p : string) (d : list string) :
  stat m wd p = Ok d →
  is_empty p = false ∧ walk m (origin wd p) (tokens p) = Ok d ∧ is_Some (m !! d).
Proof.
  unfold stat, present. destruct (is_empty p); [done|].
  destruct (walk m (origin wd p) (tokens p)) as [k|]; [|done].
  destruct (m !! k) eqn:E; [|done]. intros [= <-]. by rewrite E.
Qed.

Lemma stat_stable (m m' : fs) (wd p : string) (d : list string) :
  dirs_kept m m' → is_Some (m' !! d) → stat m wd p = Ok d → stat m' wd p = Ok d.
Proof.
  intros Hk [v Hv] (He & Hw & _)%stat_inv. unfold stat, present.
  by rewrite He, (walk_stable m m' _ _ _ Hk Hw), Hv.
Qed.

(** The entry [join2 a n] names, when [a] names [d]. *)
Lemma stat_join2 (m : fs) (wd a n : string) (d : list string) :
  stat m wd a = Ok d → plain n = true →
  stat m wd (join2 a n) =
  match m !! d with
  | Some Dir => if present m (d ++ [n]) then Ok (d ++ [n]) else Raised FileNotFoundError
  | Some (File _) => Raised NotADirectoryError
  | None => Raised FileNotFoundError
  end.
Proof.
  intros (He & Hw & _)%stat_inv Hn. unfold stat.
  rewrite (is_empty_join2 a n (plain_not_empty n Hn)).
  rewrite (origin_join2 wd a n He (plain_no_sep n Hn)).
  rewrite (tokens_join2 a n He (plain_no_sep n Hn)), walk_snoc.
  rewrite (walk_parent_tokens m a _ _ Hw).
  destruct (m !! d) as [[]|]; try done. by rewrite (enter_plain d n Hn).
Qed.

Lemma stat_head_of (m : fs) (wd a : string) (d : list string) :
  stat m wd a = Ok d → stat m wd (head_of a) = Ok d.
Proof.
  unfold head_of. destruct (is_empty (rstrip_sep a)) eqn:E; [done|].
  intros (He & Hw & [v Hv])%stat_inv. unfold stat, present, origin.
  rewrite E, (startswith_rstrip a E).
  destruct (tokens_rstrip a) as (k & Hk). rewrite Hk in Hw.
  unfold origin in Hw.
  by rewrite (walk_replicate_empty m _ _ _ _ Hw), Hv.
Qed.

End resolution.

(* ================================================================== *)
(** * The library calls on a joined path *)

Section library_calls.
Import Posixpath Kernel Aux Nodes.

Lemma tree_child_absent (m : fs) (k : list string) (n : string) :
  tree m → m !! k = None → m !! (k ++ [n]) = None.
Proof.
  intros [_ Ht] Hk. destruct (m !! (k ++ [n])) eqn:E; [|done].
  apply Ht in E. congruence.
Qed.

Lemma tree_file_child_absent (m : fs) (k : list string) (n c : string) :
  tree m → m !! k = Some (File c) → m !! (k ++ [n]) = None.
Proof.
  intros [_ Ht] Hk. destruct (m !! (k ++ [n])) eqn:E; [|done].
  apply Ht in E. congruence.
Qed.

Lemma snoc_ne_self {A : Type} (k : list A) (n : A) : k ≠ k ++ [n].
Proof. intros E. apply (f_equal length) in E. rewrite length_app in E. simpl in E. lia. Qed.

Lemma strip_snoc (l : list string) (n : string) :
  is_empty n = false → strip (l ++ [n]) = l ++ [n].
Proof.
  intros Hn. induction l as [|c l IH]; simpl; [by rewrite Hn|].
  rewrite IH. by destruct l.
Qed.

Lemma plain_not_dots (n : string) : plain n = true → dot n || String.eqb n ".." = false.
Proof.
  unfold plain. intros [[_ H1]%andb_prop H2]%andb_prop.
  apply negb_true_iff in H1, H2. by rewrite H1, H2.
Qed.

Lemma mkdir_join2 (w : world) (a n : string) (d : list string) :
  stat (files w) (cwd w) a = Ok d → plain n = true →
  Os.mkdir (join2 a n) w =
  match files w !! d with
  | Some Dir =>
      if present (files w) (d ++ [n]) then (w, Raised FileExistsError)
      else (set_files (<[d ++ [n] := Dir]> (files w)) w, Ok ())
  | Some (File _) => (w, Raised NotADirectoryError)
  | None => (w, Raised FileNotFoundError)
  end.
Proof.
  intros (He & Hw & _)%stat_inv Hn. unfold Os.mkdir.
  rewrite (is_empty_join2 a n (plain_not_empty n Hn)).
  rewrite (tokens_join2 a n He (plain_no_sep n Hn)).
  rewrite (strip_snoc _ n (plain_not_empty n Hn)).
  cbv zeta. rewrite removelast_last, last_last.
  destruct (parent_tokens a ++ [n]) as [|t ts] eqn:E; [by destruct (parent_tokens a)|].
  rewrite (origin_join2 _ a n He (plain_no_sep n Hn)).
  rewrite (walk_parent_tokens _ a _ _ Hw).
  by rewrite (plain_not_dots n Hn).
Qed.

Lemma makedirs_fuel_join2 (w : world) (a n : string) (d : list string) (fuel : nat) :
  stat (files w) (cwd w) a = Ok d → plain n = true →
  Os.makedirs_fuel (S fuel) (join2 a n) w = Os.mkdir (join2 a n) w.
Proof.
  intros Hs Hn. pose proof Hs as (He & _ & _)%stat_inv. simpl.
  rewrite (split_join2 a n He (plain_no_sep n Hn)).
  rewrite (plain_not_empty n Hn), (head_of_not_empty a He). simpl.
  unfold mbind, M_bind, Os.path_exists.
  rewrite (plain_not_empty n Hn). simpl.
  by rewrite (stat_head_of _ _ a d Hs).
Qed.

Lemma makedirs_join2 (w : world) (a n : string) (d : list string) :
  stat (files w) (cwd w) a = Ok d → plain n = true →
  Os.makedirs (join2 a n) w = Os.mkdir (join2 a n) w.
Proof. intros Hs Hn. by apply makedirs_fuel_join2 with d. Qed.

(** The recursive case: the head of the path does not exist. *)
Lemma makedirs_fuel_missing (w : world) (x n : string) (fuel : nat) :
  is_empty x = false → endswith_sep x = false → plain n = true →
  (∀ k, stat (files w) (cwd w) x ≠ Ok k) →
  Os.makedirs_fuel (S fuel) (join2 x n) w =
  match except_FileExistsError (Os.makedirs_fuel fuel x) w with
  | (w', Ok _) => Os.mkdir (join2 x n) w'
  | (w', Raised e) => (w', Raised e)
  end.
Proof.
  intros Hx He Hn Hno. simpl.
  rewrite (split_join2 x n Hx (plain_no_sep n Hn)).
  unfold head_of. rewrite (rstrip_id x He), Hx.
  rewrite (plain_not_empty n Hn). simpl.
  unfold mbind, M_bind, Os.path_exists.
  rewrite (plain_not_empty n Hn). simpl. rewrite Hx. simpl.
  destruct (stat (files w) (cwd w) x) as [k|e] eqn:E; [by destruct (Hno k)|]. simpl.
  destruct (except_FileExistsError (Os.makedirs_fuel fuel x) w) as [w' [[]|e']]; [|done].
  unfold mret, M_ret.
  assert (String.eqb n "." = false) as ->; [|done].
  apply plain_not_dots in Hn. unfold dot in Hn.
  apply orb_false_iff in Hn as [Hn _]. by apply orb_false_iff in Hn as [_ Hn].
Qed.

Lemma open_w_join2 (w : world) (a n : string) (d : list string) :
  stat (files w) (cwd w) a = Ok d → plain n = true →
  files w !! d = Some Dir →
  Os.open_w (join2 a n) w =
  match files w !! (d ++ [n]) with
  | Some Dir => (w, Raised IsADirectoryError)
  | _ => (set_files (<[d ++ [n] := File ""]> (files w)) w, Ok ())
  end.
Proof.
  intros (He & Hw & _)%stat_inv Hn Hd. unfold Os.open_w.
  rewrite (is_empty_join2 a n (plain_not_empty n Hn)).
  rewrite (tokens_join2 a n He (plain_no_sep n Hn)).
  rewrite removelast_last, last_last.
  rewrite (origin_join2 _ a n He (plain_no_sep n Hn)).
  rewrite (walk_parent_tokens _ a _ _ Hw), Hd.
  by rewrite (plain_not_dots n Hn).
Qed.

Lemma dirs_kept_insert (m : fs) (k : list string) (v : node) :
  m !! k = None → dirs_kept m (<[k := v]> m).
Proof.
  intros Hk k' Hk'. rewrite lookup_insert_ne; [done|]. intros ->. congruence.
Qed.

Lemma plain_marker : plain marker = true.
Proof. done. Qed.

(** [create_folder_with_init] on a joined path. *)
Lemma create_folder_with_init_join2 (w : world) (a n : string) (d : list string) :
  tree (files w) →
  stat (files w) (cwd w) a = Ok d → plain n = true →
  Command.create_folder_with_init (join2 a n) w = create_at d n (join2 a n) w.
Proof.
  intros Ht Hs Hn. unfold Command.create_folder_with_init, create_at.
  unfold mbind, M_bind, Os.path_exists.
  rewrite (stat_join2 _ _ a n d Hs Hn). unfold present.
  destruct (files w !! d) as [[c|]|] eqn:Hd; simpl.
  - by rewrite (makedirs_join2 w a n d Hs Hn), (mkdir_join2 w a n d Hs Hn), Hd.
  - destruct (files w !! (d ++ [n])) as [v|] eqn:Hc; simpl; [done|].
    rewrite (makedirs_join2 w a n d Hs Hn), (mkdir_join2 w a n d Hs Hn), Hd.
    unfold present. rewrite Hc.
    set (w1 := set_files (<[d ++ [n] := Dir]> (files w)) w).
    assert (stat (files w1) (cwd w1) (join2 a n) = Ok (d ++ [n])) as Hs1.
    { assert (stat (files w1) (cwd w1) a = Ok d) as Hs'.
      { apply (stat_stable (files w)); [by apply dirs_kept_insert| |done].
        simpl. rewrite lookup_insert_ne; [by rewrite Hd | apply not_eq_sym, snoc_ne_self]. }
      rewrite (stat_join2 _ _ a n d Hs' Hn). simpl.
      rewrite lookup_insert_ne; [|apply not_eq_sym, snoc_ne_self].
      rewrite Hd. unfold present. by rewrite lookup_insert_eq. }
    change (join2 (join2 a n) "__init__.py") with (join2 (join2 a n) marker).
    rewrite (open_w_join2 w1 (join2 a n) marker (d ++ [n]) Hs1 plain_marker);
      [|by apply lookup_insert_eq].
    simpl. rewrite lookup_insert_ne; [|apply snoc_ne_self].
    by rewrite (tree_child_absent _ _ marker Ht Hc).
  - by rewrite (makedirs_join2 w a n d Hs Hn), (mkdir_join2 w a n d Hs Hn), Hd.
Qed.

(** One round of the loop of [remove_default_files]. *)
Lemma remove_default_file_join2 (w : world) (a n : string) (d : list string) :
  tree (files w) →
  stat (files w) (cwd w) a = Ok d → plain n = true →
  (e ← Os.path_exists (join2 a n);
   if e : bool then
     Os.remove (join2 a n) ;; stdout_write (WARNING ("Removed " +:+ join2 a n))
   else mret ()) w
  = remove_at d n (join2 a n) w.
Proof.
  intros Ht Hs Hn. unfold remove_at, mbind, M_bind, Os.path_exists, Os.remove.
  rewrite (stat_join2 _ _ a n d Hs Hn). unfold present.
  destruct (files w !! d) as [[c|]|] eqn:Hd; simpl; [done| |done].
  destruct (files w !! (d ++ [n])) as [[c|]|] eqn:Hc; simpl; [| |done].
  - rewrite (stat_join2 _ _ a n d Hs Hn), Hd. unfold present. by rewrite Hc, Hc.
  - rewrite (stat_join2 _ _ a n d Hs Hn), Hd. unfold present. by rewrite Hc, Hc.
Qed.

End library_calls.

(* ================================================================== *)
(** * The run on nodes *)


Section monad_facts.

Lemma for_each_cons {A : Type} (x : A) (l : list A) (f : A → M unit) (w : world) :
  for_each (x :: l) f w =
  match f x w with
  | (w', Ok _) => for_each l f w'
  | (w', Raised e) => (w', Raised e)
  end.
Proof. done. Qed.

Lemma for_each_app {A : Type} (l1 l2 : list A) (f : A → M unit) (w : world) :
  for_each (l1 ++ l2) f w =
  match for_each l1 f w with
  | (w', Ok _) => for_each l2 f w'
  | (w', Raised e) => (w', Raised e)
  end.
Proof.
  revert w. induction l1 as [|x l1 IH]; intros w; [done|].
  rewrite <- app_comm_cons, !for_each_cons.
  destruct (f x w) as [w' [[]|e]]; [apply IH | done].
Qed.

Lemma for_each_map {A B : Type} (h : A → B) (l : list A) (f : B → M unit) (w : world) :
  for_each (map h l) f w = for_each l (λ x, f (h x)) w.
Proof.
  revert w. induction l as [|x l IH]; intros w; [done|].
  rewrite map_cons, !for_each_cons. destruct (f (h x) w) as [w' [[]|e]]; [apply IH | done].
Qed.

Lemma bind_unfold {A B : Type} (c : M A) (k : A → M B) (w : world) :
  (c ≫= k) w =
  match c w with
  | (w', Ok a) => k a w'
  | (w', Raised e) => (w', Raised e)
  end.
Proof. done. Qed.

End monad_facts.

Section flattening.
Import Posixpath Aux Nodes Plan.

(** The nested loops of [create_folder_structure] make one attempt per
    entry of [flatten], in that order. *)
Lemma create_folder_structure_flatten (base : string)
    (st : list (string * list string)) (w : world) :
  Command.create_folder_structure base st w =
  for_each (flatten st)
    (λ t, Command.create_folder_with_init (join base (t.1 ++ [t.2]))) w.
Proof.
  unfold Command.create_folder_structure. revert w.
  induction st as [|[folder subs] st IH]; intros w; [done|].
  rewrite for_each_cons. simpl flatten. rewrite (for_each_cons ([], folder)).
  rewrite bind_unfold. cbn [fst snd app].
  destruct (Command.create_folder_with_init (join base [folder]) w) as [w1 [[]|e]]; [|done].
  rewrite for_each_app, for_each_map. cbn [fst snd app].
  destruct (for_each subs _ w1) as [w2 [[]|e]]; [apply IH | done].
Qed.

End flattening.

(* ================================================================== *)
(** * Effects on the tree *)

Section node_effects.
Import Posixpath Kernel Aux Nodes Plan.

Lemma tree_insert_child (m : fs) (k : list string) (n : string) (v : node) :
  tree m → m !! k = Some Dir → m !! (k ++ [n]) = None → tree (<[k ++ [n] := v]> m).
Proof.
  intros [Hr Ht] Hk Hn. split.
  - rewrite lookup_insert_ne; [done|]. by destruct k.
  - intros k' x v' H. destruct (decide (k ++ [n] = k' ++ [x])) as [E|E].
    + apply app_inj_tail in E as [<- <-].
      rewrite lookup_insert_ne; [done | apply not_eq_sym, snoc_ne_self].
    + rewrite lookup_insert_ne in H by done. apply Ht in H.
      rewrite lookup_insert_ne; [done|]. intros <-. congruence.
Qed.

Lemma tree_delete_file (m : fs) (k : list string) (c : string) :
  tree m → m !! k = Some (File c) → tree (delete k m).
Proof.
  intros [Hr Ht] Hk. split.
  - rewrite lookup_delete_ne; [done|]. intros ->. congruence.
  - intros k' x v' H. apply lookup_delete_Some in H as [_ H]. apply Ht in H.
    rewrite lookup_delete_ne; [done|]. intros ->. congruence.
Qed.

Lemma tree_parent (m : fs) (k : list string) (n : string) :
  tree m → is_Some (m !! (k ++ [n])) → m !! k = Some Dir.
Proof. intros [_ Ht] [v Hv]. by apply Ht in Hv. Qed.

Lemma create_at_cases (d : list string) (n p : string) (w : world) :
  (create_at d n p w = (w, Ok ()) ∧ files w !! d = Some Dir ∧ is_Some (files w !! (d ++ [n])))
  ∨ (files w !! d = Some Dir ∧ files w !! (d ++ [n]) = None ∧
     create_at d n p w =
       (World (<[(d ++ [n]) ++ [marker] := File ""]> (<[d ++ [n] := Dir]> (files w)))
              (cwd w) (out w ++ [SUCCESS ("Created " +:+ p)]), Ok ()))
  ∨ (∃ e, create_at d n p w = (w, Raised e) ∧ files w !! d ≠ Some Dir).
Proof.
  unfold create_at. destruct (files w !! d) as [[c|]|] eqn:Hd.
  - right; right. by eexists.
  - destruct (files w !! (d ++ [n])) as [v|] eqn:Hn.
    + left. by eauto.
    + right; left. done.
  - right; right. by eexists.
Qed.

Lemma remove_at_cases (d : list string) (n p : string) (w : world) :
  (remove_at d n p w = (w, Ok ()) ∧
     (files w !! d ≠ Some Dir ∨ files w !! (d ++ [n]) = None))
  ∨ (∃ c, files w !! d = Some Dir ∧ files w !! (d ++ [n]) = Some (File c) ∧
     remove_at d n p w =
       (World (delete (d ++ [n]) (files w)) (cwd w)
              (out w ++ [WARNING ("Removed " +:+ p)]), Ok ()))
  ∨ (files w !! d = Some Dir ∧ files w !! (d ++ [n]) = Some Dir ∧
     remove_at d n p w = (w, Raised IsADirectoryError)).
Proof.
  unfold remove_at. destruct (files w !! d) as [[c|]|] eqn:Hd.
  - left. split; [done|]. by left.
  - destruct (files w !! (d ++ [n])) as [[c|]|] eqn:Hn.
    + right; left. by eexists.
    + right; right. done.
    + left. split; [done|]. by right.
  - left. split; [done|]. by left.
Qed.


Lemma grown_tree (m : fs) (d : list string) (n : string) :
  tree m → m !! d = Some Dir → m !! (d ++ [n]) = None → tree (grown m d n).
Proof.
  intros Ht Hd Hn. unfold grown. apply tree_insert_child.
  - by apply tree_insert_child.
  - apply lookup_insert_eq.
  - rewrite lookup_insert_ne; [|apply snoc_ne_self]. by apply tree_child_absent.
Qed.

Lemma grown_subseteq (m : fs) (d : list string) (n : string) :
  tree m → m !! (d ++ [n]) = None → m ⊆ grown m d n.
Proof.
  intros Ht Hn. unfold grown. etrans; [by apply (insert_subseteq m (d ++ [n]) Dir)|].
  apply insert_subseteq. rewrite lookup_insert_ne; [|apply snoc_ne_self].
  by apply tree_child_absent.
Qed.

Lemma subseteq_dirs_kept (m m' : fs) : m ⊆ m' → dirs_kept m m'.
Proof. intros H k Hk. by eapply lookup_weaken. Qed.

Lemma subseteq_is_Some (m m' : fs) (k : list string) :
  m ⊆ m' → is_Some (m !! k) → is_Some (m' !! k).
Proof. intros H [v Hv]. exists v. by eapply lookup_weaken. Qed.


Lemma Inv_grown (b : list string) (base : string) (w : world)
    (d : list string) (n : string) (o : list message) :
  Inv b base w → files w !! d = Some Dir → files w !! (d ++ [n]) = None →
  Inv b base (World (grown (files w) d n) (cwd w) o).
Proof.
  intros [Ht Hs] Hd Hn. split; simpl.
  - by apply grown_tree.
  - apply (stat_stable (files w)); [| |done].
    + by apply subseteq_dirs_kept, grown_subseteq.
    + apply (subseteq_is_Some (files w)); [by apply grown_subseteq|].
      by eapply stat_inv.
Qed.

Lemma Inv_delete (b : list string) (base : string) (w : world)
    (n c : string) (o : list message) :
  Inv b base w → files w !! (b ++ [n]) = Some (File c) →
  Inv b base (World (delete (b ++ [n]) (files w)) (cwd w) o).
Proof.
  intros [Ht Hs] Hn. split; simpl.
  - by eapply tree_delete_file.
  - apply (stat_stable (files w)); [| |done].
    + intros k Hk. rewrite lookup_delete_ne; [done|]. intros <-. congruence.
    + rewrite lookup_delete_ne; [by eapply stat_inv | apply not_eq_sym, snoc_ne_self].
Qed.

Lemma join_snoc (base : string) (d : list string) (n : string) :
  join base (d ++ [n]) = join2 (join base d) n.
Proof. unfold join. by rewrite fold_left_app. Qed.

(** A folder below the base directory that is there is named by the
    joined path. *)
Lemma stat_join_present (m : fs) (wd base : string) (b d : list string) :
  tree m → stat m wd base = Ok b → forallb plain d = true →
  is_Some (m !! (b ++ d)) → stat m wd (join base d) = Ok (b ++ d).
Proof.
  intros Ht Hs. induction d as [|n d IH] using rev_ind; intros Hp Hd.
  - by rewrite app_nil_r.
  - rewrite forallb_app in Hp. apply andb_prop in Hp as [Hp Hn]. simpl in Hn.
    rewrite andb_true_r in Hn. rewrite app_assoc in Hd |- *.
    pose proof (tree_parent m _ n Ht Hd) as Hpar.
    rewrite join_snoc, (stat_join2 m wd _ n (b ++ d)); [|by apply IH; [|eexists]|done].
    rewrite Hpar. unfold present. by destruct Hd as [v ->].
Qed.

End node_effects.

(* ================================================================== *)
(** * The command acts on the nodes below the base directory *)

Section simulation.
Import Posixpath Kernel Aux Nodes Plan.

Variables (b : list string) (base : string).

Lemma remove_at_Inv (n p : string) (w w' : world) (r : result ()) :
  Inv b base w → remove_at b n p w = (w', r) → Inv b base w'.
Proof.
  intros HI H.
  destruct (remove_at_cases b n p w) as [[E _]|[(c & _ & Hn & E)|(_ & _ & E)]];
    rewrite E in H; injection H as <- <-; [done| |done].
  by eapply Inv_delete.
Qed.

Lemma create_at_Inv (d : list string) (n p : string) (w w' : world) (r : result ()) :
  Inv b base w → create_at d n p w = (w', r) → Inv b base w'.
Proof.
  intros HI H.
  destruct (create_at_cases d n p w) as [[E _]|[(Hd & Hn & E)|(e & E & _)]];
    rewrite E in H; injection H as <- <-; [done| |done].
  by apply Inv_grown.
Qed.

Lemma remove_loop_nodes (ns : list string) (w : world) :
  forallb plain ns = true → Inv b base w →
  for_each ns (λ filename,
    e ← Os.path_exists (join base [filename]);
    if e : bool then
      Os.remove (join base [filename]) ;;
      stdout_write (WARNING ("Removed " +:+ join base [filename]))
    else mret ()) w
  = remove_all b base ns w.
Proof.
  unfold remove_all. revert w. induction ns as [|n ns IH]; intros w Hp HI; [done|].
  simpl in Hp. apply andb_prop in Hp as [Hn Hp].
  rewrite !for_each_cons. cbv zeta.
  change (join base [n]) with (join2 base n).
  destruct HI as [Ht Hs].
  rewrite (remove_default_file_join2 w base n b Ht Hs Hn).
  destruct (remove_at b n (join2 base n) w) as [w' [[]|e]] eqn:E; [|done].
  apply IH; [done|]. by eapply remove_at_Inv.
Qed.

Lemma create_loop_nodes (ts : list (list string * string))
    (seen : list (list string)) (w : world) :
  closed seen ts = true → Inv b base w →
  (∀ q, q ∈ seen → is_Some (files w !! (b ++ q))) →
  for_each ts (λ t, Command.create_folder_with_init (join base (t.1 ++ [t.2]))) w
  = create_all b base ts w.
Proof.
  unfold create_all. revert seen w.
  induction ts as [|[d n] ts IH]; intros seen w Hc HI Hseen; [done|].
  simpl in Hc. apply andb_prop in Hc as [[[Hd Hn]%andb_prop Hpar]%andb_prop Hc].
  rewrite !for_each_cons. cbn [fst snd].
  assert (is_Some (files w !! (b ++ d))) as Hbd.
  { apply orb_prop in Hpar as [->%bool_decide_eq_true|Hin%bool_decide_eq_true].
    - rewrite app_nil_r. by eapply stat_inv, HI.
    - by apply Hseen. }
  destruct HI as [Ht Hs].
  pose proof (stat_join_present _ _ _ _ d Ht Hs Hd Hbd) as Hsd.
  rewrite join_snoc.
  rewrite (create_folder_with_init_join2 w (join base d) n (b ++ d) Ht Hsd Hn).
  destruct (create_at_cases (b ++ d) n (join2 (join base d) n) w)
    as [(E & _ & Hthere)|[(Hdir & Habs & E)|(e & E & _)]]; rewrite E; [| |done].
  - apply (IH ((d ++ [n]) :: seen)); [done..|].
    intros q [->|Hq]%elem_of_cons; [by rewrite app_assoc | by apply Hseen].
  - apply (IH ((d ++ [n]) :: seen)); [done|by apply Inv_grown|].
    simpl. intros q [->|Hq]%elem_of_cons.
    + rewrite app_assoc. unfold grown.
      rewrite lookup_insert_ne; [|apply not_eq_sym, snoc_ne_self].
      by rewrite lookup_insert_eq.
    + apply (subseteq_is_Some (files w)); [by apply grown_subseteq | by apply Hseen].
Qed.

Lemma closed_targets : closed [] targets = true.
Proof. by vm_compute. Qed.

Lemma plain_default_files : forallb plain Command.default_files = true.
Proof. by vm_compute. Qed.

Lemma remove_all_Inv (ns : list string) (w w' : world) (r : result ()) :
  Inv b base w → remove_all b base ns w = (w', r) → Inv b base w'.
Proof.
  unfold remove_all. revert w. induction ns as [|n ns IH]; intros w HI E.
  - by injection E as <- <-.
  - rewrite for_each_cons in E.
    destruct (remove_at b n _ w) as [w1 [[]|e]] eqn:E1.
    + eapply IH; [|done]. by eapply remove_at_Inv.
    + injection E as <- <-. by eapply remove_at_Inv.
Qed.

(** The attempts of [handle], one loop. *)
Lemma attempts_flat (k : M unit) (w : world) :
  (Command.create_folder_structure base Command.structure ;;
   Command.create_folder_with_init (join base ["models"; "helper"; "enums"]) ;; k) w
  = (for_each targets
       (λ t, Command.create_folder_with_init (join base (t.1 ++ [t.2]))) ;; k) w.
Proof.
  rewrite !bind_unfold, create_folder_structure_flatten.
  unfold targets. rewrite for_each_app.
  destruct (for_each (flatten Command.structure) _ w) as [w1 [[]|e]]; [|done].
  rewrite for_each_cons. cbn [fst snd app]. rewrite bind_unfold.
  by destruct (Command.create_folder_with_init _ w1) as [w2 [[]|e]].
Qed.

(** The run of [handle] past the existence check is the run on the
    nodes below the node the base directory path names. *)
Lemma handle_nodes (app : string) (w : world) :
  join (cwd w) [app] = base →
  Inv b base w →
  Command.handle app w = scaffold_at b base app w.
Proof.
  intros Hb HI. unfold Command.handle, scaffold_at.
  rewrite bind_unfold. unfold Os.getcwd. cbv zeta. rewrite Hb.
  rewrite bind_unfold. unfold Os.path_exists at 1.
  rewrite (proj2 HI). cbn [negb].
  rewrite (bind_unfold (Command.remove_default_files base)).
  rewrite (bind_unfold (remove_all b base Command.default_files)).
  unfold Command.remove_default_files.
  rewrite (remove_loop_nodes _ w plain_default_files HI).
  destruct (remove_all b base Command.default_files w) as [w1 [[]|e]] eqn:E1; [|done].
  rewrite attempts_flat, !bind_unfold.
  rewrite (create_loop_nodes targets [] w1 closed_targets);
    [done|by eapply remove_all_Inv|by intros q ?%elem_of_nil].
Qed.

End simulation.

(* ================================================================== *)
(** * What the removal and creation loops do to the tree *)

Section loop_effects.
Import Posixpath Kernel Aux Nodes Plan.

Variables (b : list string) (base : string).

Lemma tree_not_dir_child (m : fs) (k : list string) (n : string) :
  tree m → m !! k ≠ Some Dir → m !! (k ++ [n]) = None.
Proof.
  intros Ht Hk. destruct (m !! (k ++ [n])) eqn:E; [|done].
  exfalso. apply Hk. eapply tree_parent; [done|]. by rewrite E.
Qed.

Lemma remove_all_effect (ns : list string) (w w' : world) (r : result ()) :
  tree (files w) → remove_all b base ns w = (w', r) →
  cwd w' = cwd w ∧ tree (files w') ∧
  (∀ k, files w' !! k = files w !! k ∨
        (files w' !! k = None ∧
         ∃ n c, n ∈ ns ∧ k = b ++ [n] ∧ files w !! k = Some (File c))) ∧
  (r = Ok () → ∀ n, n ∈ ns → files w' !! (b ++ [n]) = None).
Proof.
  unfold remove_all. revert w. induction ns as [|n0 ns IH]; intros w Ht E.
  - injection E as <- <-. split_and!; [done..| |]; [by left | by intros _ n ?%elem_of_nil].
  - rewrite for_each_cons in E.
    destruct (remove_at_cases b n0 (join base [n0]) w)
      as [[E1 Hno]|[(c & Hd & Hn & E1)|(_ & _ & E1)]]; rewrite E1 in E.
    + destruct (IH w Ht E) as (Hc & Ht' & Hfr & Hok). split_and!; [done..| |].
      * intros k. destruct (Hfr k) as [?|(? & n & c & ? & ? & ?)]; [by left|].
        right. split; [done|]. exists n, c. by rewrite elem_of_cons; eauto.
      * intros Hr n [->|Hin]%elem_of_cons; [|by apply Hok].
        assert (files w !! (b ++ [n0]) = None) as Hnone.
        { destruct Hno as [Hno|Hno]; [by apply tree_not_dir_child | done]. }
        destruct (Hfr (b ++ [n0])) as [->|[? _]]; done.
    + set (w1 := World (delete (b ++ [n0]) (files w)) (cwd w)
                       (out w ++ [WARNING ("Removed " +:+ join base [n0])])) in *.
      assert (tree (files w1)) as Ht1 by (by eapply tree_delete_file).
      destruct (IH w1 Ht1 E) as (Hc & Ht' & Hfr & Hok). split_and!; [done..| |].
      * intros k. destruct (decide (k = b ++ [n0])) as [->|Hne].
        -- right. split; [|exists n0, c; by rewrite elem_of_cons; eauto].
           destruct (Hfr (b ++ [n0])) as [->|[? _]]; [|done].
           apply lookup_delete_eq.
        -- destruct (Hfr k) as [->|(? & n & c' & ? & ? & Hk)].
           ++ left. simpl. by rewrite lookup_delete_ne.
           ++ right. split; [done|]. exists n, c'. rewrite elem_of_cons.
              simpl in Hk. rewrite lookup_delete_ne in Hk by done. by eauto.
      * intros Hr n [->|Hin]%elem_of_cons; [|by apply Hok].
        destruct (Hfr (b ++ [n0])) as [->|[? _]]; [|done].
        apply lookup_delete_eq.
    + injection E as <- <-. split_and!; [done..| |]; [by left | done].
Qed.

Lemma grown_lookup (m : fs) (d : list string) (n : string) (k : list string) :
  grown m d n !! k =
  if decide (k = (d ++ [n]) ++ [marker]) then Some (File "")
  else if decide (k = d ++ [n]) then Some Dir else m !! k.
Proof.
  unfold grown. destruct (decide (k = (d ++ [n]) ++ [marker])) as [->|H1].
  - apply lookup_insert_eq.
  - rewrite lookup_insert_ne by done. destruct (decide (k = d ++ [n])) as [->|H2].
    + apply lookup_insert_eq.
    + by rewrite lookup_insert_ne.
Qed.

Lemma create_all_effect (ts : list (list string * string)) (w w' : world) (r : result ()) :
  tree (files w) → create_all b base ts w = (w', r) →
  cwd w' = cwd w ∧ tree (files w') ∧ files w ⊆ files w' ∧
  (∀ k, files w !! k = None → is_Some (files w' !! k) →
     ∃ d n, (d, n) ∈ ts ∧ files w !! ((b ++ d) ++ [n]) = None ∧
       ((k = (b ++ d) ++ [n] ∧ files w' !! k = Some Dir) ∨
        (k = ((b ++ d) ++ [n]) ++ [marker] ∧ files w' !! k = Some (File "")))) ∧
  (r = Ok () → ∀ d n, (d, n) ∈ ts → is_Some (files w' !! ((b ++ d) ++ [n]))).
Proof.
  unfold create_all. revert w. induction ts as [|[d0 n0] ts IH]; intros w Ht E.
  - injection E as <- <-. split_and!; [done..| |].
    + intros k Hk [v Hv]. congruence.
    + by intros _ d n ?%elem_of_nil.
  - rewrite for_each_cons in E. cbn [fst snd] in E.
    destruct (create_at_cases (b ++ d0) n0 (join base (d0 ++ [n0])) w)
      as [(E1 & _ & Hthere)|[(Hdir & Habs & E1)|(e & E1 & _)]]; rewrite E1 in E.
    + destruct (IH w Ht E) as (Hc & Ht' & Hsub & Hnew & Hok). split_and!; [done..| |].
      * intros k Hk Hk'. destruct (Hnew k Hk Hk') as (d & n & Hin & ?).
        exists d, n. by rewrite elem_of_cons; eauto.
      * intros Hr d n [[= -> ->]|Hin]%elem_of_cons; [|by apply Hok].
        by eapply subseteq_is_Some.
    + fold (grown (files w) (b ++ d0) n0) in E.
      set (w1 := World (grown (files w) (b ++ d0) n0) (cwd w)
                       (out w ++ [SUCCESS ("Created " +:+ join base (d0 ++ [n0]))])) in *.
      assert (tree (files w1)) as Ht1 by (by apply grown_tree).
      pose proof (grown_subseteq (files w) (b ++ d0) n0 Ht Habs) as Hsub1.
      destruct (IH w1 Ht1 E) as (Hc & Ht' & Hsub & Hnew & Hok).
      split_and!; [done..|by etrans| |].
      * intros k Hk Hk'. destruct (files w1 !! k) as [v|] eqn:Hk1.
        -- exists d0, n0. split; [by left|]. split; [done|].
           simpl in Hk1. rewrite grown_lookup in Hk1.
           destruct (decide (k = ((b ++ d0) ++ [n0]) ++ [marker])) as [->|?].
           { right. split; [done|]. injection Hk1 as <-.
             eapply lookup_weaken; [|done]. simpl. rewrite grown_lookup.
             by rewrite decide_True. }
           destruct (decide (k = (b ++ d0) ++ [n0])) as [->|?]; [|congruence].
           left. split; [done|]. eapply lookup_weaken; [|done]. simpl.
           rewrite grown_lookup. rewrite decide_False by apply snoc_ne_self.
           by rewrite decide_True.
        -- destruct (Hnew k Hk1 Hk') as (d & n & Hin & Hnone & Hcase).
           exists d, n. split; [by right|]. split; [|done].
           destruct (files w !! ((b ++ d) ++ [n])) as [v|] eqn:Hv; [|done].
           apply (lookup_weaken _ (files w1)) in Hv; [|done]. congruence.
      * intros Hr d n [[= -> ->]|Hin]%elem_of_cons; [|by apply Hok].
        apply (subseteq_is_Some (files w1)); [done|]. simpl.
        rewrite grown_lookup. rewrite decide_False by apply snoc_ne_self.
        by rewrite decide_True.
    + injection E as <- <-. split_and!; [done..| |]; [|done].
      intros k Hk [v Hv]. congruence.
Qed.

Lemma create_all_Inv (ts : list (list string * string)) (w w' : world) (r : result ()) :
  Inv b base w → create_all b base ts w = (w', r) → Inv b base w'.
Proof.
  intros [Ht Hs] E. destruct (create_all_effect ts w w' r Ht E) as (Hc & Ht' & Hsub & _).
  split; [done|]. rewrite Hc.
  apply (stat_stable (files w)); [by apply subseteq_dirs_kept| |done].
  apply (subseteq_is_Some (files w)); [done|]. by eapply stat_inv.
Qed.

(** When there is nothing to remove or to create, the loops change nothing. *)
Lemma remove_all_noop (ns : list string) (w : world) :
  (∀ n, n ∈ ns → files w !! (b ++ [n]) = None) →
  remove_all b base ns w = (w, Ok ()).
Proof.
  unfold remove_all. induction ns as [|n ns IH]; intros H; [done|].
  rewrite for_each_cons.
  assert (remove_at b n (join base [n]) w = (w, Ok ())) as ->.
  { unfold remove_at. rewrite (H n) by (by left). by destruct (files w !! b) as [[]|]. }
  apply IH. intros n' Hn'. apply H. by right.
Qed.

Lemma create_all_noop (ts : list (list string * string)) (w : world) :
  tree (files w) →
  (∀ d n, (d, n) ∈ ts → is_Some (files w !! ((b ++ d) ++ [n]))) →
  create_all b base ts w = (w, Ok ()).
Proof.
  intros Ht. unfold create_all. induction ts as [|[d n] ts IH]; intros H; [done|].
  rewrite for_each_cons. cbn [fst snd].
  assert (create_at (b ++ d) n (join base (d ++ [n])) w = (w, Ok ())) as ->.
  { unfold create_at. destruct (H d n) as [v Hv]; [by left|].
    by rewrite (tree_parent _ _ _ Ht (mk_is_Some _ _ Hv)), Hv. }
  apply IH. intros d' n' Hn'. apply H. by right.
Qed.

End loop_effects.

(* ================================================================== *)
(** * The removal of the default files *)

Section removal.
Import Posixpath Kernel Aux Nodes Plan.

Variables (b : list string) (base : string).


Lemma without_in (m : fs) (ns : list string) (n : string) :
  n ∈ ns → without b m ns !! (b ++ [n]) = None.
Proof.
  unfold without. revert m. induction ns as [|n0 ns IH]; intros m Hn.
  - by apply elem_of_nil in Hn.
  - simpl. destruct (decide (n ∈ ns)) as [Hin|Hout]; [by apply IH|].
    apply elem_of_cons in Hn as [->|?]; [|done].
    clear IH. generalize (lookup_delete_eq m (b ++ [n0])).
    generalize (delete (b ++ [n0]) m). induction ns as [|n1 ns IH]; intros m' Hm'; [done|].
    simpl. apply IH; [by intros ?; apply Hout; right|].
    rewrite lookup_delete. by case_decide.
Qed.

Lemma without_other (m : fs) (ns : list string) (k : list string) :
  (∀ n, n ∈ ns → k ≠ b ++ [n]) → without b m ns !! k = m !! k.
Proof.
  unfold without. revert m. induction ns as [|n0 ns IH]; intros m Hk; [done|].
  simpl. rewrite IH by (intros n Hn; apply Hk; by right).
  apply lookup_delete_ne, not_eq_sym, Hk. by left.
Qed.

Lemma filter_ext_in {A : Type} (P1 P2 : A → Prop)
    `{!∀ x, Decision (P1 x), !∀ x, Decision (P2 x)} (l : list A) :
  (∀ x, x ∈ l → P1 x ↔ P2 x) → filter P1 l = filter P2 l.
Proof.
  induction l as [|x l IH]; intros Hext; [done|].
  rewrite !filter_cons, IH by (intros y Hy; apply Hext; by right).
  pose proof (Hext x (list_elem_of_here x l)) as Hx.
  destruct (decide (P1 x)) as [H1|H1], (decide (P2 x)) as [H2|H2]; try done;
    exfalso; tauto.
Qed.

(** The removal loop when none of the names is a directory. *)
Lemma remove_all_exact (ns : list string) (w : world) :
  NoDup ns → files w !! b = Some Dir →
  (∀ n, n ∈ ns → files w !! (b ++ [n]) ≠ Some Dir) →
  remove_all b base ns w =
  (World (without b (files w) ns) (cwd w)
     (out w ++ ((λ n, WARNING ("Removed " +:+ join base [n]))
                <$> filter (λ n, is_Some (files w !! (b ++ [n]))) ns)),
   Ok ()).
Proof.
  unfold remove_all. revert w. induction ns as [|n0 ns IH]; intros w Hnd Hb Hno.
  - destruct w. simpl. by rewrite app_nil_r.
  - apply NoDup_cons in Hnd as [Hn0 Hnd].
    rewrite for_each_cons.
    destruct (remove_at_cases b n0 (join base [n0]) w)
      as [[E1 Hcase]|[(c & _ & Hfile & E1)|(_ & Hdir & _)]]; rewrite ?E1.
    + destruct Hcase as [?|Habs]; [done|].
      rewrite IH; [|done..|by intros n Hn; apply Hno; right].
      unfold without. simpl. rewrite (delete_id _ _ Habs).
      rewrite filter_cons_False; [done|]. rewrite Habs. by intros [].
    + rewrite IH; [|done|by simpl; rewrite lookup_delete_ne by apply not_eq_sym, snoc_ne_self|].
      2:{ simpl. intros n Hn. rewrite lookup_delete. case_decide; [done|].
          apply Hno. by right. }
      cbn [files cwd out]. unfold without. simpl.
      rewrite filter_cons_True by (by rewrite Hfile).
      rewrite fmap_cons, <- app_assoc. simpl.
      rewrite (filter_ext_in (λ n, is_Some (delete (b ++ [n0]) (files w) !! (b ++ [n])))
                             (λ n, is_Some (files w !! (b ++ [n])))); [done|].
      intros n Hn. rewrite lookup_delete_ne; [done|].
      intros [= ->]%app_inv_head. done.
    + exfalso. by apply (Hno n0); [left|].
Qed.

End removal.

(* ================================================================== *)
(** * What a run does to the tree *)

Section run_effects.
Import Posixpath Kernel Aux Nodes Plan.

Lemma targets_not_default (d : list string) (n nd : string) :
  (d, n) ∈ targets → nd ∈ Command.default_files → d ++ [n] ≠ [nd].
Proof.
  intros Ht Hd.
  assert (Forall (λ t : list string * string,
            Forall (λ nd, t.1 ++ [t.2] ≠ [nd]) Command.default_files) targets) as H.
  { apply (bool_decide_unpack _). by vm_compute. }
  rewrite Forall_forall in H. specialize (H _ Ht). rewrite Forall_forall in H.
  by apply H.
Qed.

Lemma targets_not_marker (d : list string) (n : string) :
  (d, n) ∈ targets → n ≠ marker.
Proof.
  intros Ht.
  assert (Forall (λ t : list string * string, t.2 ≠ marker) targets) as H.
  { apply (bool_decide_unpack _). by vm_compute. }
  rewrite Forall_forall in H. by apply (H _ Ht).
Qed.

Lemma default_not_marker (n : string) : n ∈ Command.default_files → n ≠ marker.
Proof.
  intros Hn.
  assert (Forall (λ n, n ≠ marker) Command.default_files) as H.
  { apply (bool_decide_unpack _). by vm_compute. }
  rewrite Forall_forall in H. by apply H.
Qed.

(** A key the creation loop adds is not the key of a default file. *)
Lemma new_key_not_default (b d : list string) (n nd : string) (k : list string) :
  (d, n) ∈ targets → nd ∈ Command.default_files →
  k = (b ++ d) ++ [n] ∨ k = ((b ++ d) ++ [n]) ++ [marker] →
  k ≠ b ++ [nd].
Proof.
  intros Ht Hd [->| ->]; rewrite <- !app_assoc; intros E%app_inv_head.
  - by eapply targets_not_default.
  - apply (f_equal length) in E. rewrite !length_app in E. simpl in E. lia.
Qed.

Lemma scaffold_at_effect (b : list string) (base app : string)
    (w w' : world) (r : result ()) :
  tree (files w) → scaffold_at b base app w = (w', r) →
  cwd w' = cwd w ∧ tree (files w') ∧
  (∀ k v, files w !! k = Some v →
     files w' !! k = Some v ∨
     (files w' !! k = None ∧
      ∃ n c, n ∈ Command.default_files ∧ k = b ++ [n] ∧ v = File c)) ∧
  (∀ k, files w !! k = None → is_Some (files w' !! k) →
     ∃ d n, (d, n) ∈ targets ∧ files w !! ((b ++ d) ++ [n]) = None ∧
       ((k = (b ++ d) ++ [n] ∧ files w' !! k = Some Dir) ∨
        (k = ((b ++ d) ++ [n]) ++ [marker] ∧ files w' !! k = Some (File "")))) ∧
  (r = Ok () →
     (∀ n, n ∈ Command.default_files → files w' !! (b ++ [n]) = None) ∧
     (∀ d n, (d, n) ∈ targets → is_Some (files w' !! ((b ++ d) ++ [n])))) ∧
  (files w !! b = Some Dir →
   (∀ n, n ∈ Command.default_files → files w !! (b ++ [n]) ≠ Some Dir) →
   ∀ n, n ∈ Command.default_files → files w' !! (b ++ [n]) = None).
Proof.
  intros Ht E. unfold scaffold_at in E. rewrite bind_unfold in E.
  destruct (remove_all b base Command.default_files w) as [w1 r1] eqn:E1.
  destruct (remove_all_effect b base _ w w1 r1 Ht E1) as (Hc1 & Ht1 & Hfr1 & Hok1).
  assert (∀ k, files w !! k = None → files w1 !! k = None) as Hnone1.
  { intros k Hk. destruct (Hfr1 k) as [->|[? _]]; done. }
  destruct r1 as [[]|e1].
  2:{ injection E as <- <-. split_and!; [done..| | |done|].
      - intros k v Hk. destruct (Hfr1 k) as [->|(? & n & c & ? & ? & ?)]; [by left|].
        right. split; [done|]. exists n, c. split_and!; [done..|congruence].
      - intros k Hk [v Hv]. rewrite (Hnone1 k Hk) in Hv. done.
      - intros Hb Hno. rewrite remove_all_exact in E1; [done| |done..].
        by apply (bool_decide_unpack _). }
  rewrite bind_unfold in E.
  destruct (create_all b base targets w1) as [w2 r2] eqn:E2.
  destruct (create_all_effect b base _ w1 w2 r2 Ht1 E2) as (Hc2 & Ht2 & Hsub2 & Hnew2 & Hok2).
  assert (∀ nd, nd ∈ Command.default_files →
            files w1 !! (b ++ [nd]) = None → files w2 !! (b ++ [nd]) = None) as Hkeep.
  { intros nd Hnd Hk. destruct (files w2 !! (b ++ [nd])) as [v|] eqn:Hv; [|done].
    destruct (Hnew2 _ Hk (mk_is_Some _ _ Hv)) as (d & n & Hin & _ & Hcase).
    exfalso. eapply (new_key_not_default b d n nd); [done..| |done].
    destruct Hcase as [[? _]|[? _]]; by eauto. }
  assert (files w' = files w2 ∧ cwd w' = cwd w2 ∧ (r = Ok () → r2 = Ok ())) as (Hf & Hc & Hr).
  { destruct r2 as [[]|e2]; [|by injection E as <- <-].
    unfold stdout_write in E. by injection E as <- <-. }
  rewrite Hf, Hc. split_and!; [congruence|done| | | |].
  - intros k v Hk. destruct (Hfr1 k) as [Hk1|(Hk1 & n & c & Hn & -> & Hv)].
    + left. eapply lookup_weaken; [|done]. congruence.
    + right. split; [by apply Hkeep|]. exists n, c. split_and!; [done..|congruence].
  - intros k Hk Hk'. destruct (Hnew2 k (Hnone1 k Hk) Hk') as (d & n & Hin & Hn1 & Hcase).
    exists d, n. split_and!; [done| |done].
    destruct (Hfr1 ((b ++ d) ++ [n])) as [Heq|(_ & nd & c & Hnd & Hkey & _)]; [congruence|].
    exfalso. eapply (new_key_not_default b d n nd); [done..|by left|done].
  - intros Hrok. specialize (Hr Hrok). split.
    + intros n Hn. apply Hkeep; [done|]. by apply Hok1.
    + by apply Hok2.
  - intros _ _ n Hn. apply Hkeep; [done|]. by apply Hok1.
Qed.

(** The two ways a run can go at the existence check. *)
Lemma handle_cases (app : string) (w : world) :
  tree (files w) →
  (Os.path_exists (join (cwd w) [app]) w = (w, Ok false) ∧
   Command.handle app w =
     (World (files w) (cwd w) (out w ++ [ERROR ("App '" +:+ app +:+ "' does not exist")]),
      Ok ()))
  ∨ (∃ b, stat (files w) (cwd w) (join (cwd w) [app]) = Ok b ∧
          Os.path_exists (join (cwd w) [app]) w = (w, Ok true) ∧
          Command.handle app w = scaffold_at b (join (cwd w) [app]) app w).
Proof.
  intros Ht. destruct (stat (files w) (cwd w) (join (cwd w) [app])) as [b|e] eqn:Hs.
  - right. exists b. split; [done|]. split.
    + unfold Os.path_exists. by rewrite Hs.
    + by apply handle_nodes.
  - left. unfold Command.handle, Os.path_exists.
    rewrite bind_unfold. unfold Os.getcwd. cbv zeta. rewrite bind_unfold.
    by rewrite Hs.
Qed.

End run_effects.

(* ================================================================== *)
(** * Concrete filesystems *)


Section example_facts.
Import Examples.

Lemma treeb_tree (m : fs) : treeb m = true → tree m.
Proof.
  unfold treeb. intros [Hr Hall]%andb_prop. split.
  - by apply bool_decide_eq_true in Hr.
  - intros k n v Hk. rewrite forallb_forall in Hall.
    apply elem_of_map_to_list, list_elem_of_In in Hk. specialize (Hall _ Hk).
    simpl in Hall. rewrite removelast_last in Hall.
    unfold is_dir in Hall. destruct (k ++ [n]) eqn:E; [by destruct k|].
    by destruct (m !! k) as [[]|].
Qed.

Lemma fresh_tree : tree (files fresh).
Proof. apply treeb_tree. by vm_compute. Qed.

Lemma startapp_tree : tree (files startapp).
Proof. apply treeb_tree. by vm_compute. Qed.

Lemma clash_tree : tree (files clash).
Proof. apply treeb_tree. by vm_compute. Qed.

Lemma package_tree : tree (files package).
Proof. apply treeb_tree. by vm_compute. Qed.

Lemma flat_tree : tree (files flat).
Proof. apply treeb_tree. by vm_compute. Qed.

End example_facts.

(* ================================================================== *)
(** * The model on small inputs *)

Section sanity.
Import Posixpath Kernel Examples.

Example join_plain : join "/proj" ["myapp"] = "/proj/myapp".
Proof. reflexivity. Qed.

Example join_after_separator : join "/proj/" ["myapp"] = "/proj/myapp".
Proof. reflexivity. Qed.

Example join_absolute : join "/proj" ["/srv/app"] = "/srv/app".
Proof. reflexivity. Qed.

Example join_empty : join "/proj" [""] = "/proj/".
Proof. reflexivity. Qed.

Example join_three : join "/proj/myapp" ["models"; "helper"; "enums"]
                     = "/proj/myapp/models/helper/enums".
Proof. reflexivity. Qed.

Example split_plain : split "/proj/myapp" = ("/proj", "myapp").
Proof. reflexivity. Qed.

Example split_trailing_head : split "a/b///" = ("a/b", "").
Proof. reflexivity. Qed.

Example split_root : split "/" = ("/", "").
Proof. reflexivity. Qed.

Example split_root_child : split "/proj" = ("/", "proj").
Proof. reflexivity. Qed.

Example stat_dir : stat (files startapp) "/proj" "myapp/api/" = Ok ["proj"; "myapp"; "api"].
Proof. by vm_compute. Qed.

Example stat_dotdot :
  stat (files startapp) "/proj" "/proj/myapp/../myapp/./apps.py"
  = Ok ["proj"; "myapp"; "apps.py"].
Proof. by vm_compute. Qed.

Example stat_file_with_separator :
  stat (files startapp) "/proj" "/proj/myapp/apps.py/" = Raised NotADirectoryError.
Proof. by vm_compute. Qed.

Example stat_missing :
  stat (files startapp) "/proj" "/proj/shop" = Raised FileNotFoundError.
Proof. by vm_compute. Qed.

Example makedirs_existing :
  (Os.makedirs "/proj/myapp/api" startapp).2 = Raised FileExistsError.
Proof. by vm_compute. Qed.

Example makedirs_nested :
  let w := (Os.makedirs "/proj/myapp/a/b/c" startapp).1 in
  (files w !! ["proj"; "myapp"; "a"], files w !! ["proj"; "myapp"; "a"; "b"],
   files w !! ["proj"; "myapp"; "a"; "b"; "c"])
  = (Some Dir, Some Dir, Some Dir).
Proof. by vm_compute. Qed.

Example remove_directory :
  (Os.remove "/proj/myapp/api" startapp).2 = Raised IsADirectoryError.
Proof. by vm_compute. Qed.

Example run_on_startapp_messages :
  out (Command.handle "myapp" startapp).1
  = [ WARNING "Removed /proj/myapp/models.py";
      WARNING "Removed /proj/myapp/admin.py";
      WARNING "Removed /proj/myapp/tests.py";
      WARNING "Removed /proj/myapp/views.py";
      SUCCESS "Created /proj/myapp/admin";
      SUCCESS "Created /proj/myapp/api/exceptions";
      SUCCESS "Created /proj/myapp/api/filters";
      SUCCESS "Created /proj/myapp/api/orderings";
      SUCCESS "Created /proj/myapp/api/paginations";
      SUCCESS "Created /proj/myapp/api/permissions";
      SUCCESS "Created /proj/myapp/api/schema";
      SUCCESS "Created /proj/myapp/api/routers";
      SUCCESS "Created /proj/myapp/api/serializers";
      SUCCESS "Created /proj/myapp/api/throttlings";
      SUCCESS "Created /proj/myapp/api/views";
      SUCCESS "Created /proj/myapp/models";
      SUCCESS "Created /proj/myapp/models/helper";
      SUCCESS "Created /proj/myapp/repository";
      SUCCESS "Created /proj/myapp/repository/manager";
      SUCCESS "Created /proj/myapp/repository/queryset";
      SUCCESS "Created /proj/myapp/signals";
      SUCCESS "Created /proj/myapp/tests";
      SUCCESS "Created /proj/myapp/tests/models";
      SUCCESS "Created /proj/myapp/tests/api";
      SUCCESS "Created /proj/myapp/tests/admin";
      SUCCESS "Created /proj/myapp/validators";
      SUCCESS "Created /proj/myapp/models/helper/enums";
      SUCCESS "Structure created for app 'myapp'" ].
Proof. by vm_compute. Qed.

Example run_on_clash :
  ((Command.handle "myapp" clash).2, out (Command.handle "myapp" clash).1)
  = (Raised NotADirectoryError, []).
Proof. by vm_compute. Qed.

Example run_on_missing :
  ((Command.handle "shop" fresh).2, out (Command.handle "shop" fresh).1)
  = (Ok (), [ERROR "App 'shop' does not exist"]).
Proof. by vm_compute. Qed.

End sanity.

(* ================================================================== *)
(** * The properties of the specification *)

Section properties.
Import Posixpath Kernel Aux Nodes Plan.

(** C2: when the directory of [app_name] does not exist
    ([os.path.exists(base_dir)] is false), the run changes nothing in the
    filesystem, writes exactly one message, the error naming the app, and
    returns normally: no exception is raised. *)
Theorem handle_missing_app (app_name : string) (w : world) :
  Os.path_exists (join (cwd w) [app_name]) w = (w, Ok false) →
  Command.handle app_name w =
    (World (files w) (cwd w)
           (out w ++ [ERROR ("App '" +:+ app_name +:+ "' does not exist")]),
     Ok ()).
Proof.
  intros H. unfold Command.handle.
  rewrite bind_unfold. unfold Os.getcwd. cbv zeta. rewrite bind_unfold, H. done.
Qed.

(** C8: the existence check accepts a regular file.  When [base_dir]
    names a regular file, [os.path.exists] is true, no "does not exist"
    message is written, the removal loop runs (and finds nothing), and the
    first creation attempt raises [NotADirectoryError], which nothing
    catches: the run ends with that exception and an unchanged
    filesystem. *)
Theorem handle_base_is_file (app_name : string) (w : world)
    (b : list string) (c : string) :
  tree (files w) →
  stat (files w) (cwd w) (join (cwd w) [app_name]) = Ok b →
  files w !! b = Some (File c) →
  Os.path_exists (join (cwd w) [app_name]) w = (w, Ok true)
  ∧ Command.remove_default_files (join (cwd w) [app_name]) w = (w, Ok ())
  ∧ Command.create_folder_with_init (join (join (cwd w) [app_name]) ["admin"]) w
      = (w, Raised NotADirectoryError)
  ∧ Command.handle app_name w = (w, Raised NotADirectoryError).
Proof.
  intros Ht Hs Hb. set (base := join (cwd w) [app_name]) in *.
  assert (Inv b base w) as HI by done.
  assert (remove_all b base Command.default_files w = (w, Ok ())) as Hrm.
  { apply remove_all_noop. intros n _. by eapply tree_file_child_absent. }
  split_and!.
  - unfold Os.path_exists. by rewrite Hs.
  - unfold Command.remove_default_files.
    by rewrite (remove_loop_nodes b base _ w plain_default_files HI).
  - change (join base ["admin"]) with (join2 base "admin").
    rewrite (create_folder_with_init_join2 w base "admin" b Ht Hs eq_refl).
    unfold create_at. by rewrite Hb.
  - rewrite (handle_nodes b base app_name w eq_refl HI).
    unfold scaffold_at. rewrite bind_unfold, Hrm, bind_unfold.
    assert (∃ ts, targets = ([], "admin") :: ts) as [ts ->] by (by eexists).
    unfold create_all. rewrite for_each_cons. cbn [fst snd].
    unfold create_at. by rewrite app_nil_r, Hb.
Qed.

(** C9: the frame of a run, whatever its outcome.  Every entry that was
    there before the run is there afterwards with the same kind and
    content, except for regular files named [models.py], [admin.py],
    [tests.py] or [views.py] directly under the base directory, which may
    be gone.  In particular no directory is ever removed. *)
Theorem run_frame (app_name : string) (w w' : world) (r : result ()) :
  tree (files w) →
  Command.handle app_name w = (w', r) →
  (∀ k v, files w !! k = Some v →
     files w' !! k = Some v ∨
     (files w' !! k = None ∧
      ∃ b n c, stat (files w) (cwd w) (join (cwd w) [app_name]) = Ok b ∧
               n ∈ ["models.py"; "admin.py"; "tests.py"; "views.py"] ∧
               k = b ++ [n] ∧ v = File c))
  ∧ (∀ k, files w !! k = Some Dir → files w' !! k = Some Dir).
Proof.
  intros Ht E.
  assert (∀ k v, files w !! k = Some v →
     files w' !! k = Some v ∨
     (files w' !! k = None ∧
      ∃ b n c, stat (files w) (cwd w) (join (cwd w) [app_name]) = Ok b ∧
               n ∈ ["models.py"; "admin.py"; "tests.py"; "views.py"] ∧
               k = b ++ [n] ∧ v = File c)) as Hfr.
  { destruct (handle_cases app_name w Ht) as [[_ E']|(b & Hs & _ & E')];
      rewrite E' in E.
    - injection E as <- <-. by left.
    - destruct (scaffold_at_effect _ _ _ _ _ _ Ht E) as (_ & _ & Hfr & _).
      intros k v Hk. destruct (Hfr k v Hk) as [?|(? & n & c & ? & ? & ?)]; [by left|].
      right. split; [done|]. by exists b, n, c. }
  split; [done|]. intros k Hk.
  destruct (Hfr k Dir Hk) as [?|(_ & ? & ? & ? & _ & _ & _ & ?)]; done.
Qed.

(** C4: a path that exists (as a directory or as a file) is left alone by
    [create_folder_with_init]: no change to the filesystem, no message.
    So a folder that is there before a run keeps its [__init__.py] entry
    as it was: if it had no marker file before, it has none after. *)
Theorem existing_path_untouched :
  (∀ path w,
     Os.path_exists path w = (w, Ok true) →
     Command.create_folder_with_init path w = (w, Ok ()))
  ∧ (∀ app_name w w' r k,
       tree (files w) →
       Command.handle app_name w = (w', r) →
       files w !! k = Some Dir →
       files w' !! k = Some Dir
       ∧ files w' !! (k ++ ["__init__.py"]) = files w !! (k ++ ["__init__.py"])).
Proof.
  split.
  - intros path w H. unfold Command.create_folder_with_init.
    by rewrite bind_unfold, H.
  - intros app w w' r k Ht E Hk.
    destruct (handle_cases app w Ht) as [[_ E']|(b & Hs & _ & E')]; rewrite E' in E.
    { injection E as <- <-. done. }
    destruct (scaffold_at_effect _ _ _ _ _ _ Ht E) as (_ & _ & Hfr & Hnew & _).
    split.
    { destruct (Hfr k Dir Hk) as [?|(_ & ? & ? & _ & _ & ?)]; done. }
    fold marker. destruct (files w !! (k ++ [marker])) as [v|] eqn:Hm.
    + destruct (Hfr _ v Hm) as [?|(_ & n & c & Hn & Hkey & _)]; [done|].
      apply app_inj_tail in Hkey as [_ Hkey]. symmetry in Hkey.
      by apply default_not_marker in Hkey.
    + destruct (files w' !! (k ++ [marker])) as [v|] eqn:Hm'; [|done].
      destruct (Hnew _ Hm (mk_is_Some _ _ Hm')) as (d & n & Hin & Habs & [[Hkey _]|[Hkey _]]).
      * apply app_inj_tail in Hkey as [_ Hkey]. symmetry in Hkey.
        by apply targets_not_marker in Hin.
      * apply app_inj_tail in Hkey as [Hkey _]. congruence.
Qed.

(** C3: a second run finds nothing to do.  After a run that completed on
    an existing target, the removal loop runs again and changes nothing,
    no folder and no file is created, the only message written is the
    final one, and the filesystem is the one the first run left. *)
Theorem handle_idempotent (app_name : string) (w w1 : world) :
  tree (files w) →
  Os.path_exists (join (cwd w) [app_name]) w = (w, Ok true) →
  Command.handle app_name w = (w1, Ok ()) →
  Command.remove_default_files (join (cwd w1) [app_name]) w1 = (w1, Ok ())
  ∧ Command.handle app_name w1 =
      (World (files w1) (cwd w1)
             (out w1 ++ [SUCCESS ("Structure created for app '" +:+ app_name +:+ "'")]),
       Ok ()).
Proof.
  intros Ht Hex E.
  destruct (handle_cases app_name w Ht) as [[E' _]|(b & Hs & _ & E')].
  { rewrite E' in Hex. done. }
  rewrite E' in E.
  destruct (scaffold_at_effect _ _ _ _ _ _ Ht E) as (Hc & Ht1 & Hfr & _ & Hok & _).
  destruct (Hok eq_refl) as [Hdef Htar]. rewrite !Hc.
  set (base := join (cwd w) [app_name]) in *.
  assert (Inv b base w1) as HI1.
  { split; [done|]. rewrite Hc. apply (stat_stable (files w)); [| |done].
    - intros k Hk. destruct (Hfr k Dir Hk) as [?|(_ & ? & ? & _ & _ & ?)]; done.
    - destruct (stat_inv _ _ _ _ Hs) as (_ & _ & [v Hv]).
      destruct (Hfr b v Hv) as [->|(_ & n & _ & _ & Hkey & _)]; [done|].
      by apply snoc_ne_self in Hkey. }
  assert (remove_all b base Command.default_files w1 = (w1, Ok ())) as Hrm.
  { by apply remove_all_noop. }
  split.
  - unfold Command.remove_default_files.
    by rewrite (remove_loop_nodes b base _ w1 plain_default_files HI1).
  - rewrite (handle_nodes b base app_name w1); [|by rewrite Hc|done].
    unfold scaffold_at. rewrite bind_unfold, Hrm, bind_unfold.
    rewrite (create_all_noop b base targets w1 Ht1 Htar).
    unfold stdout_write. by rewrite Hc.
Qed.

End properties.

(* ================================================================== *)
(** * The order of the operations *)


Section order.
Import Posixpath Plan Order.

(** C6: on an existing target, a run is the operations of the stated
    order, one after the other (an exception ends the run where it is
    raised): the four removals, the creation attempts in the order of the
    table with every folder before its subfolders, then
    [models/helper/enums], then the final message. *)
Theorem handle_order (app_name : string) (w : world) :
  Os.path_exists (join (cwd w) [app_name]) w = (w, Ok true) →
  Command.handle app_name w
  = for_each stated_order (perform (join (cwd w) [app_name]) app_name) w.
Proof.
  intros Hex. set (base := join (cwd w) [app_name]) in *.
  unfold Command.handle.
  rewrite bind_unfold. unfold Os.getcwd. cbv zeta. fold base.
  rewrite bind_unfold, Hex. cbn [negb].
  change stated_order with
    (map Remove_default Command.default_files
     ++ map Create_folder (map (λ t : list string * string, t.1 ++ [t.2]) targets)
     ++ [Report_success]).
  rewrite for_each_app, for_each_map, bind_unfold.
  unfold Command.remove_default_files. cbn [perform].
  destruct (for_each Command.default_files _ w) as [w1 [[]|e]]; [|done].
  rewrite attempts_flat, bind_unfold.
  rewrite for_each_app, !for_each_map. cbn [perform].
  destruct (for_each targets _ w1) as [w2 [[]|e]]; [|done].
  rewrite for_each_cons. cbn [perform].
  by destruct (stdout_write _ w2) as [w3 [[]|e]].
Qed.

End order.

(* ================================================================== *)
(** * The scaffold of an empty directory *)


Section scaffold_empty.
Import Posixpath Kernel Aux Nodes Plan Scaffold.

Variables (b : list string) (base : string) (m : fs).
Hypothesis base_dir : m !! b = Some Dir.
Hypothesis base_empty : ∀ q, q ≠ [] → m !! (b ++ q) = None.

Lemma lookup_graft (t : fs) (q : list string) :
  (graft b t ∪ m) !! (b ++ q) =
  match t !! q with Some v => Some v | None => m !! (b ++ q) end.
Proof.
  unfold graft. rewrite lookup_union, (lookup_kmap (app b)).
  destruct (t !! q), (m !! (b ++ q)); done.
Qed.

Lemma insert_graft (t : fs) (q : list string) (v : node) :
  <[b ++ q := v]> (graft b t ∪ m) = graft b (<[q := v]> t) ∪ m.
Proof. unfold graft. by rewrite (kmap_insert (app b)), insert_union_l. Qed.

Lemma assoc_lookup (l : entries) (q : list string) :
  assoc l q = (list_to_map l : fs) !! q.
Proof.
  induction l as [|[k v] l IH]; simpl; [done|].
  rewrite lookup_insert. by destruct (decide (k = q)).
Qed.

Lemma create_all_fresh (ts : list (list string * string)) (l l' : entries)
    (wd : string) (o : list message) :
  assoc l [] = None →
  fresh_run l ts = Some l' →
  create_all b base ts (World (graft b (list_to_map l) ∪ m) wd o)
  = (World (graft b (list_to_map l') ∪ m) wd
           (o ++ ((λ x, SUCCESS (created_text base x)) <$> ts)),
     Ok ()).
Proof.
  unfold create_all. revert l o. induction ts as [|[d n] ts IH]; intros l o Hnil Hrun.
  - injection Hrun as <-. simpl. by rewrite app_nil_r.
  - simpl in Hrun.
    destruct (bool_decide (d = []) || bool_decide (assoc l d = Some Dir)) eqn:Hpar;
      [|done].
    destruct (bool_decide (assoc l (d ++ [n]) = None)) eqn:Hfree; [|done].
    simpl in Hrun. apply bool_decide_eq_true in Hfree.
    rewrite assoc_lookup in Hfree.
    rewrite for_each_cons. cbn [fst snd]. unfold create_at. cbn [files cwd out].
    assert ((graft b (list_to_map l) ∪ m) !! (b ++ d) = Some Dir) as ->.
    { rewrite lookup_graft, <- assoc_lookup.
      apply orb_prop in Hpar as [H%bool_decide_eq_true|H%bool_decide_eq_true].
      - subst d. by rewrite Hnil, app_nil_r.
      - by rewrite H. }
    rewrite <- (app_assoc b d [n]), lookup_graft, Hfree.
    rewrite base_empty by (by destruct d).
    rewrite <- (app_assoc b (d ++ [n]) [marker]), !insert_graft.
    rewrite <- !list_to_map_cons.
    assert (assoc (((d ++ [n]) ++ [marker], File "") :: (d ++ [n], Dir) :: l) [] = None)
      as Hnil'.
    { simpl. rewrite !decide_False; [done|by destruct d..]. }
    rewrite (IH _ _ Hnil' Hrun), fmap_cons, <- app_assoc. done.
Qed.

End scaffold_empty.

Section scaffold_contract.
Import Posixpath Kernel Aux Nodes Plan Scaffold.

Lemma list_to_map_same (l1 l2 : entries) :
  NoDup l1.*1 → NoDup l2.*1 → (∀ e, e ∈ l1 ↔ e ∈ l2) →
  (list_to_map l1 : fs) = list_to_map l2.
Proof.
  intros H1 H2 H. apply map_eq. intros k. apply option_eq. intros v.
  rewrite <- !elem_of_list_to_map by done. apply H.
Qed.

Lemma contract_keys_NoDup : NoDup contract_entries.*1.
Proof. apply (bool_decide_unpack _). by vm_compute. Qed.

Lemma fresh_run_targets :
  ∃ l, fresh_run [] targets = Some l ∧ (list_to_map l : fs) = contract.
Proof.
  eexists. split; [by vm_compute|]. unfold contract.
  apply list_to_map_same.
  - apply (bool_decide_unpack _). by vm_compute.
  - apply contract_keys_NoDup.
  - intros e. split; revert e; apply Forall_forall, (bool_decide_unpack _);
      by vm_compute.
Qed.

Lemma contract_lookup (q : list string) (v : node) :
  contract !! q = Some v ↔
  ∃ p, p ∈ contract_folders ∧ ((q, v) = (p, Dir) ∨ (q, v) = (p ++ ["__init__.py"], File "")).
Proof.
  unfold contract. rewrite <- (elem_of_list_to_map _ _ _ contract_keys_NoDup).
  unfold contract_entries. rewrite list_elem_of_In, in_flat_map. split.
  - intros (p & Hp & [E|[E|[]]]); exists p; rewrite list_elem_of_In; by eauto.
  - intros (p & Hp & [E|E]); exists p; rewrite <- list_elem_of_In; simpl; by eauto.
Qed.

Lemma targets_contract :
  (λ t : list string * string, t.1 ++ [t.2]) <$> targets ≡ₚ contract_folders.
Proof. apply (bool_decide_unpack _). by vm_compute. Qed.

End scaffold_contract.

Section properties_scaffold.
Import Posixpath Kernel Aux Nodes Plan Scaffold.

(** C1: when the directory of [app_name] exists and is empty (so holds no
    default files), the run returns normally and leaves under that
    directory exactly the tree of the filesystem contract: its 24 folders,
    each holding the empty marker file [__init__.py] as its only file, and
    nothing else; the directory itself and the rest of the filesystem are
    as before.  One message is written per created folder, then the final
    one. *)
Theorem scaffold_of_empty_app (app_name : string) (w : world) (b : list string) :
  tree (files w) →
  stat (files w) (cwd w) (join (cwd w) [app_name]) = Ok b →
  files w !! b = Some Dir →
  (∀ q, q ≠ [] → files w !! (b ++ q) = None) →
  Command.handle app_name w =
    (World (graft b contract ∪ files w) (cwd w)
       (out w
        ++ ((λ t : list string * string,
               SUCCESS ("Created " +:+ join (join (cwd w) [app_name]) (t.1 ++ [t.2])))
            <$> targets)
        ++ [SUCCESS ("Structure created for app '" +:+ app_name +:+ "'")]),
     Ok ())
  ∧ (∀ q, q ≠ [] → (graft b contract ∪ files w) !! (b ++ q) = contract !! q)
  ∧ (∀ k, (∀ q, q ≠ [] → k ≠ b ++ q) →
          (graft b contract ∪ files w) !! k = files w !! k)
  ∧ length contract_folders = 24
  ∧ NoDup contract_folders
  ∧ (λ t : list string * string, t.1 ++ [t.2]) <$> targets ≡ₚ contract_folders
  ∧ (∀ q v, contract !! q = Some v ↔
       ∃ p, p ∈ contract_folders ∧
            ((q = p ∧ v = Dir) ∨ (q = p ++ ["__init__.py"] ∧ v = File ""))).
Proof.
  intros Ht Hs Hb Hempty. split_and!.
  - rewrite (handle_nodes b _ app_name w eq_refl (conj Ht Hs)).
    unfold scaffold_at. rewrite bind_unfold, remove_all_noop, bind_unfold.
    2:{ intros n _. by apply Hempty. }
    destruct fresh_run_targets as (l & Hrun & Hl).
    destruct w as [m wd o]. cbn [files cwd out] in *.
    assert (World m wd o = World (graft b (list_to_map []) ∪ m) wd o) as Hw.
    { unfold graft. simpl. by rewrite kmap_empty, (left_id_L ∅ (∪)). }
    rewrite Hw at 1.
    rewrite (create_all_fresh b _ m Hb Hempty targets [] l wd o eq_refl Hrun), Hl.
    unfold stdout_write. cbn [files cwd out]. by rewrite <- app_assoc.
  - intros q Hq. rewrite (lookup_graft b (files w)). rewrite (Hempty q Hq).
    by destruct (contract !! q).
  - intros k Hk. rewrite lookup_union.
    assert (graft b contract !! k = None) as ->.
    { unfold graft. apply lookup_kmap_None; [apply _|]. intros q Hq.
      destruct (decide (q = [])) as [->|Hne]; [by vm_compute | by destruct (Hk q Hne)]. }
    by destruct (files w !! k).
  - done.
  - apply (bool_decide_unpack _). by vm_compute.
  - apply targets_contract.
  - intros q v. rewrite contract_lookup. split; intros (p & Hp & H); exists p;
      (split; [done|]); destruct H as [H|H]; [left|right|left|right];
      first [by injection H | by destruct H as [-> ->]].
Qed.

End properties_scaffold.

Section properties_removal.
Import Posixpath Kernel Aux Nodes Plan.

(** C5 (as amended): [remove_default_files] goes through [models.py],
    [admin.py], [tests.py], [views.py] in this order.  When [base_dir]
    names a directory and none of the four names is a directory in it
    (each is a regular file or missing), the loop returns normally, every
    one of the four that is there is deleted and reported by one warning
    with its path, the warnings in the order of the names, a missing one
    gives no message, and nothing else changes.  Whatever the outcome of
    the loop, also without that condition, only entries directly under
    [base_dir] with one of the four names can change: a file of the same
    name in a subfolder is never removed. *)
Theorem remove_default_files_spec (base_dir : string) (w : world) (b : list string) :
  tree (files w) →
  stat (files w) (cwd w) base_dir = Ok b →
  files w !! b = Some Dir →
  (∀ w' r, Command.remove_default_files base_dir w = (w', r) →
     (∀ k, (∀ n, n ∈ ["models.py"; "admin.py"; "tests.py"; "views.py"] → k ≠ b ++ [n]) →
           files w' !! k = files w !! k)
     ∧ (∀ sub n, files w' !! (b ++ [sub; n]) = files w !! (b ++ [sub; n])))
  ∧ ((∀ n, n ∈ ["models.py"; "admin.py"; "tests.py"; "views.py"] →
           files w !! (b ++ [n]) ≠ Some Dir) →
     ∃ w', Command.remove_default_files base_dir w = (w', Ok ())
       ∧ cwd w' = cwd w
       ∧ (∀ n, n ∈ ["models.py"; "admin.py"; "tests.py"; "views.py"] →
               files w' !! (b ++ [n]) = None)
       ∧ (∀ k, (∀ n, n ∈ ["models.py"; "admin.py"; "tests.py"; "views.py"] → k ≠ b ++ [n]) →
               files w' !! k = files w !! k)
       ∧ out w' = out w ++
           ((λ n, WARNING ("Removed " +:+ join base_dir [n]))
            <$> filter (λ n, is_Some (files w !! (b ++ [n])))
                       ["models.py"; "admin.py"; "tests.py"; "views.py"])).
Proof.
  intros Ht Hs Hb.
  assert (Command.remove_default_files base_dir w
          = remove_all b base_dir Command.default_files w) as Hnodes.
  { unfold Command.remove_default_files.
    by rewrite (remove_loop_nodes b base_dir _ w plain_default_files (conj Ht Hs)). }
  split.
  - intros w' r E. rewrite Hnodes in E.
    destruct (remove_all_effect b base_dir _ w w' r Ht E) as (_ & _ & Hfr & _).
    assert (∀ k, (∀ n, n ∈ Command.default_files → k ≠ b ++ [n]) →
                 files w' !! k = files w !! k) as Hother.
    { intros k Hk. destruct (Hfr k) as [?|(_ & n & c & Hn & Hkey & _)]; [done|].
      by destruct (Hk n Hn). }
    split; [done|]. intros sub n. apply Hother. intros n' _ E'%app_inv_head. done.
  - intros Hno. eexists. rewrite Hnodes.
    rewrite (remove_all_exact b base_dir Command.default_files w); [|by apply (bool_decide_unpack _)|done..].
    split; [done|]. cbn [files cwd out]. split_and!; [done| | |done].
    + intros n Hn. by apply without_in.
    + intros k Hk. by apply without_other.
Qed.

(** The claim C5 as stated fails where one of the four names is a
    directory: [os.path.exists] is true for it and [os.remove] raises.  In
    [package], [tests.py] is a directory; [views.py] exists, and yet it is
    neither deleted nor reported: the loop ends at [tests.py]. *)
Lemma remove_default_files_directory_named_default :
  tree (files Examples.package)
  ∧ files Examples.package !! ["proj"; "myapp"; "tests.py"] = Some Dir
  ∧ Os.path_exists "/proj/myapp/views.py" Examples.package = (Examples.package, Ok true)
  ∧ (Command.remove_default_files "/proj/myapp" Examples.package).2
    = Raised IsADirectoryError
  ∧ files (Command.remove_default_files "/proj/myapp" Examples.package).1
      !! ["proj"; "myapp"; "views.py"]
    = Some (File "from django.shortcuts import render")
  ∧ out (Command.remove_default_files "/proj/myapp" Examples.package).1
    = [WARNING "Removed /proj/myapp/models.py"].
Proof.
  split_and!; [apply package_tree|by vm_compute| |by vm_compute..].
  assert (stat (files Examples.package) (cwd Examples.package) "/proj/myapp/views.py"
          = Ok ["proj"; "myapp"; "views.py"]) as Hs by (by vm_compute).
  unfold Os.path_exists. by rewrite Hs.
Qed.

End properties_removal.

(* ================================================================== *)
(** * The empty app name *)

Section properties_empty_name.
Import Posixpath Kernel Aux Nodes Plan Scaffold.

(** Joining the empty string to the path of a directory gives a path of
    the same directory. *)
Lemma stat_join2_empty (m : fs) (wd a : string) (c : list string) :
  stat m wd a = Ok c → m !! c = Some Dir → stat m wd (join2 a "") = Ok c.
Proof.
  intros Hs Hc. pose proof Hs as (He & Hw & _)%stat_inv.
  unfold join2. simpl. rewrite He. simpl.
  destruct (endswith_sep a); [by rewrite sapp_empty_r|].
  unfold stat, origin. rewrite is_empty_app, He, (startswith_app _ _ He).
  rewrite tokens_app_sep. simpl. rewrite walk_snoc.
  unfold origin in Hw. rewrite Hw, Hc. unfold present, enter. simpl. by rewrite Hc.
Qed.

End properties_empty_name.

(* ================================================================== *)
(** * Creating a folder with its missing parents *)


Section makedirs_chain.
Import Posixpath Kernel Aux Nodes Plan Chain.
#[local] Arguments String.append : simpl nomatch.

Lemma slength_app (x y : string) :
  String.length (x +:+ y) = (String.length x + String.length y)%nat.
Proof. induction x as [|c x IH]; simpl; [done | by rewrite IH]. Qed.

Lemma endswith_app (y n : string) :
  is_empty n = false → endswith_sep (y +:+ n) = endswith_sep n.
Proof.
  intros Hn. induction y as [|c y IH]; [done|].
  simpl. rewrite <- IH. destruct (y +:+ n) eqn:E; [|done].
  destruct y; simpl in E; [by subst n | done].
Qed.

Lemma no_sep_endswith (n : string) : has_sep n = false → endswith_sep n = false.
Proof.
  induction n as [|c n IH]; [done|]. simpl. intros [Hc Hn]%orb_false_iff.
  destruct n; [done | by apply IH].
Qed.

Lemma endswith_join2 (x n : string) : plain n = true → endswith_sep (join2 x n) = false.
Proof.
  intros Hn. rewrite (join2_plain x n (plain_no_sep n Hn)).
  destruct (is_empty x || endswith_sep x).
  - rewrite (endswith_app _ _ (plain_not_empty n Hn)).
    apply no_sep_endswith, plain_no_sep, Hn.
  - rewrite (endswith_app x (String sep n) eq_refl).
    change (endswith_sep (String sep n)) with
      (match n with "" => Ascii.eqb sep sep | _ => endswith_sep n end).
    pose proof (plain_not_empty n Hn). destruct n; [done|].
    apply no_sep_endswith, plain_no_sep, Hn.
Qed.

Lemma head_of_join2 (x n : string) : plain n = true → head_of (join2 x n) = join2 x n.
Proof.
  intros Hn. unfold head_of. rewrite (rstrip_id _ (endswith_join2 x n Hn)).
  by destruct (is_empty (join2 x n)).
Qed.

Lemma walk_parent_tokens_inv (m : fs) (a : string) (st d : list string) :
  walk m st (parent_tokens a) = Ok d → m !! d = Some Dir → walk m st (tokens a) = Ok d.
Proof.
  unfold parent_tokens. destruct (endswith_sep a) eqn:He; [|done].
  destruct (endswith_sep_inv a He) as (s & ->).
  rewrite tokens_app_sep. simpl. rewrite removelast_last, walk_snoc.
  by intros -> ->.
Qed.

(** A joined path names an entry only if its directory part does. *)
Lemma stat_join2_inv (m : fs) (wd x n : string) (k : list string) :
  is_empty x = false → plain n = true → stat m wd (join2 x n) = Ok k →
  ∃ dx, stat m wd x = Ok dx ∧ m !! dx = Some Dir ∧ k = dx ++ [n].
Proof.
  intros Hx Hn (_ & Hw & Hk)%stat_inv.
  rewrite (origin_join2 wd x n Hx (plain_no_sep n Hn)) in Hw.
  rewrite (tokens_join2 x n Hx (plain_no_sep n Hn)), walk_snoc in Hw.
  destruct (walk m (origin wd x) (parent_tokens x)) as [dx|] eqn:Hp; [|done].
  destruct (m !! dx) as [[]|] eqn:Hdx; try done.
  injection Hw as <-. exists dx. split_and!; [|done|by rewrite enter_plain].
  unfold stat, present.
  by rewrite Hx, (walk_parent_tokens_inv m x _ _ Hp Hdx), Hdx.
Qed.

Lemma is_empty_join (a : string) (q : list string) :
  is_empty a = false → forallb plain q = true → is_empty (join a q) = false.
Proof.
  intros Ha. induction q as [|n q IH] using rev_ind; [done|].
  rewrite forallb_app. intros [_ Hn]%andb_prop. simpl in Hn. rewrite andb_true_r in Hn.
  rewrite join_snoc. by apply is_empty_join2, plain_not_empty.
Qed.

Lemma stat_join_inv (m : fs) (wd a : string) (q : list string) (d k : list string) :
  stat m wd a = Ok d → forallb plain q = true →
  stat m wd (join a q) = Ok k → k = d ++ q.
Proof.
  intros Hs. revert k. induction q as [|n q IH] using rev_ind; intros k Hp Hk.
  - rewrite app_nil_r. simpl in Hk. congruence.
  - rewrite forallb_app in Hp. apply andb_prop in Hp as [Hq Hn].
    simpl in Hn. rewrite andb_true_r in Hn. rewrite join_snoc in Hk.
    apply stat_join2_inv in Hk as (dx & Hdx & _ & ->); [|by apply is_empty_join; [eapply stat_inv|]|done].
    by rewrite (IH dx Hq Hdx), app_assoc.
Qed.

Lemma tree_prefix (m : fs) (d q : list string) :
  tree m → is_Some (m !! (d ++ q)) → ∀ i, is_Some (m !! (d ++ take i q)).
Proof.
  intros Ht. induction q as [|n q IH] using rev_ind; intros Hq i.
  - by rewrite take_nil.
  - destruct (decide (i ≤ length q)%nat) as [Hi|Hi].
    + rewrite take_app_le by done. apply IH.
      rewrite app_assoc in Hq. by rewrite (tree_parent _ _ _ Ht Hq).
    + rewrite take_ge; [done|]. rewrite length_app. simpl. lia.
Qed.

(** A path below a missing entry names nothing. *)
Lemma stat_join_absent (m : fs) (wd a : string) (q d : list string) :
  tree m → stat m wd a = Ok d → forallb plain q = true →
  m !! (d ++ take 1 q) = None →
  ∀ k, stat m wd (join a q) ≠ Ok k.
Proof.
  intros Ht Hs Hp Habs k Hk.
  pose proof (stat_join_inv _ _ _ _ _ _ Hs Hp Hk) as ->.
  apply stat_inv in Hk as (_ & _ & Hk).
  destruct (tree_prefix m d q Ht Hk 1) as [v Hv]. congruence.
Qed.

Lemma chain_snoc (d q : list string) (n : string) (m : fs) :
  chain d (q ++ [n]) m = <[(d ++ q) ++ [n] := Dir]> (chain d q m).
Proof.
  revert d m. induction q as [|x q IH]; intros d m; simpl.
  - by rewrite app_nil_r.
  - rewrite IH. by rewrite <- (app_assoc d [x] q).
Qed.

Lemma length_le_join (a : string) (q : list string) :
  forallb plain q = true → (length q ≤ String.length (join a q))%nat.
Proof.
  induction q as [|n q IH] using rev_ind; intros Hp; [simpl; lia|].
  rewrite forallb_app in Hp. apply andb_prop in Hp as [Hq Hn].
  simpl in Hn. rewrite andb_true_r in Hn. specialize (IH Hq).
  rewrite length_app, join_snoc, (join2_plain _ _ (plain_no_sep n Hn)). simpl.
  pose proof (plain_not_empty n Hn).
  assert (1 ≤ String.length n)%nat by (destruct n; simpl; [done|lia]).
  destruct (is_empty (join a q) || endswith_sep (join a q));
    rewrite slength_app; simpl; lia.
Qed.

(** [os.makedirs] on a path whose first component below the directory
    [d] is missing: it creates the chain, and afterwards the path names
    the new leaf, an empty directory. *)
(** *** The fuel of [makedirs] *)

Lemma rcut_length (p : string) :
  (String.length (rcut p).1 + String.length (rcut p).2 = String.length p)%nat.
Proof.
  induction p as [|c p IH]; [done|]. simpl.
  destruct (Ascii.eqb c sep || has_sep p) eqn:E.
  - destruct (rcut p) as [h t]. simpl in *. lia.
  - apply orb_false_iff in E as [_ E]. rewrite (rcut_no_sep p E). done.
Qed.

Lemma rstrip_length (s : string) : (String.length (rstrip_sep s) ≤ String.length s)%nat.
Proof.
  induction s as [|c s IH]; [done|]. simpl.
  destruct (rstrip_sep s); [destruct (Ascii.eqb c sep)|]; simpl in *; lia.
Qed.

Lemma split_length (p : string) :
  (String.length (split p).1 + String.length (split p).2 ≤ String.length p)%nat.
Proof.
  unfold split. pose proof (rcut_length p) as H. destruct (rcut p) as [h t].
  simpl in *. pose proof (rstrip_length h).
  destruct (is_empty (rstrip_sep h)); simpl; lia.
Qed.

(** The recursion of [os.makedirs] is on a strictly shorter path, so any
    fuel above the length of the path gives the same run: the bound of the
    model is never what ends it. *)
Lemma makedirs_fuel_enough (f1 f2 : nat) (name : string) (w : world) :
  (String.length name < f1)%nat → (String.length name < f2)%nat →
  Os.makedirs_fuel f1 name w = Os.makedirs_fuel f2 name w.
Proof.
  revert f2 name w. induction f1 as [|f1 IH]; intros f2 name w H1 H2; [lia|].
  destruct f2 as [|f2]; [lia|]. simpl.
  pose proof (split_length name) as Hl. destruct (split name) as [head tail].
  simpl in Hl.
  assert (∀ h t, (String.length h + String.length t ≤ String.length name)%nat →
    (let recurse1 : M bool :=
       if negb (is_empty h) && negb (is_empty t) then
         e ← Os.path_exists h;
         if negb e then
           except_FileExistsError (Os.makedirs_fuel f1 h) ;; mret (String.eqb t ".")
         else mret false
       else mret false in
     done ← recurse1; if done : bool then mret () else Os.mkdir name) w
    = (let recurse2 : M bool :=
       if negb (is_empty h) && negb (is_empty t) then
         e ← Os.path_exists h;
         if negb e then
           except_FileExistsError (Os.makedirs_fuel f2 h) ;; mret (String.eqb t ".")
         else mret false
       else mret false in
     done ← recurse2; if done : bool then mret () else Os.mkdir name) w) as Hbody.
  { intros h t Hht. cbv zeta.
    destruct (negb (is_empty h) && negb (is_empty t)) eqn:Hc; [|done].
    apply andb_prop in Hc as [_ Ht]. apply negb_true_iff in Ht.
    assert (1 ≤ String.length t)%nat by (destruct t; simpl in *; [done|lia]).
    rewrite !bind_unfold. unfold Os.path_exists.
    destruct (negb _); [|done].
    rewrite !bind_unfold. unfold except_FileExistsError.
    rewrite (IH f2 h w) by lia. done. }
  destruct (is_empty tail).
  - pose proof (split_length head) as Hl'. destruct (split head) as [head' tail'].
    simpl in Hl'. apply Hbody. lia.
  - by apply Hbody.
Qed.

Lemma endswith_join (a : string) (q : list string) :
  q ≠ [] → forallb plain q = true → endswith_sep (join a q) = false.
Proof.
  destruct q as [|n q _] using rev_ind; [done|]. intros _.
  rewrite forallb_app. intros [_ Hn]%andb_prop. simpl in Hn. rewrite andb_true_r in Hn.
  rewrite join_snoc. by apply endswith_join2.
Qed.

(** [os.makedirs] on a path whose first component below the directory
    [d] is missing: it creates the chain, and afterwards the path names
    the new leaf, an empty directory. *)
Lemma makedirs_chain (w : world) (a : string) (d : list string) (n1 : string)
    (r : list string) :
  tree (files w) → stat (files w) (cwd w) a = Ok d → files w !! d = Some Dir →
  forallb plain (n1 :: r) = true → files w !! (d ++ [n1]) = None →
  (∀ fuel, (length (n1 :: r) ≤ fuel)%nat →
     Os.makedirs_fuel fuel (join a (n1 :: r)) w
     = (set_files (chain d (n1 :: r) (files w)) w, Ok ()))
  ∧ tree (chain d (n1 :: r) (files w))
  ∧ files w ⊆ chain d (n1 :: r) (files w)
  ∧ stat (chain d (n1 :: r) (files w)) (cwd w) (join a (n1 :: r)) = Ok (d ++ n1 :: r)
  ∧ chain d (n1 :: r) (files w) !! (d ++ n1 :: r) = Some Dir
  ∧ (∀ x, chain d (n1 :: r) (files w) !! ((d ++ n1 :: r) ++ [x]) = None).
Proof.
  intros Ht Hs Hd Hp Habs.
  pose proof Hs as (Ha & _ & Hdsome)%stat_inv.
  induction r as [|n r IH] using rev_ind.
  - simpl in Hp. rewrite andb_true_r in Hp. simpl chain.
    assert (tree (<[d ++ [n1] := Dir]> (files w))) as Ht' by (by apply tree_insert_child).
    assert (files w ⊆ <[d ++ [n1] := Dir]> (files w)) as Hsub by (by apply insert_subseteq).
    assert (stat (<[d ++ [n1] := Dir]> (files w)) (cwd w) a = Ok d) as Hs'.
    { apply (stat_stable (files w)); [by apply subseteq_dirs_kept| |done].
      by apply (subseteq_is_Some (files w)). }
    split_and!; [|done..| | |].
    + intros [|fuel] Hf; [simpl in Hf; lia|].
      change (join a [n1]) with (join2 a n1).
      rewrite (makedirs_fuel_join2 w a n1 d fuel Hs Hp), (mkdir_join2 w a n1 d Hs Hp), Hd.
      unfold present. by rewrite Habs.
    + change (join a [n1]) with (join2 a n1).
      rewrite (stat_join2 _ _ a n1 d Hs' Hp).
      rewrite lookup_insert_ne by apply not_eq_sym, snoc_ne_self.
      rewrite Hd. unfold present. by rewrite lookup_insert_eq.
    + apply lookup_insert_eq.
    + intros x. rewrite lookup_insert_ne by apply snoc_ne_self.
      by apply tree_child_absent.
  - rewrite app_comm_cons in Hp |- *. rewrite forallb_app in Hp.
    apply andb_prop in Hp as [Hq Hn]. simpl in Hn. rewrite andb_true_r in Hn.
    destruct (IH Hq) as (Hmk & Ht1 & Hsub1 & Hs1 & Hd1 & Hfree1). clear IH.
    set (q := n1 :: r) in *. rewrite chain_snoc. set (m1 := chain d q (files w)) in *.
    assert (m1 ⊆ <[(d ++ q) ++ [n] := Dir]> m1) as Hsub2 by (by apply insert_subseteq).
    assert (tree (<[(d ++ q) ++ [n] := Dir]> m1)) as Ht2 by (by apply tree_insert_child).
    split_and!; [|done|by etrans| | |].
    + intros [|fuel] Hf; [rewrite length_app in Hf; simpl in Hf; lia|].
      rewrite join_snoc.
      rewrite (makedirs_fuel_missing w (join a q) n fuel);
        [|by apply is_empty_join|by apply endswith_join|done|by apply (stat_join_absent _ _ _ _ d)].
      unfold except_FileExistsError. rewrite Hmk.
      2:{ rewrite length_app in Hf. clear -Hf. unfold q in *. simpl in *. lia. }
      rewrite (mkdir_join2 _ (join a q) n (d ++ q)); [|done..].
      cbn [files set_files]. rewrite Hd1. unfold present. by rewrite Hfree1.
    + rewrite join_snoc, (stat_join2 _ _ (join a q) n (d ++ q)); [| |done].
      * rewrite lookup_insert_ne by apply not_eq_sym, snoc_ne_self.
        rewrite Hd1. unfold present. rewrite lookup_insert_eq. by rewrite <- app_assoc.
      * apply (stat_stable m1); [by apply subseteq_dirs_kept| |done].
        apply (subseteq_is_Some m1); [done|]. by rewrite Hd1.
    + rewrite app_assoc. apply lookup_insert_eq.
    + intros x. rewrite app_assoc. rewrite lookup_insert_ne by apply snoc_ne_self.
      apply tree_child_absent; [done|]. apply Hfree1.
Qed.

End makedirs_chain.

Section properties_create.
Import Posixpath Kernel Aux Nodes Plan Chain Examples.

Lemma chain_keeps_dir (d q : list string) (m : fs) (k : list string) :
  m !! k = Some Dir → chain d q m !! k = Some Dir.
Proof.
  revert d m. induction q as [|n q IH]; intros d m Hk; [done|].
  simpl. apply IH. rewrite lookup_insert. by case_decide.
Qed.

Lemma chain_prefix_dir (d q : list string) (m : fs) (i : nat) :
  (0 < i ≤ length q)%nat → chain d q m !! (d ++ take i q) = Some Dir.
Proof.
  revert d m i. induction q as [|n q IH]; intros d m i Hi; [simpl in Hi; lia|].
  destruct i as [|i]; [lia|]. simpl in Hi |- *.
  destruct i as [|i].
  - rewrite take_0. apply chain_keeps_dir, lookup_insert_eq.
  - rewrite (cons_middle n d), app_assoc. apply IH. lia.
Qed.

Lemma chain_lookup_Some (d q : list string) (m : fs) (k : list string) (v : node) :
  chain d q m !! k = Some v →
  m !! k = Some v ∨ (v = Dir ∧ ∃ i, (0 < i ≤ length q)%nat ∧ k = d ++ take i q).
Proof.
  revert d m. induction q as [|n q IH]; intros d m Hk; [by left|].
  simpl in Hk. apply IH in Hk as [Hk|(-> & i & Hi & ->)].
  - apply lookup_insert_Some in Hk as [[<- <-]|[_ Hk]]; [|by left].
    right. split; [done|]. exists 1. simpl. rewrite take_0. split; [lia|done].
  - right. split; [done|]. exists (S i). simpl. split; [lia|].
    by rewrite <- app_assoc.
Qed.

(** C7 (as amended): take a path [join a (n1 :: r)], where [a] names an
    existing directory, [n1] and the names of [r] are proper component
    names (no separator, not empty, not [.] or [..]), and there is no
    entry [n1] in that directory.  The path does not exist, and
    [create_folder_with_init] returns normally; it creates the directory
    and every missing parent on the way, puts the empty marker file
    [__init__.py] into the leaf (the only file it creates, so the parents
    created on the way get none), changes no entry that was there, and
    writes one message, "Created" with the path. *)
Theorem create_folder_with_init_fresh (w : world) (a : string) (d : list string)
    (n1 : string) (r : list string) :
  tree (files w) →
  stat (files w) (cwd w) a = Ok d → files w !! d = Some Dir →
  forallb plain (n1 :: r) = true →
  files w !! (d ++ [n1]) = None →
  ∃ w',
    Os.path_exists (join a (n1 :: r)) w = (w, Ok false)
    ∧ Command.create_folder_with_init (join a (n1 :: r)) w = (w', Ok ())
    ∧ cwd w' = cwd w
    ∧ stat (files w') (cwd w') (join a (n1 :: r)) = Ok (d ++ n1 :: r)
    ∧ (∀ i, (0 < i ≤ length (n1 :: r))%nat →
            files w' !! (d ++ take i (n1 :: r)) = Some Dir)
    ∧ files w' !! ((d ++ n1 :: r) ++ ["__init__.py"]) = Some (File "")
    ∧ (∀ k v, files w !! k = Some v → files w' !! k = Some v)
    ∧ (∀ k v, files w !! k = None → files w' !! k = Some v →
         (v = File "" ∧ k = (d ++ n1 :: r) ++ ["__init__.py"])
         ∨ (v = Dir ∧ ∃ i, (0 < i ≤ length (n1 :: r))%nat ∧ k = d ++ take i (n1 :: r)))
    ∧ out w' = out w ++ [SUCCESS ("Created " +:+ join a (n1 :: r))].
Proof.
  intros Ht Hs Hd Hp Habs.
  destruct (makedirs_chain w a d n1 r Ht Hs Hd Hp Habs)
    as (Hmk & Ht1 & Hsub1 & Hs1 & Hd1 & Hfree1).
  set (q := n1 :: r) in *. set (m1 := chain d q (files w)) in *.
  set (path := join a q) in *.
  assert (∀ k, stat (files w) (cwd w) path ≠ Ok k) as Hno.
  { by apply (stat_join_absent _ _ _ _ d). }
  assert (Os.path_exists path w = (w, Ok false)) as Hex.
  { unfold Os.path_exists. destruct (stat (files w) (cwd w) path) as [k|e] eqn:E; [|done].
    by destruct (Hno k). }
  exists (World (<[(d ++ q) ++ [marker] := File ""]> m1) (cwd w)
                (out w ++ [SUCCESS ("Created " +:+ path)])).
  cbn [files cwd out].
  assert (m1 ⊆ <[(d ++ q) ++ [marker] := File ""]> m1) as Hsub2.
  { apply insert_subseteq, Hfree1. }
  split_and!; [done| |done| | | | | |done].
  - unfold Command.create_folder_with_init. rewrite bind_unfold, Hex. cbn [negb].
    rewrite bind_unfold. unfold Os.makedirs.
    rewrite Hmk by (pose proof (length_le_join a q Hp) as Hl; unfold path; lia).
    rewrite bind_unfold.
    change (join path ["__init__.py"]) with (join2 path marker).
    rewrite (open_w_join2 _ path marker (d ++ q)); [|done..].
    cbn [files set_files]. by rewrite Hfree1.
  - apply (stat_stable m1); [by apply subseteq_dirs_kept| |done].
    apply (subseteq_is_Some m1); [done|]. by rewrite Hd1.
  - intros i Hi. eapply lookup_weaken; [|done]. by apply chain_prefix_dir.
  - apply lookup_insert_eq.
  - intros k v Hk. apply (lookup_weaken m1); [|done]. by apply (lookup_weaken (files w)).
  - intros k v Hk Hk'. apply lookup_insert_Some in Hk' as [[<- <-]|[_ Hk']]; [by left|].
    apply chain_lookup_Some in Hk' as [?|?]; [congruence|by right].
Qed.

(** The claim C7 as stated fails where an ancestor of the path is a
    regular file: [/proj/myapp] is a file, so [/proj/myapp/admin] does not
    exist, and [os.makedirs] raises; nothing is created and no message is
    written. *)
Lemma create_folder_below_file_fails :
  tree (files clash)
  ∧ Os.path_exists "/proj/myapp/admin" clash = (clash, Ok false)
  ∧ Command.create_folder_with_init "/proj/myapp/admin" clash
      = (clash, Raised NotADirectoryError)
  ∧ ¬ ∃ w', Command.create_folder_with_init "/proj/myapp/admin" clash = (w', Ok ()).
Proof.
  assert (Command.create_folder_with_init "/proj/myapp/admin" clash
          = (clash, Raised NotADirectoryError)) as E.
  { change "/proj/myapp/admin" with (join2 "/proj/myapp" "admin").
    rewrite (create_folder_with_init_join2 clash "/proj/myapp" "admin" ["proj"; "myapp"]
               clash_tree) by (by vm_compute).
    unfold create_at.
    assert (files clash !! ["proj"; "myapp"] = Some (File "notes")) as -> by (by vm_compute).
    done. }
  split_and!; [apply clash_tree| |done|].
  - assert (stat (files clash) (cwd clash) "/proj/myapp/admin"
            = Raised NotADirectoryError) as Hs by (by vm_compute).
    unfold Os.path_exists. by rewrite Hs.
  - intros [w' E']. rewrite E in E'. done.
Qed.

End properties_create.

(* ================================================================== *)
(** * The properties on concrete filesystems *)

Section witnesses.
Import Posixpath Kernel Aux Nodes Plan Scaffold Chain Order Examples.

Lemma fresh_empty (q : list string) :
  q ≠ [] → files fresh !! (["proj"; "myapp"] ++ q) = None.
Proof.
  intros Hq. apply not_elem_of_list_to_map_1. intros Hin. simpl in Hin.
  rewrite !elem_of_cons in Hin.
  destruct Hin as [?|[?|[E|[]%elem_of_nil]]]; try done.
  by destruct q.
Qed.


Lemma handle_missing_app_witness :
  Os.path_exists (join (cwd fresh) ["shop"]) fresh = (fresh, Ok false)
  ∧ Command.handle "shop" fresh =
      (World (files fresh) (cwd fresh)
             (out fresh ++ [ERROR ("App '" +:+ "shop" +:+ "' does not exist")]),
       Ok ()).
Proof.
  assert (Os.path_exists (join (cwd fresh) ["shop"]) fresh = (fresh, Ok false)) as H.
  { assert (stat (files fresh) (cwd fresh) (join (cwd fresh) ["shop"])
            = Raised FileNotFoundError) as Hs by (vm_compute; reflexivity).
    unfold Os.path_exists. rewrite Hs. reflexivity. }
  split; [exact H | exact (handle_missing_app "shop" fresh H)].
Defined.

Lemma handle_base_is_file_witness :
  Command.handle "myapp" clash = (clash, Raised NotADirectoryError).
Proof.
  apply (handle_base_is_file "myapp" clash ["proj"; "myapp"] "notes").
  - exact clash_tree.
  - vm_compute; reflexivity.
  - vm_compute; reflexivity.
Defined.

Lemma run_frame_witness :
  files (Command.handle "myapp" startapp).1 !! ["proj"; "myapp"; "migrations"] = Some Dir.
Proof.
  apply (run_frame "myapp" startapp _ (Command.handle "myapp" startapp).2).
  - exact startapp_tree.
  - apply surjective_pairing.
  - vm_compute; reflexivity.
Defined.

Lemma existing_path_untouched_witness :
  Command.create_folder_with_init "/proj/myapp/api" startapp = (startapp, Ok ())
  ∧ files (Command.handle "myapp" startapp).1 !! ["proj"; "myapp"; "api"; "__init__.py"]
    = None.
Proof.
  split.
  - apply (proj1 existing_path_untouched).
    assert (stat (files startapp) (cwd startapp) "/proj/myapp/api"
            = Ok ["proj"; "myapp"; "api"]) as Hs by (vm_compute; reflexivity).
    unfold Os.path_exists. rewrite Hs. reflexivity.
  - assert (files startapp !! ["proj"; "myapp"; "api"] = Some Dir) as Hk
      by (vm_compute; reflexivity).
    destruct (proj2 existing_path_untouched "myapp" startapp
                (Command.handle "myapp" startapp).1 (Command.handle "myapp" startapp).2
                ["proj"; "myapp"; "api"] startapp_tree (surjective_pairing _) Hk)
      as [_ H].
    etrans; [exact H|]. vm_compute; reflexivity.
Defined.

Lemma handle_idempotent_witness :
  Command.handle "myapp" (Command.handle "myapp" startapp).1 =
    (World (files (Command.handle "myapp" startapp).1)
           (cwd (Command.handle "myapp" startapp).1)
           (out (Command.handle "myapp" startapp).1
            ++ [SUCCESS ("Structure created for app '" +:+ "myapp" +:+ "'")]),
     Ok ()).
Proof.
  assert ((Command.handle "myapp" startapp).2 = Ok ()) as H2 by (vm_compute; reflexivity).
  apply (handle_idempotent "myapp" startapp).
  - exact startapp_tree.
  - assert (stat (files startapp) (cwd startapp) (join (cwd startapp) ["myapp"])
            = Ok ["proj"; "myapp"]) as Hs by (vm_compute; reflexivity).
    unfold Os.path_exists. rewrite Hs. reflexivity.
  - rewrite <- H2. apply surjective_pairing.
Defined.

Lemma handle_order_witness :
  Command.handle "myapp" startapp
  = for_each stated_order (perform (join (cwd startapp) ["myapp"]) "myapp") startapp.
Proof.
  apply (handle_order "myapp" startapp).
  assert (stat (files startapp) (cwd startapp) (join (cwd startapp) ["myapp"])
          = Ok ["proj"; "myapp"]) as Hs by (vm_compute; reflexivity).
  unfold Os.path_exists. rewrite Hs. reflexivity.
Defined.

Lemma scaffold_of_empty_app_witness :
  Command.handle "myapp" fresh =
    (World (graft ["proj"; "myapp"] contract ∪ files fresh) (cwd fresh)
       (out fresh
        ++ ((λ t : list string * string,
               SUCCESS ("Created " +:+ join (join (cwd fresh) ["myapp"]) (t.1 ++ [t.2])))
            <$> targets)
        ++ [SUCCESS ("Structure created for app '" +:+ "myapp" +:+ "'")]),
     Ok ()).
Proof.
  apply (scaffold_of_empty_app "myapp" fresh ["proj"; "myapp"]).
  - exact fresh_tree.
  - vm_compute; reflexivity.
  - vm_compute; reflexivity.
  - exact fresh_empty.
Defined.

Lemma remove_default_files_spec_witness :
  ∃ w', Command.remove_default_files "/proj/myapp" startapp = (w', Ok ())
    ∧ files w' !! ["proj"; "myapp"; "views.py"] = None
    ∧ files w' !! ["proj"; "myapp"; "api"; "views.py"]
      = Some (File "def index(request): pass")
    ∧ out w' = [WARNING "Removed /proj/myapp/models.py";
                WARNING "Removed /proj/myapp/admin.py";
                WARNING "Removed /proj/myapp/tests.py";
                WARNING "Removed /proj/myapp/views.py"].
Proof.
  assert (stat (files startapp) (cwd startapp) "/proj/myapp" = Ok ["proj"; "myapp"]) as Hs
    by (vm_compute; reflexivity).
  assert (files startapp !! ["proj"; "myapp"] = Some Dir) as Hb by (vm_compute; reflexivity).
  destruct (remove_default_files_spec "/proj/myapp" startapp ["proj"; "myapp"]
              startapp_tree Hs Hb) as [_ H].
  destruct H as (w' & E & _ & Hgone & Hother & Hout).
  { intros n Hn. rewrite !elem_of_cons in Hn.
    destruct Hn as [->|[->|[->|[->|[]%elem_of_nil]]]]; vm_compute; discriminate. }
  exists w'. split; [exact E|]. split; [|split].
  - apply (Hgone "views.py"). rewrite !elem_of_cons. tauto.
  - etrans; [apply (Hother ["proj"; "myapp"; "api"; "views.py"])|vm_compute; reflexivity].
    intros n _. discriminate.
  - etrans; [exact Hout|]. vm_compute; reflexivity.
Defined.

Lemma create_folder_with_init_fresh_witness :
  ∃ w', Command.create_folder_with_init "/proj/myapp/models/helper/enums" fresh
          = (w', Ok ())
    ∧ files w' !! ["proj"; "myapp"; "models"] = Some Dir
    ∧ files w' !! ["proj"; "myapp"; "models"; "helper"; "enums"; "__init__.py"]
      = Some (File "")
    ∧ out w' = [SUCCESS "Created /proj/myapp/models/helper/enums"].
Proof.
  destruct (create_folder_with_init_fresh fresh "/proj/myapp" ["proj"; "myapp"]
              "models" ["helper"; "enums"] fresh_tree)
    as (w' & _ & E & _ & _ & Hdirs & Hmarker & _ & _ & Hout);
    [vm_compute; reflexivity..|].
  exists w'. split; [exact E|]. split; [|split].
  - apply (Hdirs 1). simpl. lia.
  - exact Hmarker.
  - exact Hout.
Defined.

End witnesses.

(* ================================================================== *)
(** * How the loops end, and what they write *)

Section loop_outcomes.
Import Posixpath Kernel Aux Nodes Plan.

Variables (b : list string) (base : string).

(** The removal loop ends normally or on a directory, and writes
    warnings only. *)
Lemma remove_all_out (ns : list string) (w w' : world) (r : result ()) :
  remove_all b base ns w = (w', r) →
  (r = Ok () ∨ r = Raised IsADirectoryError) ∧
  ∃ ms, out w' = out w ++ ms ∧
    ∀ m, m ∈ ms → ∃ n, n ∈ ns ∧ m = WARNING ("Removed " +:+ join base [n]).
Proof.
  unfold remove_all. revert w. induction ns as [|n0 ns IH]; intros w E.
  - injection E as <- <-. split; [by left|]. exists []. rewrite app_nil_r.
    split; [done|]. by intros m ?%elem_of_nil.
  - rewrite for_each_cons in E.
    destruct (remove_at_cases b n0 (join base [n0]) w)
      as [[E1 _]|[(c & _ & _ & E1)|(_ & _ & E1)]]; rewrite E1 in E.
    + destruct (IH w E) as (Hr & ms & Ho & Hms). split; [done|].
      exists ms. split; [done|]. intros m Hm. destruct (Hms m Hm) as (n & ? & ?).
      exists n. by rewrite elem_of_cons; eauto.
    + destruct (IH _ E) as (Hr & ms & Ho & Hms). split; [done|]. simpl in Ho.
      exists (WARNING ("Removed " +:+ join base [n0]) :: ms). split.
      * by rewrite Ho, <- app_assoc.
      * intros m [->|Hm]%elem_of_cons.
        -- exists n0. split; [by left|done].
        -- destruct (Hms m Hm) as (n & ? & ?). exists n. by rewrite elem_of_cons; eauto.
    + injection E as <- <-. split; [by right|]. exists []. rewrite app_nil_r.
      split; [done|]. by intros m ?%elem_of_nil.
Qed.

(** The creation loop writes one "Created" line per folder it makes. *)
Lemma create_all_out (ts : list (list string * string)) (w w' : world) (r : result ()) :
  create_all b base ts w = (w', r) →
  ∃ ms, out w' = out w ++ ms ∧
    ∀ m, m ∈ ms → ∃ t, t ∈ ts ∧ m = SUCCESS (created_text base t).
Proof.
  unfold create_all. revert w. induction ts as [|[d0 n0] ts IH]; intros w E.
  - injection E as <- <-. exists []. rewrite app_nil_r.
    split; [done|]. by intros m ?%elem_of_nil.
  - rewrite for_each_cons in E. cbn [fst snd] in E.
    destruct (create_at_cases (b ++ d0) n0 (join base (d0 ++ [n0])) w)
      as [(E1 & _ & _)|[(_ & _ & E1)|(e & E1 & _)]]; rewrite E1 in E.
    + destruct (IH w E) as (ms & Ho & Hms).
      exists ms. split; [done|]. intros m Hm. destruct (Hms m Hm) as (t & ? & ?).
      exists t. by rewrite elem_of_cons; eauto.
    + destruct (IH _ E) as (ms & Ho & Hms). simpl in Ho.
      exists (SUCCESS (created_text base (d0, n0)) :: ms). split.
      * by rewrite Ho, <- app_assoc.
      * intros m [->|Hm]%elem_of_cons.
        -- exists (d0, n0). split; [by left|done].
        -- destruct (Hms m Hm) as (t & ? & ?). exists t. by rewrite elem_of_cons; eauto.
    + injection E as <- <-. exists []. rewrite app_nil_r.
      split; [done|]. by intros m ?%elem_of_nil.
Qed.

(** A removal loop that ends normally met no directory. *)
Lemma remove_all_Ok_inv (ns : list string) (w w' : world) :
  tree (files w) → remove_all b base ns w = (w', Ok ()) →
  ∀ n, n ∈ ns → files w !! (b ++ [n]) ≠ Some Dir.
Proof.
  intros Ht E n Hn Hdir.
  destruct (remove_all_effect b base ns w w' _ Ht E) as (_ & _ & Hfr & Hok).
  specialize (Hok eq_refl n Hn).
  destruct (Hfr (b ++ [n])) as [Heq|(_ & ? & c & _ & _ & Hc)]; congruence.
Qed.

(** A creation loop that ends normally met no regular file where it
    needed a directory. *)
Lemma create_all_Ok_inv (ts : list (list string * string)) (w w' : world) :
  tree (files w) → create_all b base ts w = (w', Ok ()) →
  ∀ d n c, (d, n) ∈ ts → files w !! (b ++ d) ≠ Some (File c).
Proof.
  intros Ht E d n c Hin Hfile.
  destruct (create_all_effect b base ts w w' _ Ht E) as (_ & Ht' & Hsub & _ & Hok).
  pose proof (tree_parent _ _ _ Ht' (Hok eq_refl d n Hin)) as Hdir.
  apply (lookup_weaken _ (files w')) in Hfile; [congruence|done].
Qed.

(** With parents met first, the creation loop ends normally or on a
    regular file in the place of a parent. *)
Lemma create_all_outcome (ts : list (list string * string)) (seen : list (list string))
    (w w' : world) (r : result ()) :
  closed seen ts = true → tree (files w) → is_Some (files w !! b) →
  (∀ q, q ∈ seen → is_Some (files w !! (b ++ q))) →
  create_all b base ts w = (w', r) → r = Ok () ∨ r = Raised NotADirectoryError.
Proof.
  unfold create_all. revert seen w.
  induction ts as [|[d n] ts IH]; intros seen w Hc Ht Hb Hseen E.
  - injection E as <- <-. by left.
  - simpl in Hc. apply andb_prop in Hc as [[_ Hpar]%andb_prop Hc].
    rewrite for_each_cons in E. cbn [fst snd] in E.
    assert (is_Some (files w !! (b ++ d))) as [v Hv].
    { apply orb_prop in Hpar as [->%bool_decide_eq_true|Hin%bool_decide_eq_true].
      - by rewrite app_nil_r.
      - by apply Hseen. }
    destruct (create_at_cases (b ++ d) n (join base (d ++ [n])) w)
      as [(E1 & _ & Hthere)|[(Hdir & Habs & E1)|(e & E1 & Hnd)]].
    + rewrite E1 in E. apply (IH ((d ++ [n]) :: seen) w); [done..| |done].
      intros q [->|Hq]%elem_of_cons; [by rewrite app_assoc | by apply Hseen].
    + rewrite E1 in E. fold (grown (files w) (b ++ d) n) in E.
      pose proof (grown_subseteq (files w) (b ++ d) n Ht Habs) as Hsub.
      refine (IH ((d ++ [n]) :: seen) _ Hc _ _ _ E); simpl.
      * by apply grown_tree.
      * by apply (subseteq_is_Some (files w)).
      * intros q [->|Hq]%elem_of_cons.
        -- rewrite app_assoc, grown_lookup.
           rewrite decide_False by apply snoc_ne_self. by rewrite decide_True.
        -- apply (subseteq_is_Some (files w)); [done | by apply Hseen].
    + rewrite E1 in E. injection E as <- <-. right.
      unfold create_at in E1. rewrite Hv in E1. destruct v; [by injection E1 as <- | done].
Qed.

(** With parents met first and no regular file in the place of a parent,
    the creation loop ends normally. *)
Lemma create_all_ok (ts : list (list string * string)) (seen : list (list string))
    (w : world) :
  closed seen ts = true → tree (files w) → files w !! b = Some Dir →
  (∀ q, q ∈ seen → is_Some (files w !! (b ++ q))) →
  (∀ t, t ∈ ts → marker ∉ t.1) →
  (∀ t c, t ∈ ts → files w !! (b ++ t.1) ≠ Some (File c)) →
  ∃ w', create_all b base ts w = (w', Ok ()).
Proof.
  unfold create_all. revert seen w.
  induction ts as [|[d n] ts IH]; intros seen w Hc Ht Hb Hseen Hm Hnf.
  - by eexists.
  - simpl in Hc. apply andb_prop in Hc as [[_ Hpar]%andb_prop Hc].
    rewrite for_each_cons. cbn [fst snd].
    assert (files w !! (b ++ d) = Some Dir) as Hd.
    { apply orb_prop in Hpar as [->%bool_decide_eq_true|Hin%bool_decide_eq_true].
      - by rewrite app_nil_r.
      - destruct (Hseen d Hin) as [[c|] Hv]; [|done].
        by destruct (Hnf (d, n) c (list_elem_of_here _ _)). }
    destruct (create_at_cases (b ++ d) n (join base (d ++ [n])) w)
      as [(E1 & _ & Hthere)|[(_ & Habs & E1)|(e & _ & Hnd)]]; [| |done].
    + rewrite E1. apply (IH ((d ++ [n]) :: seen) w); [done..| | |].
      * intros q [->|Hq]%elem_of_cons; [by rewrite app_assoc | by apply Hseen].
      * intros t Hin. apply Hm. by right.
      * intros t c Hin. apply Hnf. by right.
    + rewrite E1. fold (grown (files w) (b ++ d) n).
      pose proof (grown_subseteq (files w) (b ++ d) n Ht Habs) as Hsub.
      apply (IH ((d ++ [n]) :: seen) _); [done|by apply grown_tree| | | |]; simpl.
      * by apply (lookup_weaken (files w)).
      * intros q [->|Hq]%elem_of_cons.
        -- rewrite app_assoc, grown_lookup.
           rewrite decide_False by apply snoc_ne_self. by rewrite decide_True.
        -- apply (subseteq_is_Some (files w)); [done | by apply Hseen].
      * intros t Hin. apply Hm. by right.
      * intros t c Hin. rewrite grown_lookup.
        destruct (decide (b ++ t.1 = ((b ++ d) ++ [n]) ++ [marker])) as [Heq|_].
        { exfalso. apply (Hm t); [by right|].
          rewrite <- !app_assoc in Heq. apply app_inv_head in Heq. rewrite Heq.
          rewrite !elem_of_app. right; right. apply list_elem_of_here. }
        destruct (decide (b ++ t.1 = (b ++ d) ++ [n])) as [_|_]; [done|].
        apply Hnf. by right.
Qed.

(** What a creation loop that ends normally writes and makes: one line
    and one folder with its marker file per folder that was missing. *)
Lemma create_all_exact (ts : list (list string * string)) (w w' : world) :
  tree (files w) → NoDup ts → (∀ t, t ∈ ts → t.2 ≠ marker) →
  create_all b base ts w = (w', Ok ()) →
  out w' = out w ++ ((λ t, SUCCESS (created_text base t))
                     <$> filter (λ t, files w !! ((b ++ t.1) ++ [t.2]) = None) ts)
  ∧ ∀ t, t ∈ ts → files w !! ((b ++ t.1) ++ [t.2]) = None →
      files w' !! ((b ++ t.1) ++ [t.2]) = Some Dir
      ∧ files w' !! (((b ++ t.1) ++ [t.2]) ++ [marker]) = Some (File "").
Proof.
  unfold create_all. revert w. induction ts as [|[d0 n0] ts IH]; intros w Ht Hnd Hm E.
  - injection E as <-. rewrite app_nil_r. split; [done|]. by intros t ?%elem_of_nil.
  - apply NoDup_cons in Hnd as [Hfresh Hnd].
    rewrite for_each_cons in E. cbn [fst snd] in E.
    assert (∀ t, t ∈ ts → t.2 ≠ marker) as Hm' by (intros t Hin; apply Hm; by right).
    destruct (create_at_cases (b ++ d0) n0 (join base (d0 ++ [n0])) w)
      as [(E1 & _ & Hthere)|[(Hdir & Habs & E1)|(e & E1 & _)]]; rewrite E1 in E; [| |done].
    + destruct (IH w Ht Hnd Hm' E) as [Ho Hnew]. split.
      * rewrite filter_cons_False; [done|]. simpl. destruct Hthere as [v Hv]. congruence.
      * intros t [->|Hin]%elem_of_cons Habs; [|by apply Hnew].
        simpl in Habs. destruct Hthere as [v Hv]. congruence.
    + fold (grown (files w) (b ++ d0) n0) in E.
      set (w1 := World (grown (files w) (b ++ d0) n0) (cwd w)
                       (out w ++ [SUCCESS ("Created " +:+ join base (d0 ++ [n0]))])) in *.
      assert (tree (files w1)) as Ht1 by (by apply grown_tree).
      assert (∀ t, t ∈ ts →
                files w1 !! ((b ++ t.1) ++ [t.2]) = files w !! ((b ++ t.1) ++ [t.2])) as Hsame.
      { intros [d n] Hin. simpl. rewrite grown_lookup.
        rewrite decide_False.
        2:{ intros [_ Heq]%app_inj_tail. by apply (Hm' (d, n)). }
        rewrite decide_False; [done|].
        intros [Heq1%app_inv_head Heq2]%app_inj_tail. congruence. }
      destruct (IH w1 Ht1 Hnd Hm' E) as [Ho Hnew].
      destruct (create_all_effect b base ts w1 w' _ Ht1 E) as (_ & _ & Hsub & _).
      split.
      * rewrite filter_cons_True by done. rewrite Ho. simpl. rewrite <- app_assoc. simpl.
        do 3 f_equal. apply filter_ext_in. intros t Hin. by rewrite Hsame.
      * intros t [->|Hin]%elem_of_cons Habs'.
        -- simpl. split; (eapply lookup_weaken; [|done]); simpl; rewrite grown_lookup.
           ++ rewrite decide_False by apply snoc_ne_self. by rewrite decide_True.
           ++ by rewrite decide_True.
        -- apply Hnew; [done|]. by rewrite Hsame.
Qed.

End loop_outcomes.

(* ================================================================== *)
(** * Every way a run can end *)

Section table_facts.
Import Posixpath Kernel Aux Nodes Plan Outcome.

Lemma default_files_NoDup : NoDup Command.default_files.
Proof. apply (bool_decide_unpack _). by vm_compute. Qed.

Lemma targets_NoDup : NoDup targets.
Proof. apply (bool_decide_unpack _). by vm_compute. Qed.

Lemma targets_parent_no_marker (t : list string * string) :
  t ∈ targets → marker ∉ t.1.
Proof.
  intros Ht.
  assert (Forall (λ t : list string * string, marker ∉ t.1) targets) as H.
  { apply (bool_decide_unpack _). by vm_compute. }
  rewrite Forall_forall in H. by apply H.
Qed.

(** The parent folders are the parents of the attempts. *)
Lemma targets_parent (d : list string) (n : string) :
  (d, n) ∈ targets → d = [] ∨ d ∈ parent_folders.
Proof.
  intros Ht.
  assert (Forall (λ t : list string * string, t.1 = [] ∨ t.1 ∈ parent_folders) targets) as H.
  { apply (bool_decide_unpack _). by vm_compute. }
  rewrite Forall_forall in H. by apply (H _ Ht).
Qed.

Lemma parent_folders_targets (p : list string) :
  p ∈ parent_folders → ∃ n, (p, n) ∈ targets.
Proof.
  intros Hp.
  assert (Forall (λ p, Exists (λ t : list string * string, t.1 = p) targets)
            parent_folders) as H.
  { apply (bool_decide_unpack _). by vm_compute. }
  rewrite Forall_forall in H. apply H, Exists_exists in Hp as ([d n] & Hin & Heq).
  simpl in Heq. subst d. by exists n.
Qed.

Lemma parent_not_default (p : list string) (nd : string) :
  p ∈ parent_folders → nd ∈ Command.default_files → p ≠ [nd].
Proof.
  intros Hp Hd.
  assert (Forall (λ p, Forall (λ nd, p ≠ [nd]) Command.default_files) parent_folders) as H.
  { apply (bool_decide_unpack _). by vm_compute. }
  rewrite Forall_forall in H. specialize (H _ Hp). rewrite Forall_forall in H.
  by apply H.
Qed.

Lemma created_not_final (base app : string) (t : list string * string) :
  SUCCESS (created_text base t) ≠ SUCCESS (final_text app).
Proof. unfold created_text, final_text. intros [=]. Qed.




End table_facts.

Section run_outcomes.
Import Posixpath Kernel Aux Nodes Plan Outcome.

(** X1: [remove_default_files] stops at the first default name that is
    a directory.  [os.path.exists] accepts the directory, [os.remove]
    refuses it: the call raises [IsADirectoryError].  The default files
    listed before that name are removed, each with its warning; the
    directory and the default files listed after it are left as they
    were. *)
Theorem remove_default_files_stops_at_directory (base_dir : string) (w : world)
    (b : list string) (pre post : list string) (n : string) :
  tree (files w) →
  stat (files w) (cwd w) base_dir = Ok b →
  Command.default_files = pre ++ n :: post →
  (∀ x, x ∈ pre → files w !! (b ++ [x]) ≠ Some Dir) →
  files w !! (b ++ [n]) = Some Dir →
  Command.remove_default_files base_dir w =
    (World (without b (files w) pre) (cwd w)
       (out w ++ ((λ x, WARNING ("Removed " +:+ join base_dir [x]))
                  <$> filter (λ x, is_Some (files w !! (b ++ [x]))) pre)),
     Raised IsADirectoryError)
  ∧ (∀ x, x ∈ pre → without b (files w) pre !! (b ++ [x]) = None)
  ∧ (∀ x, x ∈ n :: post →
       without b (files w) pre !! (b ++ [x]) = files w !! (b ++ [x]))
  ∧ (∀ k, (∀ x, x ∈ pre → k ≠ b ++ [x]) → without b (files w) pre !! k = files w !! k).
Proof.
  intros Ht Hs Hsplit Hpre Hdir.
  pose proof (tree_parent _ _ _ Ht (mk_is_Some _ _ Hdir)) as Hb.
  pose proof default_files_NoDup as Hnd. rewrite Hsplit in Hnd.
  apply NoDup_app in Hnd as (Hnd1 & Hdisj & _).
  assert (∀ x y, x ∈ n :: post → y ∈ pre → b ++ [x] ≠ b ++ [y]) as Hne.
  { intros x y Hx Hy [= ->]%app_inv_head. by apply (Hdisj y). }
  split_and!.
  - unfold Command.remove_default_files.
    rewrite (remove_loop_nodes b base_dir _ w plain_default_files (conj Ht Hs)).
    rewrite Hsplit. unfold remove_all. rewrite for_each_app.
    fold (remove_all b base_dir pre).
    rewrite (remove_all_exact b base_dir pre w Hnd1 Hb Hpre).
    rewrite for_each_cons. unfold remove_at. cbn [files].
    rewrite (without_other b _ pre b) by (intros y _; apply snoc_ne_self).
    rewrite (without_other b _ pre (b ++ [n])) by (intros y Hy; apply Hne; [by left|done]).
    by rewrite Hb, Hdir.
  - intros x Hx. by apply without_in.
  - intros x Hx. apply without_other. intros y Hy. by apply Hne.
  - intros k Hk. by apply without_other.
Qed.

(** X2: how a run on an existing directory ends.  It raises
    [IsADirectoryError] when one of the default names is a directory.
    Otherwise it raises [NotADirectoryError] when a regular file stands
    where the command needs a folder to create in ([api], [models],
    [repository], [tests], [models/helper]).  Otherwise it returns
    normally.  No other outcome is possible. *)
Theorem handle_outcome (app_name : string) (w : world) (b : list string) :
  tree (files w) →
  stat (files w) (cwd w) (join (cwd w) [app_name]) = Ok b →
  files w !! b = Some Dir →
  ((∃ n, n ∈ Command.default_files ∧ files w !! (b ++ [n]) = Some Dir) →
     (Command.handle app_name w).2 = Raised IsADirectoryError)
  ∧ ((∀ n, n ∈ Command.default_files → files w !! (b ++ [n]) ≠ Some Dir) →
     (∃ p c, p ∈ parent_folders ∧ files w !! (b ++ p) = Some (File c)) →
     (Command.handle app_name w).2 = Raised NotADirectoryError)
  ∧ ((∀ n, n ∈ Command.default_files → files w !! (b ++ [n]) ≠ Some Dir) →
     (∀ p c, p ∈ parent_folders → files w !! (b ++ p) ≠ Some (File c)) →
     (Command.handle app_name w).2 = Ok ()).
Proof.
  intros Ht Hs Hb. set (base := join (cwd w) [app_name]) in *.
  assert (Inv b base w) as HI by done.
  rewrite (handle_nodes b base app_name w eq_refl HI).
  unfold scaffold_at. rewrite bind_unfold.
  destruct (remove_all b base Command.default_files w) as [w1 r1] eqn:E1.
  destruct (remove_all_out b base _ w w1 r1 E1) as [Hr1 _].
  destruct (remove_all_effect b base _ w w1 r1 Ht E1) as (_ & Ht1 & Hfr1 & _).
  assert (files w1 !! b = Some Dir) as Hb1.
  { destruct (Hfr1 b) as [->|(_ & n & _ & _ & Heq & _)]; [done|].
    by apply snoc_ne_self in Heq. }
  assert (∀ p, p ∈ parent_folders → files w1 !! (b ++ p) = files w !! (b ++ p)) as Hpar.
  { intros p Hp. destruct (Hfr1 (b ++ p)) as [->|(_ & n & _ & Hn & Heq & _)]; [done|].
    apply app_inv_head in Heq. by destruct (parent_not_default p n). }
  assert ((∀ n, n ∈ Command.default_files → files w !! (b ++ [n]) ≠ Some Dir) →
          r1 = Ok ()) as Hclean.
  { intros Hno.
    rewrite (remove_all_exact b base _ w default_files_NoDup Hb Hno) in E1.
    by injection E1 as _ <-. }
  split_and!.
  - intros (n & Hn & Hdir). destruct Hr1 as [-> | ->]; [|done].
    exfalso. by apply (remove_all_Ok_inv b base _ w w1 Ht E1 n Hn).
  - intros Hno (p & c & Hp & Hfile). rewrite (Hclean Hno), bind_unfold.
    destruct (create_all b base targets w1) as [w2 r2] eqn:E2.
    destruct (create_all_outcome b base targets [] w1 w2 r2 closed_targets Ht1)
      as [-> | ->]; [by rewrite Hb1|by intros q ?%elem_of_nil|done| |done].
    exfalso. destruct (parent_folders_targets p Hp) as [n Hin].
    apply (create_all_Ok_inv b base targets w1 w2 Ht1 E2 p n c Hin).
    by rewrite Hpar.
  - intros Hno Hnf. rewrite (Hclean Hno), bind_unfold.
    destruct (create_all_ok b base targets [] w1 closed_targets Ht1 Hb1) as [w2 ->].
    + by intros q ?%elem_of_nil.
    + intros t Hin. by apply targets_parent_no_marker.
    + intros [d n] c Hin. simpl.
      destruct (targets_parent d n Hin) as [->|Hp].
      * rewrite app_nil_r. congruence.
      * rewrite (Hpar d Hp). by apply Hnf.
    + done.
Qed.

(** X3: what a run that returns normally reports and makes, whatever was
    there before.  The messages are, in this order: one warning per
    default file that existed, one "Created" line per folder of the
    layout that was missing, and the final line.  Every folder that was
    missing is afterwards a directory holding an empty [__init__.py]. *)
Theorem handle_success_report (app_name : string) (w w' : world) (b : list string) :
  tree (files w) →
  stat (files w) (cwd w) (join (cwd w) [app_name]) = Ok b →
  Command.handle app_name w = (w', Ok ()) →
  out w' =
    out w
    ++ ((λ n, WARNING ("Removed " +:+ join (join (cwd w) [app_name]) [n]))
        <$> filter (λ n, is_Some (files w !! (b ++ [n]))) Command.default_files)
    ++ ((λ t, SUCCESS (created_text (join (cwd w) [app_name]) t))
        <$> filter (λ t, files w !! ((b ++ t.1) ++ [t.2]) = None) targets)
    ++ [SUCCESS (final_text app_name)]
  ∧ (∀ d n, (d, n) ∈ targets → files w !! ((b ++ d) ++ [n]) = None →
       files w' !! ((b ++ d) ++ [n]) = Some Dir
       ∧ files w' !! (((b ++ d) ++ [n]) ++ ["__init__.py"]) = Some (File "")).
Proof.
  intros Ht Hs E. set (base := join (cwd w) [app_name]) in *.
  assert (Inv b base w) as HI by done.
  rewrite (handle_nodes b base app_name w eq_refl HI) in E.
  unfold scaffold_at in E. rewrite bind_unfold in E.
  destruct (remove_all b base Command.default_files w) as [w1 [[]|e1]] eqn:E1; [|done].
  rewrite bind_unfold in E.
  destruct (create_all b base targets w1) as [w2 [[]|e2]] eqn:E2; [|done].
  unfold stdout_write in E. injection E as <-. cbn [files out].
  destruct (remove_all_effect b base _ w w1 _ Ht E1) as (_ & Ht1 & Hfr1 & _).
  destruct (create_all_effect b base _ w1 w2 _ Ht1 E2) as (_ & Ht2 & Hsub2 & _ & Hok2).
  pose proof (remove_all_Ok_inv b base _ w w1 Ht E1) as Hno.
  assert (files w !! b = Some Dir) as Hb.
  { destruct (stat_inv _ _ _ _ Hs) as (_ & _ & [v Hv]).
    assert (files w1 !! b = Some v) as Hv1.
    { destruct (Hfr1 b) as [->|(_ & n & _ & _ & Heq & _)]; [done|].
      by apply snoc_ne_self in Heq. }
    apply (lookup_weaken _ (files w2)) in Hv1; [|done].
    assert (([] : list string, "admin") ∈ targets) as Hin by (by left).
    pose proof (tree_parent _ _ _ Ht2 (Hok2 eq_refl _ _ Hin)) as Hdir.
    rewrite app_nil_r in Hdir. congruence. }
  pose proof E1 as Hw1.
  rewrite (remove_all_exact b base _ w default_files_NoDup Hb Hno) in Hw1.
  injection Hw1 as Hw1.
  assert (∀ t, t ∈ targets →
            files w1 !! ((b ++ t.1) ++ [t.2]) = files w !! ((b ++ t.1) ++ [t.2])) as Hsame.
  { intros [d n] Hin. rewrite <- Hw1. cbn [files fst snd].
    apply (without_other b (files w) Command.default_files).
    intros nd Hnd. by apply (new_key_not_default b d n nd); [..|left]. }
  destruct (create_all_exact b base targets w1 w2 Ht1 targets_NoDup) as [Ho Hnew]; [|done|].
  { intros [d n] Hin. by apply (targets_not_marker d n). }
  split.
  - rewrite Ho. rewrite <- Hw1 at 1. cbn [out]. rewrite <- !app_assoc. do 2 f_equal.
    rewrite (filter_ext_in
               (λ t : list string * string, files w1 !! ((b ++ t.1) ++ [t.2]) = None)
               (λ t : list string * string, files w !! ((b ++ t.1) ++ [t.2]) = None));
      [done|].
    intros t Hin. by rewrite (Hsame t Hin).
  - intros d n Hin Habs. apply (Hnew (d, n) Hin). by rewrite (Hsame _ Hin).
Qed.

End run_outcomes.

Section run_messages.
Import Posixpath Kernel Aux Nodes Plan Outcome.

(** X8: what a run writes, however it ends.  It only adds lines to the
    output.  Every line is the error for a missing app, a warning for one
    of the four default files, a "Created" line for one of the folders of
    the layout, or the final line.  The final line is written exactly
    when the target exists and the run returns normally: a run that an
    exception stops never reports success.  The error is written exactly
    when the target does not exist. *)
Theorem handle_messages (app_name : string) (w w' : world) (r : result ()) :
  tree (files w) →
  Command.handle app_name w = (w', r) →
  ∃ ms, out w' = out w ++ ms
    ∧ (∀ m, m ∈ ms →
         m = ERROR ("App '" +:+ app_name +:+ "' does not exist")
         ∨ (∃ n, n ∈ Command.default_files
                 ∧ m = WARNING ("Removed " +:+ join (join (cwd w) [app_name]) [n]))
         ∨ (∃ t, t ∈ targets
                 ∧ m = SUCCESS (created_text (join (cwd w) [app_name]) t))
         ∨ m = SUCCESS (final_text app_name))
    ∧ (SUCCESS (final_text app_name) ∈ ms ↔
         r = Ok () ∧ Os.path_exists (join (cwd w) [app_name]) w = (w, Ok true))
    ∧ (ERROR ("App '" +:+ app_name +:+ "' does not exist") ∈ ms ↔
         Os.path_exists (join (cwd w) [app_name]) w = (w, Ok false)).
Proof.
  intros Ht E. set (base := join (cwd w) [app_name]) in *.
  destruct (handle_cases app_name w Ht) as [[Hex E']|(b & Hs & Hex & E')];
    fold base in Hex, E'; rewrite E' in E.
  { injection E as <- <-. exists [ERROR ("App '" +:+ app_name +:+ "' does not exist")].
    cbn [out]. split_and!; [done| | |].
    - intros m ->%list_elem_of_singleton. by left.
    - split; [by intros [=]%list_elem_of_singleton | intros [_ Hex']; congruence].
    - split; [done | intros _; apply list_elem_of_here]. }
  unfold scaffold_at in E. rewrite bind_unfold in E.
  destruct (remove_all b base Command.default_files w) as [w1 r1] eqn:E1.
  destruct (remove_all_out b base _ w w1 r1 E1) as (_ & ms1 & Ho1 & Hms1).
  assert (∃ ms2, out w' = out w1 ++ ms2
            ∧ (∀ m, m ∈ ms2 →
                 (∃ t, t ∈ targets ∧ m = SUCCESS (created_text base t))
                 ∨ (m = SUCCESS (final_text app_name) ∧ r = Ok ()))
            ∧ (r = Ok () → SUCCESS (final_text app_name) ∈ ms2)) as (ms2 & Ho2 & Hms2 & Hfin).
  { destruct r1 as [[]|e1].
    2:{ injection E as <- <-. exists []. rewrite app_nil_r.
        split_and!; [done|by intros m ?%elem_of_nil|done]. }
    rewrite bind_unfold in E.
    destruct (create_all b base targets w1) as [w2 r2] eqn:E2.
    destruct (create_all_out b base _ w1 w2 r2 E2) as (ms2 & Ho2 & Hms2).
    destruct r2 as [[]|e2].
    2:{ injection E as <- <-. exists ms2. split_and!; [done| |done].
        intros m Hm. left. by apply Hms2. }
    unfold stdout_write in E. injection E as <- <-. cbn [out].
    exists (ms2 ++ [SUCCESS (final_text app_name)]). split_and!.
    - by rewrite Ho2, <- app_assoc.
    - intros m [Hm| ->%list_elem_of_singleton]%elem_of_app; [left; by apply Hms2 | by right].
    - intros _. apply elem_of_app. right. apply list_elem_of_here. }
  exists (ms1 ++ ms2). split_and!.
  - by rewrite Ho2, Ho1, <- app_assoc.
  - intros m [Hm|Hm]%elem_of_app.
    + right; left. by apply Hms1.
    + destruct (Hms2 m Hm) as [?|[-> _]]; [by right; right; left | by right; right; right].
  - split.
    + intros [Hm|Hm]%elem_of_app.
      * by destruct (Hms1 _ Hm) as (n & _ & [=]).
      * destruct (Hms2 _ Hm) as [(t & _ & Heq)|[_ ->]]; [|done].
        symmetry in Heq. by apply created_not_final in Heq.
    + intros [-> _]. apply elem_of_app. right. by apply Hfin.
  - split; [|intros Hex'; congruence].
    intros [Hm|Hm]%elem_of_app.
    + by destruct (Hms1 _ Hm) as (n & _ & [=]).
    + by destruct (Hms2 _ Hm) as [(t & _ & [=])|[[=] _]].
Qed.


End run_messages.

(* ================================================================== *)
(** * The working directory *)

Section working_directory.
Import Posixpath Kernel Aux Nodes Plan Outcome.

Lemma stat_absolute (m : fs) (wd wd' p : string) :
  startswith_sep p = true → stat m wd p = stat m wd' p.
Proof. intros H. unfold stat, origin. by rewrite H. Qed.

Lemma join_drops_cwd (a p : string) : startswith_sep p = true → join a [p] = p.
Proof. intros H. unfold join. simpl. unfold join2. by rewrite H. Qed.

Lemma bind_blind (c k : M unit) : cwd_blind c → cwd_blind k → cwd_blind (c ;; k).
Proof.
  intros Hc Hk w wd. rewrite !bind_unfold, Hc.
  destruct (c w) as [w1 [[]|e]]; simpl; [apply Hk | done].
Qed.

Lemma for_each_blind {A : Type} (l : list A) (f : A → M unit) :
  (∀ x, cwd_blind (f x)) → cwd_blind (for_each l f).
Proof.
  intros Hf. induction l as [|x l IH]; [done|].
  simpl. by apply bind_blind.
Qed.

Lemma remove_at_blind (d : list string) (n p : string) : cwd_blind (remove_at d n p).
Proof.
  intros w wd. unfold remove_at, at_cwd. simpl.
  destruct (files w !! d) as [[]|]; [done| |done].
  by destruct (files w !! (d ++ [n])) as [[]|].
Qed.

Lemma create_at_blind (d : list string) (n p : string) : cwd_blind (create_at d n p).
Proof.
  intros w wd. unfold create_at, at_cwd. simpl.
  destruct (files w !! d) as [[]|]; [done| |done].
  by destruct (files w !! (d ++ [n])) as [[]|].
Qed.

Lemma scaffold_at_blind (b : list string) (base app : string) :
  cwd_blind (scaffold_at b base app).
Proof.
  unfold scaffold_at, remove_all, create_all.
  apply bind_blind; [apply for_each_blind; intros n; apply remove_at_blind|].
  apply bind_blind; [apply for_each_blind; intros t; apply create_at_blind|].
  done.
Qed.

(** X4: an [app_name] that is an absolute path replaces the working
    directory: [os.path.join] drops [os.getcwd()], so [base_dir] is
    [app_name] itself, and the run does the same to the filesystem,
    writes the same lines and ends the same way from any working
    directory. *)
Theorem handle_absolute_app_name (app_name : string) (w : world) (wd : string) :
  startswith_sep app_name = true →
  tree (files w) →
  join (cwd w) [app_name] = app_name
  ∧ Command.handle app_name (at_cwd wd w)
    = (at_cwd wd (Command.handle app_name w).1, (Command.handle app_name w).2).
Proof.
  intros Habs Ht. split; [by apply join_drops_cwd|].
  pose proof (join_drops_cwd (cwd w) app_name Habs) as Hj.
  pose proof (join_drops_cwd wd app_name Habs) as Hj'.
  destruct (stat (files w) (cwd w) app_name) as [b|e] eqn:Hs.
  - assert (Inv b app_name w) as HI by done.
    assert (Inv b app_name (at_cwd wd w)) as HI'.
    { split; [done|]. simpl. by rewrite (stat_absolute _ wd (cwd w)). }
    rewrite (handle_nodes b app_name app_name w Hj HI).
    rewrite (handle_nodes b app_name app_name (at_cwd wd w) Hj' HI').
    apply scaffold_at_blind.
  - unfold Command.handle, Os.path_exists.
    rewrite !bind_unfold. unfold Os.getcwd. cbv zeta. rewrite !bind_unfold.
    cbn [cwd files at_cwd]. rewrite Hj, Hj', Hs.
    by rewrite (stat_absolute _ wd (cwd w)), Hs.
Qed.

End working_directory.

(* ================================================================== *)
(** * Every way a creation can end *)

Section create_outcomes.
Import Posixpath Kernel Aux Nodes Plan Chain Outcome.

Lemma join_app (a : string) (q1 q2 : list string) :
  join a (q1 ++ q2) = join (join a q1) q2.
Proof. unfold join. by rewrite fold_left_app. Qed.

(** Below a regular file nothing exists, and [os.makedirs] fails on the
    first directory it tries to make, at any depth. *)
Lemma makedirs_below_file (w : world) (a : string) (f : list string) (c : string)
    (q : list string) :
  tree (files w) → stat (files w) (cwd w) a = Ok f → files w !! f = Some (File c) →
  q ≠ [] → forallb plain q = true →
  (∀ k, stat (files w) (cwd w) (join a q) ≠ Ok k)
  ∧ ∀ fuel, (length q ≤ fuel)%nat →
      Os.makedirs_fuel fuel (join a q) w = (w, Raised NotADirectoryError).
Proof.
  intros Ht Hs Hf Hq Hp.
  pose proof Hs as (Ha & _ & _)%stat_inv.
  assert (∀ q, q ≠ [] → forallb plain q = true →
            ∀ k, stat (files w) (cwd w) (join a q) ≠ Ok k) as Hno.
  { intros q' Hq' Hp'. apply (stat_join_absent _ _ _ _ f); [done..|].
    destruct q' as [|x q']; [done|]. simpl. rewrite take_0.
    by eapply tree_file_child_absent. }
  split; [by apply Hno|].
  induction q as [|n q IH] using rev_ind; [done|]. clear Hq.
  rewrite forallb_app in Hp. apply andb_prop in Hp as [Hp Hn].
  simpl in Hn. rewrite andb_true_r in Hn.
  intros [|fuel] Hfuel; [rewrite length_app in Hfuel; simpl in Hfuel; lia|].
  rewrite join_snoc. destruct (decide (q = [])) as [->|Hq].
  - simpl join. rewrite (makedirs_fuel_join2 w a n f fuel Hs Hn).
    by rewrite (mkdir_join2 w a n f Hs Hn), Hf.
  - rewrite (makedirs_fuel_missing w (join a q) n fuel);
      [|by apply is_empty_join|by apply endswith_join|done|by apply Hno].
    unfold except_FileExistsError. rewrite IH; [done..|].
    rewrite length_app in Hfuel. simpl in Hfuel. lia.
Qed.

Lemma create_folder_with_init_below (w : world) (a : string) (f : list string)
    (c : string) (q : list string) :
  tree (files w) → stat (files w) (cwd w) a = Ok f → files w !! f = Some (File c) →
  q ≠ [] → forallb plain q = true →
  Command.create_folder_with_init (join a q) w = (w, Raised NotADirectoryError).
Proof.
  intros Ht Hs Hf Hq Hp.
  destruct (makedirs_below_file w a f c q Ht Hs Hf Hq Hp) as [Hno Hmk].
  unfold Command.create_folder_with_init. rewrite bind_unfold.
  unfold Os.path_exists at 1.
  destruct (stat (files w) (cwd w) (join a q)) as [k|e] eqn:E; [by destruct (Hno k)|].
  cbn [negb]. rewrite bind_unfold. unfold Os.makedirs.
  rewrite Hmk; [done|]. pose proof (length_le_join a q Hp). lia.
Qed.

(** The creation of a folder whose first component below the directory
    [d] is missing. *)
Lemma create_folder_with_init_chain (w : world) (a : string) (d : list string)
    (n1 : string) (r : list string) :
  tree (files w) → stat (files w) (cwd w) a = Ok d → files w !! d = Some Dir →
  forallb plain (n1 :: r) = true → files w !! (d ++ [n1]) = None →
  ∃ w', Command.create_folder_with_init (join a (n1 :: r)) w = (w', Ok ())
    ∧ cwd w' = cwd w
    ∧ stat (files w') (cwd w') (join a (n1 :: r)) = Ok (d ++ n1 :: r)
    ∧ tree (files w')
    ∧ files w ⊆ files w'
    ∧ (∀ i, (0 < i ≤ length (n1 :: r))%nat →
         files w' !! (d ++ take i (n1 :: r)) = Some Dir)
    ∧ files w' !! ((d ++ n1 :: r) ++ [marker]) = Some (File "").
Proof.
  intros Ht Hs Hd Hp Habs.
  destruct (makedirs_chain w a d n1 r Ht Hs Hd Hp Habs)
    as (Hmk & Ht1 & Hsub1 & Hs1 & Hd1 & Hfree1).
  set (q := n1 :: r) in *. set (m1 := chain d q (files w)) in *.
  set (path := join a q) in *.
  exists (World (<[(d ++ q) ++ [marker] := File ""]> m1) (cwd w)
                (out w ++ [SUCCESS ("Created " +:+ path)])).
  assert (m1 ⊆ <[(d ++ q) ++ [marker] := File ""]> m1) as Hsub2.
  { apply insert_subseteq, Hfree1. }
  cbn [files cwd]. split_and!; [|done| | |by etrans| |apply lookup_insert_eq].
  3:{ by apply tree_insert_child. }
  3:{ intros i Hi. eapply lookup_weaken; [|done]. by apply chain_prefix_dir. }
  - unfold Command.create_folder_with_init. rewrite bind_unfold.
    unfold Os.path_exists at 1.
    destruct (stat (files w) (cwd w) path) as [k|e] eqn:E.
    { by destruct (stat_join_absent _ _ a q d Ht Hs Hp Habs k). }
    cbn [negb]. rewrite bind_unfold. unfold Os.makedirs.
    rewrite Hmk by (pose proof (length_le_join a q Hp) as Hl; unfold path; lia).
    rewrite bind_unfold.
    change (join path ["__init__.py"]) with (join2 path marker).
    rewrite (open_w_join2 _ path marker (d ++ q)); [|done..].
    cbn [files set_files]. by rewrite Hfree1.
  - apply (stat_stable m1);
      [|by rewrite lookup_insert_ne, Hd1 by apply not_eq_sym, snoc_ne_self|done].
    apply subseteq_dirs_kept, insert_subseteq, Hfree1.
Qed.

(** Where a path [join a q] stops in the filesystem: it names an entry,
    or it leaves the tree at a missing name in a directory, or it runs
    into a regular file. *)
Lemma path_stops (w : world) (q : list string) (a : string) (d : list string) :
  tree (files w) → stat (files w) (cwd w) a = Ok d → forallb plain q = true →
  stat (files w) (cwd w) (join a q) = Ok (d ++ q)
  ∨ (∃ q1 n q2, q = q1 ++ n :: q2
       ∧ stat (files w) (cwd w) (join a q1) = Ok (d ++ q1)
       ∧ files w !! (d ++ q1) = Some Dir ∧ files w !! ((d ++ q1) ++ [n]) = None)
  ∨ (∃ q1 n q2 c, q = q1 ++ n :: q2 ∧ files w !! (d ++ q1) = Some (File c)).
Proof.
  intros Ht. revert a d. induction q as [|n q IH]; intros a d Hs Hp.
  { left. by rewrite app_nil_r. }
  simpl in Hp. apply andb_prop in Hp as [Hn Hp].
  destruct (stat_inv _ _ _ _ Hs) as (_ & _ & [v Hv]). destruct v as [c|].
  { right; right. exists [], n, q, c. by rewrite app_nil_r. }
  destruct (files w !! (d ++ [n])) as [v|] eqn:Hc.
  2:{ right; left. exists [], n, q. by rewrite app_nil_r. }
  assert (stat (files w) (cwd w) (join2 a n) = Ok (d ++ [n])) as Hs'.
  { rewrite (stat_join2 _ _ a n d Hs Hn), Hv. unfold present. by rewrite Hc. }
  change (join a (n :: q)) with (join (join2 a n) q).
  destruct (IH (join2 a n) (d ++ [n]) Hs' Hp)
    as [HA|[(q1 & x & q2 & -> & Hs1 & Hd1 & Hx)|(q1 & x & q2 & c & -> & Hf)]].
  - left. by rewrite <- app_assoc in HA.
  - right; left. exists (n :: q1), x, q2. rewrite <- !app_assoc in *. done.
  - right; right. exists (n :: q1), x, q2, c. rewrite <- !app_assoc in *. done.
Qed.

(** X5: [create_folder_with_init] is idempotent.  For a path that
    continues an existing path by proper component names: when the call
    returns normally, the path exists afterwards, so a second call finds
    it and does nothing: no entry is changed and no message is written. *)
Theorem create_folder_with_init_twice (w w' : world) (a : string) (d q : list string) :
  tree (files w) →
  stat (files w) (cwd w) a = Ok d →
  forallb plain q = true →
  Command.create_folder_with_init (join a q) w = (w', Ok ()) →
  Os.path_exists (join a q) w' = (w', Ok true)
  ∧ stat (files w') (cwd w') (join a q) = Ok (d ++ q)
  ∧ Command.create_folder_with_init (join a q) w' = (w', Ok ()).
Proof.
  intros Ht Hs Hp E.
  assert (stat (files w') (cwd w') (join a q) = Ok (d ++ q)) as Hs'.
  { destruct (path_stops w q a d Ht Hs Hp)
      as [HA|[(q1 & n & q2 & -> & Hs1 & Hd1 & Hn)|(q1 & n & q2 & c & -> & Hf)]].
    - unfold Command.create_folder_with_init in E. rewrite bind_unfold in E.
      unfold Os.path_exists in E at 1. rewrite HA in E. by injection E as <-.
    - rewrite forallb_app in Hp. apply andb_prop in Hp as [_ Hp].
      destruct (create_folder_with_init_chain w (join a q1) (d ++ q1) n q2 Ht Hs1 Hd1 Hp Hn)
        as (w1 & E1 & _ & Hs2 & _).
      rewrite join_app, E1 in E. injection E as <-.
      by rewrite join_app, app_assoc.
    - rewrite forallb_app in Hp. apply andb_prop in Hp as [Hp1 Hp2].
      rewrite join_app in E.
      rewrite (create_folder_with_init_below w (join a q1) (d ++ q1) c (n :: q2)) in E;
        [done..| |done|done|done].
      apply stat_join_present; [done..|]. by rewrite Hf. }
  assert (Os.path_exists (join a q) w' = (w', Ok true)) as Hex.
  { unfold Os.path_exists. by rewrite Hs'. }
  split_and!; [done..|].
  unfold Command.create_folder_with_init. by rewrite bind_unfold, Hex.
Qed.

(** X6: how [create_folder_with_init] ends on a path that continues an
    existing path by proper component names.  When a regular file stands
    at a proper prefix of the path, at any depth, the call raises
    [NotADirectoryError] and changes nothing: no directory is made and no
    message is written.  In every other case it returns normally. *)
Theorem create_folder_with_init_outcome (w : world) (a : string) (d q : list string) :
  tree (files w) →
  stat (files w) (cwd w) a = Ok d →
  forallb plain q = true →
  ((∃ q1 n q2 c, q = q1 ++ n :: q2 ∧ files w !! (d ++ q1) = Some (File c)) →
     Command.create_folder_with_init (join a q) w = (w, Raised NotADirectoryError))
  ∧ ((∀ q1 n q2 c, q = q1 ++ n :: q2 → files w !! (d ++ q1) ≠ Some (File c)) →
     (Command.create_folder_with_init (join a q) w).2 = Ok ()).
Proof.
  intros Ht Hs Hp. split.
  - intros (q1 & n & q2 & c & -> & Hf).
    rewrite forallb_app in Hp. apply andb_prop in Hp as [Hp1 Hp2].
    rewrite join_app.
    apply (create_folder_with_init_below w (join a q1) (d ++ q1) c (n :: q2));
      [done| |done..].
    apply stat_join_present; [done..|]. by rewrite Hf.
  - intros Hnf.
    destruct (path_stops w q a d Ht Hs Hp)
      as [HA|[(q1 & n & q2 & -> & Hs1 & Hd1 & Hn)|(q1 & n & q2 & c & -> & Hf)]].
    + unfold Command.create_folder_with_init. rewrite bind_unfold.
      unfold Os.path_exists at 1. by rewrite HA.
    + rewrite forallb_app in Hp. apply andb_prop in Hp as [_ Hp].
      destruct (create_folder_with_init_chain w (join a q1) (d ++ q1) n q2 Ht Hs1 Hd1 Hp Hn)
        as (w1 & E1 & _).
      by rewrite join_app, E1.
    + by destruct (Hnf q1 n q2 c).
Qed.

End create_outcomes.

(* ================================================================== *)
(** * A run that fails half way *)

Section partial_run.
Import Posixpath Kernel Aux Nodes Plan Outcome.

Lemma closed_app_l (l1 l2 : list (list string * string)) (seen : list (list string)) :
  closed seen (l1 ++ l2) = true → closed seen l1 = true.
Proof.
  revert seen. induction l1 as [|[d n] l1 IH]; intros seen H; [done|].
  simpl in H |- *. apply andb_prop in H as [-> H]. simpl. by apply (IH _ H).
Qed.

(** X10: a run that fails in the creation loop is not rolled back.  Take
    an existing app directory in which none of the four default names is
    a directory, so that the removal loop completes.  Split the attempts
    of the run, in their order, at an attempt [(d, n)] whose parent folder
    [d] is a regular file, no attempt before it having a regular file as
    parent.  Then the run raises [NotADirectoryError] at that attempt.
    The default files are gone by then.  Every folder attempted before
    exists, and those that were missing have been made with their marker
    file.  The folder of the failing attempt and of every later attempt
    is as it was before the run. *)
Theorem handle_stops_at_file (app_name : string) (w : world) (b : list string)
    (pre post : list (list string * string)) (d : list string) (n c : string) :
  tree (files w) →
  stat (files w) (cwd w) (join (cwd w) [app_name]) = Ok b →
  files w !! b = Some Dir →
  (∀ x, x ∈ Command.default_files → files w !! (b ++ [x]) ≠ Some Dir) →
  targets = pre ++ (d, n) :: post →
  (∀ t c', t ∈ pre → files w !! (b ++ t.1) ≠ Some (File c')) →
  files w !! (b ++ d) = Some (File c) →
  ∃ w', Command.handle app_name w = (w', Raised NotADirectoryError)
    ∧ (∀ x, x ∈ Command.default_files → files w' !! (b ++ [x]) = None)
    ∧ (∀ t, t ∈ pre → is_Some (files w' !! ((b ++ t.1) ++ [t.2])))
    ∧ (∀ t, t ∈ pre → files w !! ((b ++ t.1) ++ [t.2]) = None →
         files w' !! ((b ++ t.1) ++ [t.2]) = Some Dir
         ∧ files w' !! (((b ++ t.1) ++ [t.2]) ++ ["__init__.py"]) = Some (File ""))
    ∧ (∀ t, t ∈ (d, n) :: post →
         files w' !! ((b ++ t.1) ++ [t.2]) = files w !! ((b ++ t.1) ++ [t.2])).
Proof.
  intros Ht Hs Hb Hno Hsplit Hpre Hfile. set (base := join (cwd w) [app_name]) in *.
  assert (Inv b base w) as HI by done.
  pose proof (remove_all_exact b base _ w default_files_NoDup Hb Hno) as E1.
  set (w1 := World (without b (files w) Command.default_files) (cwd w) _) in E1.
  destruct (remove_all_effect b base _ w w1 _ Ht E1) as (_ & Ht1 & Hfr1 & Hgone1).
  assert (∀ t, t ∈ pre → t ∈ targets) as Hsub_pre.
  { intros t Hin. rewrite Hsplit, elem_of_app. by left. }
  assert (∀ t, t ∈ (d, n) :: post → t ∈ targets) as Hsub_post.
  { intros t Hin. rewrite Hsplit, elem_of_app. by right. }
  assert (∀ t, t ∈ targets →
            files w1 !! ((b ++ t.1) ++ [t.2]) = files w !! ((b ++ t.1) ++ [t.2])) as Hsame.
  { intros [d' n'] Hin. cbn [fst snd].
    apply (without_other b (files w) Command.default_files).
    intros nd Hnd. by apply (new_key_not_default b d' n' nd); [..|left]. }
  assert (∀ t, t ∈ targets → files w1 !! (b ++ t.1) = files w !! (b ++ t.1)) as Hpar.
  { intros [d' n'] Hin. cbn [fst].
    apply (without_other b (files w) Command.default_files).
    intros nd Hnd Heq%app_inv_head.
    destruct (targets_parent d' n' Hin) as [->|Hp]; [done|].
    by destruct (parent_not_default d' nd). }
  assert (closed [] pre = true) as Hcl.
  { apply (closed_app_l pre ((d, n) :: post)). rewrite <- Hsplit. apply closed_targets. }
  destruct (create_all_ok b base pre [] w1 Hcl Ht1) as [w2 E2].
  { destruct (Hfr1 b) as [->|(_ & x & _ & _ & Heq & _)]; [done|].
    by apply snoc_ne_self in Heq. }
  { by intros q ?%elem_of_nil. }
  { intros t Hin. by apply targets_parent_no_marker, Hsub_pre. }
  { intros t c' Hin. rewrite (Hpar t) by (by apply Hsub_pre). by apply Hpre. }
  destruct (create_all_effect b base pre w1 w2 _ Ht1 E2) as (_ & Ht2 & Hsub2 & Hnew2 & Hok2).
  pose proof targets_NoDup as Hnd. rewrite Hsplit in Hnd.
  apply NoDup_app in Hnd as (Hnd_pre & Hdisj & _).
  destruct (create_all_exact b base pre w1 w2 Ht1 Hnd_pre) as [_ Hmade]; [|done|].
  { intros [d' n'] Hin. by apply (targets_not_marker d' n'), Hsub_pre. }
  exists w2. split_and!.
  - rewrite (handle_nodes b base app_name w eq_refl HI).
    unfold scaffold_at. rewrite bind_unfold, E1, bind_unfold.
    rewrite Hsplit. unfold create_all. rewrite for_each_app.
    fold (create_all b base pre). rewrite E2, for_each_cons. cbn [fst snd].
    unfold create_at.
    assert (files w2 !! (b ++ d) = Some (File c)) as ->; [|done].
    apply (lookup_weaken (files w1)); [|done].
    etrans; [apply (Hpar (d, n)), Hsub_post; by left | done].
  - intros x Hx. destruct (files w2 !! (b ++ [x])) as [v|] eqn:Hv; [|done].
    exfalso. specialize (Hgone1 eq_refl x Hx).
    destruct (Hnew2 _ Hgone1 (mk_is_Some _ _ Hv)) as (d' & n' & Hin & _ & Hcase).
    apply (new_key_not_default b d' n' x (b ++ [x])); [by apply Hsub_pre|done| |done].
    destruct Hcase as [[? _]|[? _]]; by eauto.
  - intros [d' n'] Hin. by apply Hok2.
  - intros t Hin Habs. apply Hmade; [done|]. by rewrite Hsame by (by apply Hsub_pre).
  - intros [d' n'] Hin. cbn [fst snd].
    pose proof (Hsame (d', n') (Hsub_post _ Hin)) as Hk. cbn [fst snd] in Hk.
    rewrite <- Hk. clear Hk.
    destruct (files w1 !! ((b ++ d') ++ [n'])) as [v|] eqn:Hv.
    { by apply (lookup_weaken (files w1)). }
    destruct (files w2 !! ((b ++ d') ++ [n'])) as [v|] eqn:Hv2; [|done].
    exfalso.
    destruct (Hnew2 _ Hv (mk_is_Some _ _ Hv2)) as (d2 & n2 & Hin2 & _ & [[Heq _]|[Heq _]]).
    + apply app_inj_tail in Heq as [Heq%app_inv_head ->]. subst d2.
      by apply (Hdisj _ Hin2).
    + apply app_inj_tail in Heq as [_ ->].
      by apply (targets_not_marker d' marker (Hsub_post _ Hin)).
Qed.

End partial_run.

(* ================================================================== *)
(** * The parent directory as app name *)

Section parent_name.
Import Posixpath Kernel Aux Nodes Plan Outcome.

(** Joining [..] to the path of a directory gives a path of its
    parent; the root is its own parent. *)
Lemma stat_join2_dotdot (m : fs) (wd a : string) (c : list string) :
  tree m → stat m wd a = Ok c → m !! c = Some Dir →
  stat m wd (join2 a "..") = Ok (removelast c).
Proof.
  intros Ht Hs Hc. pose proof Hs as (He & Hw & _)%stat_inv. unfold stat.
  rewrite (is_empty_join2 a ".." eq_refl).
  rewrite (origin_join2 wd a ".." He eq_refl).
  rewrite (tokens_join2 a ".." He eq_refl), walk_snoc.
  rewrite (walk_parent_tokens m a _ _ Hw), Hc.
  change (enter c "..") with (removelast c).
  assert (m !! removelast c = Some Dir) as Hpar.
  { destruct c as [|x c _] using rev_ind; [apply Ht|].
    rewrite removelast_last. eapply tree_parent; [done|]. by rewrite Hc. }
  unfold present. by rewrite Hpar.
Qed.

End parent_name.

(* ================================================================== *)
(** * A run with nothing in the way *)

Section clean_run.
Import Posixpath Kernel Aux Nodes Plan Outcome Scaffold.

(** The run past the existence check, on a directory in which no default
    name is a directory and no regular file stands where a folder is
    needed: what it returns, removes, creates and writes. *)
Lemma scaffold_at_clean (b : list string) (base app : string) (w : world) :
  tree (files w) → files w !! b = Some Dir →
  (∀ n, n ∈ Command.default_files → files w !! (b ++ [n]) ≠ Some Dir) →
  (∀ p x, p ∈ parent_folders → files w !! (b ++ p) ≠ Some (File x)) →
  ∃ w', scaffold_at b base app w = (w', Ok ())
    ∧ (∀ n, n ∈ Command.default_files → files w' !! (b ++ [n]) = None)
    ∧ (∀ p, p ∈ contract_folders → is_Some (files w' !! (b ++ p)))
    ∧ (∀ p, p ∈ contract_folders → files w !! (b ++ p) = None →
         files w' !! (b ++ p) = Some Dir
         ∧ files w' !! (b ++ p ++ [marker]) = Some (File ""))
    ∧ (∀ k, files w' !! k ≠ files w !! k →
         (∃ n, n ∈ Command.default_files ∧ k = b ++ [n])
         ∨ (∃ p, p ∈ contract_folders ∧ files w !! (b ++ p) = None
                 ∧ (k = b ++ p ∨ k = b ++ p ++ [marker])))
    ∧ out w' =
        out w
        ++ ((λ n, WARNING ("Removed " +:+ join base [n]))
            <$> filter (λ n, is_Some (files w !! (b ++ [n]))) Command.default_files)
        ++ ((λ t, SUCCESS (created_text base t))
            <$> filter (λ t, files w !! ((b ++ t.1) ++ [t.2]) = None) targets)
        ++ [SUCCESS (final_text app)].
Proof.
  intros Ht Hb Hno Hnf.
  pose proof (remove_all_exact b base _ w default_files_NoDup Hb Hno) as E1.
  set (w1 := World (without b (files w) Command.default_files) (cwd w) _) in E1.
  destruct (remove_all_effect b base _ w w1 _ Ht E1) as (_ & Ht1 & Hfr1 & _).
  assert (files w1 !! b = Some Dir) as Hb1.
  { destruct (Hfr1 b) as [->|(_ & x & _ & _ & Heq & _)]; [done|].
    by apply snoc_ne_self in Heq. }
  assert (∀ p, p ∈ parent_folders → files w1 !! (b ++ p) = files w !! (b ++ p)) as Hpar.
  { intros p Hp. destruct (Hfr1 (b ++ p)) as [->|(_ & n & _ & Hn & Heq & _)]; [done|].
    apply app_inv_head in Heq. by destruct (parent_not_default p n). }
  assert (∀ t, t ∈ targets →
            files w1 !! ((b ++ t.1) ++ [t.2]) = files w !! ((b ++ t.1) ++ [t.2])) as Hsame.
  { intros [d n] Hin. cbn [fst snd].
    apply (without_other b (files w) Command.default_files).
    intros nd Hnd. by apply (new_key_not_default b d n nd); [..|left]. }
  destruct (create_all_ok b base targets [] w1 closed_targets Ht1 Hb1) as [w2 E2].
  { by intros q ?%elem_of_nil. }
  { intros t Hin. by apply targets_parent_no_marker. }
  { intros [d n] x Hin. cbn [fst]. destruct (targets_parent d n Hin) as [->|Hp].
    - rewrite app_nil_r. congruence.
    - rewrite (Hpar d Hp). by apply Hnf. }
  destruct (create_all_exact b base targets w1 w2 Ht1 targets_NoDup) as [Ho Hmade]; [|done|].
  { intros [d n] Hin. by apply (targets_not_marker d n). }
  set (w' := World (files w2) (cwd w2) (out w2 ++ [SUCCESS (final_text app)])).
  assert (scaffold_at b base app w = (w', Ok ())) as E.
  { unfold scaffold_at. by rewrite bind_unfold, E1, bind_unfold, E2. }
  destruct (scaffold_at_effect b base app w w' _ Ht E) as (_ & _ & Hfr & Hnew & Hok & _).
  destruct (Hok eq_refl) as [Hgone Hthere].
  exists w'. split_and!; [done|done| | | |].
  - intros p Hp. rewrite <- targets_contract in Hp.
    apply list_elem_of_fmap in Hp as ([d n] & -> & Hin). simpl.
    rewrite app_assoc. by apply Hthere.
  - intros p Hp Habs. rewrite <- targets_contract in Hp.
    apply list_elem_of_fmap in Hp as ([d n] & -> & Hin). cbn [fst snd] in Habs |- *.
    rewrite (app_assoc b (d ++ [n]) [marker]). rewrite (app_assoc b d [n]) in Habs |- *.
    apply (Hmade (d, n) Hin). cbn [fst snd]. etrans; [apply (Hsame (d, n) Hin)|done].
  - intros k Hk. destruct (files w !! k) as [v|] eqn:Hv.
    + destruct (Hfr k v Hv) as [Heq|(_ & n & x & Hn & -> & _)]; [congruence|].
      left. by exists n.
    + destruct (files w' !! k) as [v'|] eqn:Hv'; [|done].
      destruct (Hnew k Hv (mk_is_Some _ _ Hv')) as (d & n & Hin & Habs & Hcase).
      right. exists (d ++ [n]). split_and!.
      * rewrite <- targets_contract. apply list_elem_of_fmap. by exists (d, n).
      * by rewrite app_assoc.
      * rewrite !app_assoc. destruct Hcase as [[-> _]|[-> _]]; [by left | by right].
  - unfold w'. cbn [out]. rewrite Ho. unfold w1 at 1. cbn [out].
    rewrite <- !app_assoc. do 2 f_equal.
    rewrite (filter_ext_in
               (λ t : list string * string, files w1 !! ((b ++ t.1) ++ [t.2]) = None)
               (λ t : list string * string, files w !! ((b ++ t.1) ++ [t.2]) = None));
      [done|].
    intros t Hin. by rewrite (Hsame t Hin).
Qed.

(** Every change of a run is at an entry below the base directory. *)
Lemma scaffold_at_below (b : list string) (base app : string)
    (w w' : world) (r : result ()) (k : list string) :
  tree (files w) → scaffold_at b base app w = (w', r) →
  files w' !! k ≠ files w !! k → ∃ q, q ≠ [] ∧ k = b ++ q.
Proof.
  intros Ht E Hk.
  destruct (scaffold_at_effect _ _ _ _ _ _ Ht E) as (_ & _ & Hfr & Hnew & _).
  destruct (files w !! k) as [v|] eqn:Hv.
  - destruct (Hfr k v Hv) as [?|(_ & n & _ & _ & -> & _)]; [done|]. by exists [n].
  - destruct (files w' !! k) as [v'|] eqn:Hv'; [|done].
    destruct (Hnew k Hv (mk_is_Some _ _ Hv')) as (d & n & _ & _ & [[-> _]|[-> _]]).
    + exists (d ++ [n]). split; [by destruct d|]. by rewrite app_assoc.
    + exists ((d ++ [n]) ++ [marker]). split; [by destruct d|]. by rewrite !app_assoc.
Qed.

(** C10 (as amended): with the empty string as app name, [base_dir] is a
    path of the working directory itself and the existence check passes.
    Whatever the outcome of the run, every change it makes is at an entry
    below the working directory.  When none of [models.py], [admin.py],
    [tests.py], [views.py] directly in the working directory is a
    directory, and no regular file stands at [api], [models],
    [repository], [tests] or [models/helper] in it, the run scaffolds the
    working directory: it returns normally; those of the four files that
    are there are deleted, each with its warning; every folder of the
    layout exists directly under the working directory, and each one that
    was missing has been created as a directory holding an empty
    [__init__.py], with its "Created" line; nothing else changes, and the
    last line written is the final one. *)
Theorem handle_empty_app_name (w : world) (c : list string) :
  tree (files w) →
  stat (files w) (cwd w) (cwd w) = Ok c →
  files w !! c = Some Dir →
  stat (files w) (cwd w) (join (cwd w) [""]) = Ok c
  ∧ Os.path_exists (join (cwd w) [""]) w = (w, Ok true)
  ∧ (∀ w' r k, Command.handle "" w = (w', r) →
       files w' !! k ≠ files w !! k → ∃ q, q ≠ [] ∧ k = c ++ q)
  ∧ ((∀ n, n ∈ ["models.py"; "admin.py"; "tests.py"; "views.py"] →
           files w !! (c ++ [n]) ≠ Some Dir) →
     (∀ p x, p ∈ parent_folders → files w !! (c ++ p) ≠ Some (File x)) →
     ∃ w', Command.handle "" w = (w', Ok ())
       ∧ (∀ n, n ∈ ["models.py"; "admin.py"; "tests.py"; "views.py"] →
               files w' !! (c ++ [n]) = None)
       ∧ (∀ p, p ∈ contract_folders → is_Some (files w' !! (c ++ p)))
       ∧ (∀ p, p ∈ contract_folders → files w !! (c ++ p) = None →
            files w' !! (c ++ p) = Some Dir
            ∧ files w' !! (c ++ p ++ ["__init__.py"]) = Some (File ""))
       ∧ (∀ k, files w' !! k ≠ files w !! k →
            (∃ n, n ∈ ["models.py"; "admin.py"; "tests.py"; "views.py"] ∧ k = c ++ [n])
            ∨ (∃ p, p ∈ contract_folders ∧ files w !! (c ++ p) = None
                    ∧ (k = c ++ p ∨ k = c ++ p ++ ["__init__.py"])))
       ∧ out w' =
           out w
           ++ ((λ n, WARNING ("Removed " +:+ join (join (cwd w) [""]) [n]))
               <$> filter (λ n, is_Some (files w !! (c ++ [n])))
                          ["models.py"; "admin.py"; "tests.py"; "views.py"])
           ++ ((λ t, SUCCESS (created_text (join (cwd w) [""]) t))
               <$> filter (λ t, files w !! ((c ++ t.1) ++ [t.2]) = None) targets)
           ++ [SUCCESS (final_text "")]).
Proof.
  intros Ht Hs Hc.
  pose proof (stat_join2_empty _ _ _ _ Hs Hc) as Hs'.
  change (join2 (cwd w) "") with (join (cwd w) [""]) in Hs'.
  pose proof (handle_nodes c _ "" w eq_refl (conj Ht Hs')) as Hrun.
  split; [done|]. split; [by unfold Os.path_exists; rewrite Hs'|]. split.
  - intros w' r k E. rewrite Hrun in E. by apply (scaffold_at_below _ _ _ _ _ _ _ Ht E).
  - intros Hno Hnf. rewrite Hrun.
    apply (scaffold_at_clean c _ "" w Ht Hc Hno Hnf).
Qed.

(** The claim C10 as stated fails where one of the four names is a
    directory in the working directory: the run ends in the removal
    loop.  In [inside_package] the check passes, [tests.py] is a
    directory, and the run raises [IsADirectoryError]: [views.py] is
    there and stays, and no folder is created. *)
Lemma handle_empty_app_name_stops :
  tree (files Examples.inside_package)
  ∧ stat (files Examples.inside_package) (cwd Examples.inside_package)
      (join (cwd Examples.inside_package) [""]) = Ok ["proj"; "myapp"]
  ∧ files Examples.inside_package !! ["proj"; "myapp"; "views.py"]
    = Some (File "from django.shortcuts import render")
  ∧ (Command.handle "" Examples.inside_package).2 = Raised IsADirectoryError
  ∧ files (Command.handle "" Examples.inside_package).1 !! ["proj"; "myapp"; "views.py"]
    = Some (File "from django.shortcuts import render")
  ∧ files (Command.handle "" Examples.inside_package).1 !! ["proj"; "myapp"; "admin"]
    = None.
Proof. split_and!; [apply package_tree|by vm_compute..]. Qed.

(** X7: a run creates nothing but the layout.  Whatever the outcome,
    every entry that is there after a run and was not there before is one
    of the folders of the layout below the base directory, as a
    directory, or the empty [__init__.py] directly in such a folder; and
    that folder was missing before the run.  In particular a run on a
    missing target creates nothing, and no run creates anything outside
    the base directory. *)
Theorem handle_creates_only_layout (app_name : string) (w w' : world) (r : result ())
    (k : list string) :
  tree (files w) →
  Command.handle app_name w = (w', r) →
  files w !! k = None → is_Some (files w' !! k) →
  ∃ b p, stat (files w) (cwd w) (join (cwd w) [app_name]) = Ok b
    ∧ p ∈ contract_folders
    ∧ files w !! (b ++ p) = None
    ∧ ((k = b ++ p ∧ files w' !! k = Some Dir)
       ∨ (k = b ++ p ++ ["__init__.py"] ∧ files w' !! k = Some (File ""))).
Proof.
  intros Ht E Hk Hk'.
  destruct (handle_cases app_name w Ht) as [[_ E']|(b & Hs & _ & E')]; rewrite E' in E.
  { injection E as <- <-. simpl in Hk'. rewrite Hk in Hk'. by destruct Hk'. }
  destruct (scaffold_at_effect _ _ _ _ _ _ Ht E) as (_ & _ & _ & Hnew & _).
  destruct (Hnew k Hk Hk') as (d & n & Hin & Habs & Hcase).
  exists b, (d ++ [n]). split_and!; [done| |by rewrite app_assoc|].
  - rewrite <- targets_contract. apply list_elem_of_fmap. by exists (d, n).
  - rewrite !app_assoc. exact Hcase.
Qed.

(** X11: the app name is not confined to the working directory.  With
    [..] as app name, [base_dir] is a path of the parent of the working
    directory and the existence check passes.  Whatever the outcome of the
    run, every change it makes is at an entry below that parent.  When
    none of the four default names directly in the parent is a directory,
    and no regular file stands at [api], [models], [repository], [tests]
    or [models/helper] in it, the run scaffolds the parent directory: it
    returns normally, the default files directly in the parent are
    deleted, every folder of the layout exists in the parent, and each one
    that was missing has been created with an empty [__init__.py]. *)
Theorem handle_parent_app_name (w : world) (c : list string) :
  tree (files w) →
  stat (files w) (cwd w) (cwd w) = Ok c →
  files w !! c = Some Dir →
  stat (files w) (cwd w) (join (cwd w) [".."]) = Ok (removelast c)
  ∧ Os.path_exists (join (cwd w) [".."]) w = (w, Ok true)
  ∧ (∀ w' r k, Command.handle ".." w = (w', r) →
       files w' !! k ≠ files w !! k → ∃ q, q ≠ [] ∧ k = removelast c ++ q)
  ∧ ((∀ n, n ∈ Command.default_files → files w !! (removelast c ++ [n]) ≠ Some Dir) →
     (∀ p x, p ∈ parent_folders → files w !! (removelast c ++ p) ≠ Some (File x)) →
     ∃ w', Command.handle ".." w = (w', Ok ())
       ∧ (∀ n, n ∈ Command.default_files → files w' !! (removelast c ++ [n]) = None)
       ∧ (∀ p, p ∈ contract_folders → is_Some (files w' !! (removelast c ++ p)))
       ∧ (∀ p, p ∈ contract_folders → files w !! (removelast c ++ p) = None →
            files w' !! (removelast c ++ p) = Some Dir
            ∧ files w' !! (removelast c ++ p ++ ["__init__.py"]) = Some (File ""))).
Proof.
  intros Ht Hs Hc.
  pose proof (stat_join2_dotdot _ _ _ _ Ht Hs Hc) as Hs'.
  change (join2 (cwd w) "..") with (join (cwd w) [".."]) in Hs'.
  pose proof (handle_nodes (removelast c) _ ".." w eq_refl (conj Ht Hs')) as Hrun.
  assert (files w !! removelast c = Some Dir) as Hpar.
  { destruct c as [|x c _] using rev_ind; [apply Ht|].
    rewrite removelast_last. eapply tree_parent; [done|]. by rewrite Hc. }
  split; [done|]. split; [by unfold Os.path_exists; rewrite Hs'|]. split.
  - intros w' r k E. rewrite Hrun in E. by apply (scaffold_at_below _ _ _ _ _ _ _ Ht E).
  - intros Hno Hnf. rewrite Hrun.
    destruct (scaffold_at_clean (removelast c) (join (cwd w) [".."]) ".." w Ht Hpar Hno Hnf)
      as (w' & E & Hgone & Hthere & Hmade & _).
    by exists w'.
Qed.

End clean_run.

(* ================================================================== *)
(** * The methods without the existence check of [handle] *)

Section unguarded.
Import Posixpath Kernel Aux Nodes Plan Chain Outcome.

Lemma for_each_noop {A : Type} (l : list A) (f : A → M unit) (w : world) :
  (∀ x, x ∈ l → f x w = (w, Ok ())) → for_each l f w = (w, Ok ()).
Proof.
  induction l as [|x l IH]; intros H; [done|].
  rewrite for_each_cons, (H x) by (by left). apply IH. intros y Hy. apply H. by right.
Qed.

(** X12: [remove_default_files] needs no existing directory.  On a
    [base_dir] that names nothing, or that names a regular file, every
    existence test in the loop is false: the call returns normally,
    removes nothing and writes nothing. *)
Theorem remove_default_files_without_directory (base_dir : string) (w : world) :
  tree (files w) →
  is_empty base_dir = false →
  (∀ k, stat (files w) (cwd w) base_dir = Ok k → files w !! k ≠ Some Dir) →
  Command.remove_default_files base_dir w = (w, Ok ()).
Proof.
  intros Ht He Hnd. unfold Command.remove_default_files.
  destruct (stat (files w) (cwd w) base_dir) as [b|e] eqn:Hs.
  - rewrite (remove_loop_nodes b base_dir _ w plain_default_files (conj Ht Hs)).
    apply remove_all_noop. intros n _. apply tree_not_dir_child; [done|]. by apply Hnd.
  - apply for_each_noop. intros n Hn. cbv zeta.
    change (join base_dir [n]) with (join2 base_dir n).
    rewrite bind_unfold. unfold Os.path_exists.
    destruct (stat (files w) (cwd w) (join2 base_dir n)) as [k|e'] eqn:Hk; [|done].
    apply stat_join2_inv in Hk as (dx & Hdx & _); [congruence|done|].
    pose proof plain_default_files as Hp. rewrite forallb_forall in Hp.
    by apply Hp, list_elem_of_In.
Qed.


End unguarded.

(* ================================================================== *)
(** * The outcomes on concrete filesystems *)

Section outcome_witnesses.
Import Posixpath Kernel Aux Nodes Plan Outcome Examples.

Lemma package_defaults (x : string) :
  x ∈ ["models.py"; "admin.py"] → files package !! (["proj"; "myapp"] ++ [x]) ≠ Some Dir.
Proof.
  intros Hx. rewrite !elem_of_cons in Hx.
  destruct Hx as [->|[->|[]%elem_of_nil]]; vm_compute; discriminate.
Qed.

Lemma flat_defaults (x : string) :
  x ∈ Command.default_files → files flat !! (["proj"; "myapp"] ++ [x]) ≠ Some Dir.
Proof.
  intros Hx. unfold Command.default_files in Hx. rewrite !elem_of_cons in Hx.
  destruct Hx as [->|[->|[->|[->|[]%elem_of_nil]]]]; vm_compute; discriminate.
Qed.

Lemma startapp_defaults (x : string) :
  x ∈ Command.default_files → files startapp !! (["proj"; "myapp"] ++ [x]) ≠ Some Dir.
Proof.
  intros Hx. unfold Command.default_files in Hx. rewrite !elem_of_cons in Hx.
  destruct Hx as [->|[->|[->|[->|[]%elem_of_nil]]]]; vm_compute; discriminate.
Qed.

Lemma startapp_parents (p : list string) (c : string) :
  p ∈ parent_folders → files startapp !! (["proj"; "myapp"] ++ p) ≠ Some (File c).
Proof.
  intros Hp. unfold parent_folders in Hp. rewrite !elem_of_cons in Hp.
  destruct Hp as [->|[->|[->|[->|[->|[]%elem_of_nil]]]]]; vm_compute; discriminate.
Qed.

Lemma remove_default_files_stops_at_directory_witness :
  (Command.remove_default_files "/proj/myapp" package).2 = Raised IsADirectoryError
  ∧ files (Command.remove_default_files "/proj/myapp" package).1
      !! ["proj"; "myapp"; "models.py"] = None
  ∧ files (Command.remove_default_files "/proj/myapp" package).1
      !! ["proj"; "myapp"; "views.py"]
    = Some (File "from django.shortcuts import render").
Proof.
  destruct (remove_default_files_stops_at_directory "/proj/myapp" package
              ["proj"; "myapp"] ["models.py"; "admin.py"] ["views.py"] "tests.py"
              package_tree)
    as (E & Hgone & Hkept & _).
  - vm_compute; reflexivity.
  - reflexivity.
  - exact package_defaults.
  - vm_compute; reflexivity.
  - rewrite E. cbn [fst snd files]. split; [reflexivity|]. split.
    + apply (Hgone "models.py"). apply list_elem_of_here.
    + etrans; [apply (Hkept "views.py"); apply list_elem_of_further, list_elem_of_here|].
      vm_compute; reflexivity.
Defined.

Lemma handle_outcome_witness :
  (Command.handle "myapp" package).2 = Raised IsADirectoryError
  ∧ (Command.handle "myapp" flat).2 = Raised NotADirectoryError
  ∧ (Command.handle "myapp" startapp).2 = Ok ().
Proof.
  split; [|split].
  - apply (handle_outcome "myapp" package ["proj"; "myapp"] package_tree);
      [vm_compute; reflexivity..|].
    exists "tests.py". split; [|vm_compute; reflexivity].
    apply list_elem_of_further, list_elem_of_further, list_elem_of_here.
  - apply (handle_outcome "myapp" flat ["proj"; "myapp"] flat_tree);
      [vm_compute; reflexivity..|exact flat_defaults|].
    exists ["models"], "class Book". split; [|vm_compute; reflexivity].
    apply list_elem_of_further, list_elem_of_here.
  - apply (handle_outcome "myapp" startapp ["proj"; "myapp"] startapp_tree);
      [vm_compute; reflexivity..|exact startapp_defaults|exact startapp_parents].
Defined.

Lemma handle_success_report_witness :
  files (Command.handle "myapp" startapp).1 !! ["proj"; "myapp"; "admin"] = Some Dir
  ∧ files (Command.handle "myapp" startapp).1 !! ["proj"; "myapp"; "admin"; "__init__.py"]
    = Some (File "").
Proof.
  assert ((Command.handle "myapp" startapp).2 = Ok ()) as H2 by (vm_compute; reflexivity).
  destruct (handle_success_report "myapp" startapp (Command.handle "myapp" startapp).1
              ["proj"; "myapp"] startapp_tree) as [_ Hnew].
  - vm_compute; reflexivity.
  - rewrite <- H2. apply surjective_pairing.
  - apply (Hnew [] "admin"); [apply list_elem_of_here | vm_compute; reflexivity].
Defined.

Lemma handle_absolute_app_name_witness :
  Command.handle "/proj/myapp" (at_cwd "/srv" startapp)
  = (at_cwd "/srv" (Command.handle "/proj/myapp" startapp).1,
     (Command.handle "/proj/myapp" startapp).2).
Proof.
  apply (handle_absolute_app_name "/proj/myapp" startapp "/srv");
    [reflexivity | exact startapp_tree].
Defined.

Lemma create_folder_with_init_twice_witness :
  Command.create_folder_with_init "/proj/myapp/models/helper"
    (Command.create_folder_with_init "/proj/myapp/models/helper" fresh).1
  = ((Command.create_folder_with_init "/proj/myapp/models/helper" fresh).1, Ok ()).
Proof.
  assert ((Command.create_folder_with_init "/proj/myapp/models/helper" fresh).2 = Ok ())
    as H2 by (vm_compute; reflexivity).
  destruct (create_folder_with_init_twice fresh
              (Command.create_folder_with_init "/proj/myapp/models/helper" fresh).1
              "/proj/myapp" ["proj"; "myapp"] ["models"; "helper"] fresh_tree)
    as (_ & _ & H).
  - vm_compute; reflexivity.
  - reflexivity.
  - rewrite <- H2. apply surjective_pairing.
  - exact H.
Defined.

Lemma create_folder_with_init_outcome_witness :
  Command.create_folder_with_init "/proj/myapp/models/helper/enums" flat
  = (flat, Raised NotADirectoryError).
Proof.
  apply (create_folder_with_init_outcome flat "/proj/myapp" ["proj"; "myapp"]
           ["models"; "helper"; "enums"] flat_tree);
    [vm_compute; reflexivity | reflexivity |].
  exists ["models"], "helper", ["enums"], "class Book".
  split; [reflexivity | vm_compute; reflexivity].
Defined.

Lemma handle_messages_witness :
  ∃ ms, out (Command.handle "myapp" startapp).1 = out startapp ++ ms
    ∧ SUCCESS (final_text "myapp") ∈ ms.
Proof.
  destruct (handle_messages "myapp" startapp (Command.handle "myapp" startapp).1
              (Command.handle "myapp" startapp).2 startapp_tree (surjective_pairing _))
    as (ms & Ho & _ & Hfin & _).
  exists ms. split; [exact Ho|]. apply Hfin. split; [vm_compute; reflexivity|].
  assert (stat (files startapp) (cwd startapp) (join (cwd startapp) ["myapp"])
          = Ok ["proj"; "myapp"]) as Hs by (vm_compute; reflexivity).
  unfold Os.path_exists. rewrite Hs. reflexivity.
Defined.


Lemma handle_stops_at_file_witness :
  ∃ w', Command.handle "myapp" flat = (w', Raised NotADirectoryError)
    ∧ files w' !! ["proj"; "myapp"; "admin"; "__init__.py"] = Some (File "")
    ∧ files w' !! ["proj"; "myapp"; "signals"] = None.
Proof.
  assert (Forall (λ t : list string * string,
            files flat !! (["proj"; "myapp"] ++ t.1) = Some Dir
            ∨ files flat !! (["proj"; "myapp"] ++ t.1) = None) (take 13 targets)) as HF.
  { apply (bool_decide_unpack _). vm_compute; reflexivity. }
  destruct (handle_stops_at_file "myapp" flat ["proj"; "myapp"]
              (take 13 targets) (drop 14 targets) ["models"] "helper" "class Book"
              flat_tree)
    as (w' & E & _ & _ & Hmade & Hkept).
  - vm_compute; reflexivity.
  - vm_compute; reflexivity.
  - exact flat_defaults.
  - reflexivity.
  - intros t c' Hin. rewrite Forall_forall in HF.
    destruct (HF t Hin) as [-> | ->]; discriminate.
  - vm_compute; reflexivity.
  - exists w'. split; [exact E|]. split.
    + apply (Hmade ([], "admin")); [apply list_elem_of_here | vm_compute; reflexivity].
    + etrans; [apply (Hkept ([], "signals"))|vm_compute; reflexivity].
      apply (bool_decide_unpack _). vm_compute; reflexivity.
Defined.

Lemma remove_default_files_without_directory_witness :
  Command.remove_default_files "/proj/shop" startapp = (startapp, Ok ()).
Proof.
  apply (remove_default_files_without_directory "/proj/shop" startapp startapp_tree).
  - reflexivity.
  - assert (stat (files startapp) (cwd startapp) "/proj/shop" = Raised FileNotFoundError)
      as Hs by (vm_compute; reflexivity).
    intros k Hk. rewrite Hs in Hk. discriminate.
Defined.


Lemma handle_empty_app_name_witness :
  ∃ w', Command.handle "" inside = (w', Ok ())
    ∧ files w' !! ["proj"; "myapp"; "models.py"] = None
    ∧ files w' !! ["proj"; "myapp"; "admin"] = Some Dir
    ∧ files w' !! ["proj"; "myapp"; "admin"; "__init__.py"] = Some (File "").
Proof.
  destruct (handle_empty_app_name inside ["proj"; "myapp"] startapp_tree)
    as (_ & _ & _ & H); [vm_compute; reflexivity..|].
  destruct (H startapp_defaults startapp_parents) as (w' & E & Hgone & _ & Hmade & _).
  exists w'. split; [exact E|]. split.
  - apply (Hgone "models.py"). apply list_elem_of_here.
  - apply (Hmade ["admin"]); [apply list_elem_of_here | vm_compute; reflexivity].
Defined.

Lemma handle_creates_only_layout_witness :
  ∃ b p,
    stat (files startapp) (cwd startapp) (join (cwd startapp) ["myapp"]) = Ok b
    ∧ p ∈ Scaffold.contract_folders
    ∧ files startapp !! (b ++ p) = None
    ∧ ((["proj"; "myapp"; "admin"; "__init__.py"] = b ++ p
        ∧ files (Command.handle "myapp" startapp).1
            !! ["proj"; "myapp"; "admin"; "__init__.py"] = Some Dir)
       ∨ (["proj"; "myapp"; "admin"; "__init__.py"] = b ++ p ++ ["__init__.py"]
          ∧ files (Command.handle "myapp" startapp).1
              !! ["proj"; "myapp"; "admin"; "__init__.py"] = Some (File ""))).
Proof.
  apply (handle_creates_only_layout "myapp" startapp (Command.handle "myapp" startapp).1
           (Command.handle "myapp" startapp).2 ["proj"; "myapp"; "admin"; "__init__.py"]
           startapp_tree (surjective_pairing _)).
  - vm_compute; reflexivity.
  - exists (File ""). vm_compute; reflexivity.
Defined.

Lemma handle_parent_app_name_witness :
  ∃ w', Command.handle ".." deep = (w', Ok ())
    ∧ files w' !! ["proj"; "myapp"; "models.py"] = None
    ∧ files w' !! ["proj"; "myapp"; "admin"] = Some Dir
    ∧ files w' !! ["proj"; "myapp"; "admin"; "__init__.py"] = Some (File "").
Proof.
  destruct (handle_parent_app_name deep ["proj"; "myapp"; "migrations"] startapp_tree)
    as (_ & _ & _ & H); [vm_compute; reflexivity..|].
  destruct (H startapp_defaults startapp_parents) as (w' & E & Hgone & _ & Hmade).
  exists w'. split; [exact E|]. split.
  - apply (Hgone "models.py"). apply list_elem_of_here.
  - apply (Hmade ["admin"]); [apply list_elem_of_here | vm_compute; reflexivity].
Defined.

End outcome_witnesses.
